(** * astmonkey: the source generator of [astmonkey/visitors.py]

    A shallow embedding of [BaseSourceGeneratorNodeVisitor] and of the chain
    of classes [SourceGeneratorNodeVisitorPython26] ...
    [SourceGeneratorNodeVisitorPython36] that derive from it, followed by the
    properties of the rendering that the specification states.

    Conventions of the embedding.
    - A Python object that the visitor can meet is a value of [ast.node]: the
      classes of the module [ast] the visitor reads, and [str] objects
      ([ast.PyStr]), which the visitor renders through [visit_str].  An
      optional attribute is an [option]; [None] there stands both for the
      Python value [None] and for an attribute the node does not have (the
      grammars of Python 2 and Python 3 differ in the attributes of some
      classes, and the source tests them with [_is_node_args_valid]).
    - The visitor object is the record [generator]; a method is a function
      in the monad [M], which threads the generator and stops at the first
      exception raised.
    - [ast.NodeVisitor.visit] and [generic_visit] belong to the Python
      standard library; they are embedded from its documented behaviour:
      [visit] calls the method [visit_<class name>] when the class of the
      visitor has one and [generic_visit] otherwise.
    - A node kept for a later call of [self.visit] (a default value paired
      with its parameter by [zip], a starred argument put aside) is kept as
      that suspended call, a value of [M unit]; this keeps [visit] a
      structural recursion on the tree.
    - The identity of objects is kept where the source reads it: the
      tests [target is not node.targets[-1]] and
      [with_item != node.items[-1]] compare objects, and the nodes
      [Delete] and [With] say which positions of the list hold the object
      that ends it.
    - A truth test ([if key:], [if node.value:], [if node.msg:]) is
      [truth]: false for [None] and for an empty [str], true for a node.
    - Strings are strings of ASCII characters and the number of a [Num]
      node is an integer; [repr] is embedded for these. *)

From Stdlib Require Import List String Ascii ZArith Bool Lia DecimalString.
From Stdlib Require Import Setoid Morphisms RelationClasses.
Import ListNotations.

Set Warnings "-register-all".

#[local] Open Scope string_scope.
#[local] Open Scope Z_scope.

(** ** Python strings and lists *)

Module py.

(** The line feed, and the one-character string holding it. *)
Definition LF : ascii := ascii_of_nat 10.
Definition nl : string := String LF EmptyString.

(** [''.join(l)]. *)
Definition join (l : list string) : string := String.concat "" l.

(** [sep.join(l)]. *)
Definition join_with (sep : string) (l : list string) : string :=
  String.concat sep l.

(** [s * n]: the empty string when [n <= 0]. *)
Fixpoint repeat_string (s : string) (n : nat) : string :=
  match n with
  | O => ""
  | S k => s ++ repeat_string s k
  end.

Definition mul (s : string) (n : Z) : string := repeat_string s (Z.to_nat n).

(** [s.split('\n')]: the pieces between line feeds; never empty. *)
Fixpoint split_lines (s : string) : list string :=
  match s with
  | EmptyString => [""]
  | String c r =>
      if Ascii.eqb c LF then "" :: split_lines r
      else match split_lines r with
           | h :: t => String c h :: t
           | [] => [String c ""]
           end
  end.

(** The number of line feeds of a string. *)
Fixpoint count_LF (s : string) : nat :=
  match s with
  | EmptyString => O
  | String c r => if Ascii.eqb c LF then S (count_LF r) else count_LF r
  end.

(** [s.lstrip(c)] and [s.rstrip(c)] for a one-character set. *)
Fixpoint lstrip (c : ascii) (s : string) : string :=
  match s with
  | String a r => if Ascii.eqb a c then lstrip c r else s
  | EmptyString => ""
  end.

Fixpoint rstrip (c : ascii) (s : string) : string :=
  match s with
  | EmptyString => ""
  | String a r =>
      match rstrip c r with
      | EmptyString => if Ascii.eqb a c then "" else String a ""
      | r' => String a r'
      end
  end.

(** [len(l)] as a Python integer. *)
Definition len {A : Type} (l : list A) : Z := Z.of_nat (List.length l).

End py.

(** ** The nodes of the module [ast] *)

Module ast.

(** The operator classes; [type(node.op)] is one of them. *)
Inductive operator_class : Type :=
| And | Or
| Add | Sub | Mult | MatMult | Div | Mod | Pow | LShift | RShift
| BitOr | BitXor | BitAnd | FloorDiv
| Invert | Not | UAdd | USub
| Eq | NotEq | Lt | LtE | Gt | GtE | Is | IsNot | In | NotIn.

(** The values of a [NameConstant]. *)
Inductive singleton : Type := PyNone | PyTrue | PyFalse.

(** The objects the visitor renders.  Statements, expressions and
    exception handlers carry [lineno]; an [op] field holds the class of the
    operator node, which has no field of its own; the expression contexts
    ([ctx]) are left out, no rendering rule reads them.  The attribute
    [arg] of the classes [arg] and [keyword] is the field [name] here, and
    the attribute [id] of a [Name] is a [str].

    A value of [node] does not say whether two of its parts are one and
    the same Python object.  Two rules compare the elements of a list with
    its last element by identity ([target is not node.targets[-1]] and
    [with_item != node.items[-1]]); the nodes [Delete] and [With] carry
    what these tests read: for each position of the list, whether the
    object there is the object that ends the list.  A position without a
    flag holds an object of its own, and at the last position the flag is
    not read, the last element being itself. *)
Inductive node : Type :=
| PyStr (s : string)
| Module (body : list node)
(* statements *)
| FunctionDef (lineno : option Z) (name : string) (args : node)
    (body : list node) (decorator_list : list node) (returns : option node)
| AsyncFunctionDef (lineno : option Z) (name : string) (args : node)
    (body : list node) (decorator_list : list node) (returns : option node)
| ClassDef (lineno : option Z) (name : string) (bases : list node)
    (keywords : option (list node)) (body : list node)
    (decorator_list : list node)
| Return (lineno : option Z) (value : option node)
| Delete (lineno : option Z) (targets : list node)
    (target_is_last : list bool)
| Assign (lineno : option Z) (targets : list node) (value : node)
| AugAssign (lineno : option Z) (target : node) (op : operator_class)
    (value : node)
| Print (lineno : option Z) (dest : option node) (values : list node)
    (nl : bool)
| For (lineno : option Z) (target iter : node) (body orelse : list node)
| AsyncFor (lineno : option Z) (target iter : node)
    (body orelse : list node)
| While (lineno : option Z) (test : node) (body orelse : list node)
| If (lineno : option Z) (test : node) (body orelse : list node)
| With (lineno : option Z) (context_expr optional_vars : option node)
    (items : option (list node)) (item_is_last : list bool)
    (body : list node)
| Raise (lineno : option Z) (type inst tback exc cause : option node)
| TryExcept (lineno : option Z) (body handlers orelse : list node)
| TryFinally (lineno : option Z) (body finalbody : list node)
| Try (lineno : option Z) (body handlers orelse finalbody : list node)
| Assert (lineno : option Z) (test : node) (msg : option node)
| Import (lineno : option Z) (names : list node)
| ImportFrom (lineno : option Z) (module : option string)
    (names : list node) (level : Z)
| Global (lineno : option Z) (names : list string)
| Nonlocal (lineno : option Z) (names : list string)
| Expr (lineno : option Z) (value : node)
| Pass (lineno : option Z)
| Break (lineno : option Z)
| Continue (lineno : option Z)
(* expressions *)
| BoolOp (lineno : option Z) (op : operator_class) (values : list node)
| BinOp (lineno : option Z) (left : node) (op : operator_class)
    (right : node)
| UnaryOp (lineno : option Z) (op : operator_class) (operand : node)
| Lambda (lineno : option Z) (args : node) (body : node)
| IfExp (lineno : option Z) (test body orelse : node)
| Dict (lineno : option Z) (keys : list (option node))
    (values : list node)
| Set_ (lineno : option Z) (elts : list node)
| ListComp (lineno : option Z) (elt : node) (generators : list node)
| SetComp (lineno : option Z) (elt : node) (generators : list node)
| DictComp (lineno : option Z) (key value : node)
    (generators : list node)
| GeneratorExp (lineno : option Z) (elt : node) (generators : list node)
| Await (lineno : option Z) (value : option node)
| Yield (lineno : option Z) (value : option node)
| YieldFrom (lineno : option Z) (value : node)
| Compare (lineno : option Z) (left : node) (ops : list operator_class)
    (comparators : list node)
| Call (lineno : option Z) (func : node) (args keywords : list node)
    (starargs kwargs : option node)
| Repr (lineno : option Z) (value : node)
| Num (lineno : option Z) (n : Z)
| Str (lineno : option Z) (s : string)
| Bytes (lineno : option Z) (s : string)
| NameConstant (lineno : option Z) (value : singleton)
| Ellipsis (lineno : option Z)
| FormattedValue (lineno : option Z) (value format_spec : option node)
| JoinedStr (lineno : option Z) (values : option (list node))
| Attribute (lineno : option Z) (value : node) (attr : string)
| Subscript (lineno : option Z) (value slice : node)
| Starred (lineno : option Z) (value : node)
| Name (lineno : option Z) (id : string)
| List (lineno : option Z) (elts : list node)
| Tuple (lineno : option Z) (elts : list node)
(* slices *)
| Slice (lower upper step : option node)
| ExtSlice (dims : list node)
| Index (value : node)
(* the other classes *)
| comprehension (target iter : node) (ifs : list node)
| ExceptHandler (lineno : option Z) (type name : option node)
    (body : list node)
| arguments (args : list node) (vararg : option node)
    (kwonlyargs : list node) (kw_defaults : list (option node))
    (kwarg : option node) (defaults : list node)
| arg (name : string) (annotation : option node)
| keyword (name : option string) (value : node)
| alias (name : string) (asname : option string)
| withitem (context_expr : node) (optional_vars : option node).

(** [str(value)] of a [NameConstant] value. *)
Definition str_singleton (v : singleton) : string :=
  match v with PyNone => "None" | PyTrue => "True" | PyFalse => "False" end.

End ast.

(** The truth value [bool(x)] of an object: an AST node is true (the
    classes of [ast] define neither [__bool__] nor [__len__]), a [str] is
    true when it is not empty.  [None] is false: see [truth_value]. *)
Definition truth (x : ast.node) : bool :=
  match x with
  | ast.PyStr EmptyString => false
  | _ => true
  end.

Definition truth_value (x : option ast.node) : bool :=
  match x with
  | Some x => truth x
  | None => false
  end.

(** [x is l[-1]], for the element [x] that is followed by [r] in [l];
    [flags] are the identity flags of [l] from the position of [x] on. *)
Definition is_last {A : Type} (r : list A) (flags : list bool) : bool :=
  match r with
  | [] => true
  | _ :: _ => hd false flags
  end.

(** [_is_node_args_valid(node, 'lineno')] together with the value read:
    the line number of a node that has one. *)
Definition lineno (node : ast.node) : option Z :=
  match node with
  | ast.FunctionDef l _ _ _ _ _ | ast.AsyncFunctionDef l _ _ _ _ _
  | ast.ClassDef l _ _ _ _ _ | ast.Return l _ | ast.Delete l _ _
  | ast.Assign l _ _ | ast.AugAssign l _ _ _ | ast.Print l _ _ _
  | ast.For l _ _ _ _ | ast.AsyncFor l _ _ _ _ | ast.While l _ _ _
  | ast.If l _ _ _ | ast.With l _ _ _ _ _ | ast.Raise l _ _ _ _ _
  | ast.TryExcept l _ _ _ | ast.TryFinally l _ _ | ast.Try l _ _ _ _
  | ast.Assert l _ _ | ast.Import l _ | ast.ImportFrom l _ _ _
  | ast.Global l _ | ast.Nonlocal l _ | ast.Expr l _ | ast.Pass l
  | ast.Break l | ast.Continue l
  | ast.BoolOp l _ _ | ast.BinOp l _ _ _ | ast.UnaryOp l _ _
  | ast.Lambda l _ _ | ast.IfExp l _ _ _ | ast.Dict l _ _ | ast.Set_ l _
  | ast.ListComp l _ _ | ast.SetComp l _ _ | ast.DictComp l _ _ _
  | ast.GeneratorExp l _ _ | ast.Await l _ | ast.Yield l _
  | ast.YieldFrom l _ | ast.Compare l _ _ _ | ast.Call l _ _ _ _ _
  | ast.Repr l _ | ast.Num l _ | ast.Str l _ | ast.Bytes l _
  | ast.NameConstant l _ | ast.Ellipsis l | ast.FormattedValue l _ _
  | ast.JoinedStr l _ | ast.Attribute l _ _ | ast.Subscript l _ _
  | ast.Starred l _ | ast.Name l _ | ast.List l _ | ast.Tuple l _
  | ast.ExceptHandler l _ _ _ => l
  | ast.PyStr _ | ast.Module _ | ast.Slice _ _ _ | ast.ExtSlice _
  | ast.Index _ | ast.comprehension _ _ _ | ast.arguments _ _ _ _ _ _
  | ast.arg _ _ | ast.keyword _ _ | ast.alias _ _ | ast.withitem _ _ => None
  end.

(** ** The symbol tables *)

Definition BOOLOP_SYMBOLS (op : ast.operator_class) : option string :=
  match op with
  | ast.And => Some "and"
  | ast.Or => Some "or"
  | _ => None
  end.

Definition BINOP_SYMBOLS (op : ast.operator_class) : option string :=
  match op with
  | ast.Add => Some "+"
  | ast.Sub => Some "-"
  | ast.Mult => Some "*"
  | ast.Div => Some "/"
  | ast.FloorDiv => Some "//"
  | ast.Mod => Some "%"
  | ast.LShift => Some "<<"
  | ast.RShift => Some ">>"
  | ast.BitOr => Some "|"
  | ast.BitAnd => Some "&"
  | ast.BitXor => Some "^"
  | ast.Pow => Some "**"
  | _ => None
  end.

Definition CMPOP_SYMBOLS (op : ast.operator_class) : option string :=
  match op with
  | ast.Eq => Some "=="
  | ast.Gt => Some ">"
  | ast.GtE => Some ">="
  | ast.In => Some "in"
  | ast.Is => Some "is"
  | ast.IsNot => Some "is not"
  | ast.Lt => Some "<"
  | ast.LtE => Some "<="
  | ast.NotEq => Some "!="
  | ast.NotIn => Some "not in"
  | _ => None
  end.

Definition UNARYOP_SYMBOLS (op : ast.operator_class) : option string :=
  match op with
  | ast.Invert => Some "~"
  | ast.Not => Some "not"
  | ast.UAdd => Some "+"
  | ast.USub => Some "-"
  | _ => None
  end.

(** [ALL_SYMBOLS]: the four tables merged, a later [update] winning. *)
Definition ALL_SYMBOLS (op : ast.operator_class) : option string :=
  match UNARYOP_SYMBOLS op with
  | Some t => Some t
  | None =>
      match CMPOP_SYMBOLS op with
      | Some t => Some t
      | None =>
          match BINOP_SYMBOLS op with
          | Some t => Some t
          | None => BOOLOP_SYMBOLS op
          end
      end
  end.

(** ** The generator object and the monad of its methods *)

(** The exceptions the rendering can raise.  A subscript of a symbol table
    at a missing operator class raises [KeyError]. *)
Inductive exn : Type := KeyError | AttributeError | TypeError.

(** The attributes set by [__init__]. *)
Record generator : Type := mk_generator {
  result : list string;
  indent_with : string;
  indentation : Z;
  new_line : bool
}.

(** [BaseSourceGeneratorNodeVisitor.__init__]. *)
Definition init (indent : string) : generator :=
  {| result := []; indent_with := indent; indentation := 0;
     new_line := false |}.

Inductive outcome (A : Type) : Type :=
| Returns (a : A) (g : generator)
| Raises (e : exn).

Arguments Returns {A} a g.
Arguments Raises {A} e.

Definition M (A : Type) : Type := generator -> outcome A.

Definition ret {A : Type} (a : A) : M A := fun g => Returns a g.

Definition bind {A B : Type} (m : M A) (k : A -> M B) : M B :=
  fun g =>
    match m g with
    | Returns a g' => k a g'
    | Raises e => Raises e
    end.

Definition raise {A : Type} (e : exn) : M A := fun _ => Raises e.

Definition get : M generator := fun g => Returns g g.

Declare Scope py_scope.
Delimit Scope py_scope with py.

Notation "x <- m ;; k" := (bind m (fun x => k))
  (at level 61, m at next level, right associativity) : py_scope.
Notation "' pat <- m ;; k" :=
  (bind m (fun x => match x with pat => k end))
  (at level 61, pat pattern, m at next level, right associativity) : py_scope.
Notation "m ;; k" := (bind m (fun _ => k))
  (at level 61, right associativity) : py_scope.

#[local] Open Scope py_scope.

(** [self.result.append(x)]. *)
Definition append (x : string) : M unit :=
  fun g => Returns tt
    {| result := result g ++ [x]; indent_with := indent_with g;
       indentation := indentation g; new_line := new_line g |}.

(** [self.new_line = b]. *)
Definition set_new_line (b : bool) : M unit :=
  fun g => Returns tt
    {| result := result g; indent_with := indent_with g;
       indentation := indentation g; new_line := b |}.

(** [self.indentation += k]. *)
Definition add_indentation (k : Z) : M unit :=
  fun g => Returns tt
    {| result := result g; indent_with := indent_with g;
       indentation := indentation g + k; new_line := new_line g |}.

(** ** Loops *)

Section Loops.

Context {A B St : Type}.

(** [for x in l: f(x)]. *)
Section Each.
Variable f : A -> M unit.

Fixpoint for_each (l : list A) : M unit :=
  match l with
  | [] => ret tt
  | x :: r => f x ;; for_each r
  end.
End Each.

(** [for x in l: ...], the body reading and updating the local variables
    gathered in [s]. *)
Section Fold.
Variable f : A -> St -> M St.

Fixpoint for_fold (l : list A) (s : St) : M St :=
  match l with
  | [] => ret s
  | x :: r => s' <- f x s ;; for_fold r s'
  end.
End Fold.

(** [for x, y in zip(l, l'): ...], with local variables. *)
Section Zip.
Variable f : A -> B -> St -> M St.

Fixpoint for_zip (l : list A) (l' : list B) (s : St) : M St :=
  match l, l' with
  | x :: r, y :: r' => s' <- f x y s ;; for_zip r r' s'
  | _, _ => ret s
  end.
End Zip.

(** [for idx, x in enumerate(l): ...], counting from [idx]; the value
    returned is the last index bound to [idx], or [idx0] when the loop
    body never ran. *)
Section Enumerate.
Variable f : Z -> A -> M unit.

Fixpoint for_enumerate (idx : Z) (l : list A) (idx0 : Z) : M Z :=
  match l with
  | [] => ret idx0
  | x :: r => f idx x ;; for_enumerate (idx + 1) r idx
  end.
End Enumerate.

(** [[m() for _ in range(n)]]. *)
Fixpoint times (n : nat) (m : M unit) : M unit :=
  match n with
  | O => ret tt
  | S k => m ;; times k m
  end.

End Loops.

(** ** The builtin [repr] *)

Module builtins.

Definition SQ : ascii := ascii_of_nat 39.
Definition DQ : ascii := ascii_of_nat 34.
Definition BACKSLASH : ascii := ascii_of_nat 92.

Definition hex_digit (n : nat) : ascii :=
  ascii_of_nat (if Nat.ltb n 10 then 48 + n else 87 + n).

Fixpoint contains (c : ascii) (s : string) : bool :=
  match s with
  | EmptyString => false
  | String a r => Ascii.eqb a c || contains c r
  end.

(** One character of the body of a [repr]: the quote and the backslash
    are escaped, tab, line feed and carriage return have their letter,
    any other character outside the printable ASCII range is written
    [\xhh]. *)
Definition escape (quote c : ascii) : string :=
  let n := nat_of_ascii c in
  if Ascii.eqb c quote || Ascii.eqb c BACKSLASH then
    String BACKSLASH (String c "")
  else if Nat.eqb n 9 then String BACKSLASH "t"
  else if Nat.eqb n 10 then String BACKSLASH "n"
  else if Nat.eqb n 13 then String BACKSLASH "r"
  else if Nat.ltb n 32 || Nat.leb 127 n then
    String BACKSLASH
      (String "x" (String (hex_digit (Nat.div n 16))
                     (String (hex_digit (Nat.modulo n 16)) "")))
  else String c "".

Fixpoint escape_all (quote : ascii) (s : string) : string :=
  match s with
  | EmptyString => ""
  | String c r => escape quote c ++ escape_all quote r
  end.

(** [repr(s)] for a string of ASCII characters: single quotes, unless the
    string holds a single quote and no double quote. *)
Definition repr_str (s : string) : string :=
  let quote := if contains SQ s && negb (contains DQ s) then DQ else SQ in
  String quote (escape_all quote s ++ String quote "").

(** [repr(b)] for a [bytes] object. *)
Definition repr_bytes (s : string) : string := "b" ++ repr_str s.

(** [repr(n)] for an integer (an [int]; a Python 2 [long] would carry the
    suffix [L]). *)
Definition repr_int (n : Z) : string :=
  DecimalString.NilZero.string_of_int (Z.to_int n).

End builtins.

(** ** The classes of the generator *)

Inductive visitor_class : Type :=
| BaseSourceGeneratorNodeVisitor
| SourceGeneratorNodeVisitorPython26
| SourceGeneratorNodeVisitorPython27
| SourceGeneratorNodeVisitorPython30
| SourceGeneratorNodeVisitorPython31
| SourceGeneratorNodeVisitorPython32
| SourceGeneratorNodeVisitorPython33
| SourceGeneratorNodeVisitorPython34
| SourceGeneratorNodeVisitorPython35
| SourceGeneratorNodeVisitorPython36.

Abbreviation Base := BaseSourceGeneratorNodeVisitor.
Abbreviation Py26 := SourceGeneratorNodeVisitorPython26.
Abbreviation Py27 := SourceGeneratorNodeVisitorPython27.
Abbreviation Py30 := SourceGeneratorNodeVisitorPython30.
Abbreviation Py31 := SourceGeneratorNodeVisitorPython31.
Abbreviation Py32 := SourceGeneratorNodeVisitorPython32.
Abbreviation Py33 := SourceGeneratorNodeVisitorPython33.
Abbreviation Py34 := SourceGeneratorNodeVisitorPython34.
Abbreviation Py35 := SourceGeneratorNodeVisitorPython35.
Abbreviation Py36 := SourceGeneratorNodeVisitorPython36.

(** The class named in the [class] statement of each. *)
Definition superclass (c : visitor_class) : option visitor_class :=
  match c with
  | Base => None
  | Py26 => Some Base
  | Py27 => Some Py26
  | Py30 => Some Py27
  | Py31 => Some Py30
  | Py32 => Some Py31
  | Py33 => Some Py32
  | Py34 => Some Py33
  | Py35 => Some Py34
  | Py36 => Some Py35
  end.

(** [__python_version__]. *)
Definition python_version (c : visitor_class) : option (nat * nat) :=
  match c with
  | Base => None
  | Py26 => Some (2, 6)%nat
  | Py27 => Some (2, 7)%nat
  | Py30 => Some (3, 0)%nat
  | Py31 => Some (3, 1)%nat
  | Py32 => Some (3, 2)%nat
  | Py33 => Some (3, 3)%nat
  | Py34 => Some (3, 4)%nat
  | Py35 => Some (3, 5)%nat
  | Py36 => Some (3, 6)%nat
  end.

(** The place of a class in the chain, the base class first. *)
Definition rank (c : visitor_class) : nat :=
  match c with
  | Base => 0 | Py26 => 1 | Py27 => 2 | Py30 => 3 | Py31 => 4
  | Py32 => 5 | Py33 => 6 | Py34 => 7 | Py35 => 8 | Py36 => 9
  end%nat.

(** The method resolution order of a class: the class, then the order of
    its superclass. *)
Fixpoint mro_from (fuel : nat) (c : visitor_class) : list visitor_class :=
  match fuel with
  | O => []
  | S k =>
      c :: match superclass c with
           | Some p => mro_from k p
           | None => []
           end
  end.

Definition mro (c : visitor_class) : list visitor_class :=
  mro_from (S (rank c)) c.

(** Attribute lookup on an instance of [self]: the definition of the first
    class of the order that has one. *)
Fixpoint first_defined {A : Type} (own : visitor_class -> option A)
    (l : list visitor_class) : option A :=
  match l with
  | [] => None
  | c :: r =>
      match own c with
      | Some a => Some a
      | None => first_defined own r
      end
  end.

Definition resolve {A : Type} (own : visitor_class -> option A)
    (self : visitor_class) : option A :=
  first_defined own (mro self).

(** ** Writing and line reconciliation *)

(** [write_newline]. *)
Definition write_newline : M unit :=
  g <- get ;;
  match result g with
  | [] => ret tt
  | _ :: _ => append py.nl
  end ;;
  append (py.mul (indent_with g) (indentation g)) ;;
  set_new_line false.

(** The local [lines] of [add_missing_lines]. *)
Definition lines (g : generator) : Z :=
  match result g with
  | [] => 0
  | _ :: _ => py.len (py.split_lines (py.join (result g)))
  end.

(** [add_missing_lines]. *)
Definition add_missing_lines (node : ast.node) : M unit :=
  g <- get ;;
  match lineno node with
  | None => raise AttributeError
  | Some node_lineno =>
      let line_diff := node_lineno - lines g in
      if line_diff =? 0 then ret tt
      else times (Z.to_nat line_diff) write_newline
  end.

(** [correct_line_number]. *)
Definition correct_line_number (node : option ast.node) : M unit :=
  g <- get ;;
  (if new_line g then write_newline else ret tt) ;;
  match node with
  | Some n =>
      match lineno n with
      | Some _ => add_missing_lines n
      | None => ret tt
      end
  | None => ret tt
  end.

(** [write]. *)
Definition write (x : string) (node : option ast.node) : M unit :=
  correct_line_number node ;;
  append x.

(** [newline]. *)
Definition newline (node : option ast.node) : M unit :=
  set_new_line true ;;
  correct_line_number node.

(** A subscript [TABLE[type(op)]]. *)
Definition subscript (table : ast.operator_class -> option string)
    (op : ast.operator_class) : M string :=
  match table op with
  | Some token => ret token
  | None => raise KeyError
  end.

(** ** The methods of the generator

    [self] is the class of the generator object; [visit] is [self.visit].
    [visit_elif] renders an [If] node met on the [elif] chain of
    [visit_If]: the iterations of the [while] loop of that method. *)

Section Methods.

Variable self : visitor_class.
Variable visit : ast.node -> M unit.
Variable visit_elif : ast.node -> M unit.

(** [body]. *)
Definition body (statements : list ast.node) : M unit :=
  set_new_line true ;;
  add_indentation 1 ;;
  for_each visit statements ;;
  add_indentation (-1).

(** [body_or_else], on [node.body] and [node.orelse]. *)
Definition body_or_else (node_body node_orelse : list ast.node) : M unit :=
  body node_body ;;
  match node_orelse with
  | [] => ret tt
  | _ :: _ =>
      newline None ;;
      write "else:" None ;;
      body node_orelse
  end.

(** [docstring]: [node] is an instance of [Str]. *)
Definition docstring (s : string) : M unit :=
  let quotes := String builtins.DQ (String builtins.DQ
                  (String builtins.DQ "")) in
  write (quotes ++ s ++ quotes) None.

(** The closure [write_comma] of [signature] and [call_signature]; the
    list [want_comma] it updates is the boolean taken and returned. *)
Definition write_comma (want_comma : bool) : M bool :=
  if want_comma then write ", " None ;; ret want_comma
  else ret true.

(** [signature_arg]; [default] is the suspended [self.visit(default)]. *)
Definition signature_arg_Base (arg : ast.node) (default : option (M unit))
    (want_comma : bool) : M bool :=
  want_comma <- write_comma want_comma ;;
  visit arg ;;
  match default with
  | Some visit_default => write "=" None ;; visit_default
  | None => ret tt
  end ;;
  ret want_comma.

Definition signature_arg_Python30 (arg : ast.node)
    (default : option (M unit)) (want_comma : bool) : M bool :=
  want_comma <- signature_arg_Base arg default want_comma ;;
  match arg with
  | ast.arg _ (Some annotation) => write ": " None ;; visit annotation
  | _ => ret tt
  end ;;
  ret want_comma.

Definition own_signature_arg (c : visitor_class) (arg : ast.node)
    (default : option (M unit)) (want_comma : bool) : option (M bool) :=
  match c with
  | Base => Some (signature_arg_Base arg default want_comma)
  | Py30 => Some (signature_arg_Python30 arg default want_comma)
  | _ => None
  end.

Definition signature_arg (arg : ast.node) (default : option (M unit))
    (want_comma : bool) : M bool :=
  match resolve (fun c => own_signature_arg c arg default want_comma) self
  with
  | Some method => method
  | None => raise AttributeError
  end.

(** [signature_vararg] and [signature_kwarg]: [node] is the [arguments]
    object.  In the base class the name is a [str]; from Python 3.4 on it
    is read from the attribute [arg] of the object. *)
Definition plus_str (prefix : string) (x : ast.node) : M string :=
  match x with
  | ast.PyStr s => ret (prefix ++ s)
  | _ => raise TypeError
  end.

Definition plus_attr_arg (prefix : string) (x : ast.node) : M string :=
  match x with
  | ast.arg name _ => ret (prefix ++ name)
  | ast.keyword (Some name) _ => ret (prefix ++ name)
  | ast.keyword None _ => raise TypeError
  | _ => raise AttributeError
  end.

Definition signature_star (selfclass34 : bool) (prefix : string)
    (star : option ast.node) (want_comma : bool) : M bool :=
  match star with
  | Some x =>
      want_comma <- write_comma want_comma ;;
      text <- (if selfclass34 then plus_attr_arg prefix x
               else plus_str prefix x) ;;
      write text None ;;
      ret want_comma
  | None => ret want_comma
  end.

Definition own_signature_vararg (c : visitor_class) (node : ast.node)
    (want_comma : bool) : option (M bool) :=
  match c, node with
  | Base, ast.arguments _ vararg _ _ _ _ =>
      Some (signature_star false "*" vararg want_comma)
  | Py34, ast.arguments _ vararg _ _ _ _ =>
      Some (signature_star true "*" vararg want_comma)
  | Base, _ | Py34, _ => Some (raise AttributeError)
  | _, _ => None
  end.

Definition own_signature_kwarg (c : visitor_class) (node : ast.node)
    (want_comma : bool) : option (M bool) :=
  match c, node with
  | Base, ast.arguments _ _ _ _ kwarg _ =>
      Some (signature_star false "**" kwarg want_comma)
  | Py34, ast.arguments _ _ _ _ kwarg _ =>
      Some (signature_star true "**" kwarg want_comma)
  | Base, _ | Py34, _ => Some (raise AttributeError)
  | _, _ => None
  end.

Definition signature_vararg (node : ast.node) (want_comma : bool)
    : M bool :=
  match resolve (fun c => own_signature_vararg c node want_comma) self with
  | Some method => method
  | None => raise AttributeError
  end.

Definition signature_kwarg (node : ast.node) (want_comma : bool)
    : M bool :=
  match resolve (fun c => own_signature_kwarg c node want_comma) self with
  | Some method => method
  | None => raise AttributeError
  end.

(** [signature]: [node] is the [arguments] object; the loop runs over
    [zip(node.args, padding + node.defaults)]. *)
Definition signature (node : ast.node) : M unit :=
  match node with
  | ast.arguments args _ _ _ _ defaults =>
      let padding : list (option (M unit)) :=
        repeat None (Z.to_nat (py.len args - py.len defaults)) in
      want_comma <-
        for_zip signature_arg args
          (padding ++ map (fun default => Some (visit default)) defaults)%list
          false ;;
      want_comma <- signature_vararg node want_comma ;;
      want_comma <- signature_kwarg node want_comma ;;
      ret tt
  | ast.FunctionDef _ _ _ _ _ _ | ast.AsyncFunctionDef _ _ _ _ _ _
  | ast.Lambda _ _ _ => raise TypeError
  | _ => raise AttributeError
  end.

(** [decorators], on [node.decorator_list]. *)
Definition decorators (decorator_list : list ast.node) : M unit :=
  for_each
    (fun decorator =>
       newline (Some decorator) ;;
       write "@" None ;;
       visit decorator)
    decorator_list.

(** *** Statements *)

Definition visit_Assign (node : ast.node) (targets : list ast.node)
    (value : ast.node) : M unit :=
  newline (Some node) ;;
  for_enumerate
    (fun idx target =>
       (if idx =? 0 then ret tt else write " = " None) ;;
       visit target)
    0 targets 0 ;;
  write " = " None ;;
  visit value.

Definition visit_AugAssign (node target : ast.node)
    (op : ast.operator_class) (value : ast.node) : M unit :=
  newline (Some node) ;;
  visit target ;;
  token <- subscript BINOP_SYMBOLS op ;;
  write (" " ++ token ++ "= ") None ;;
  visit value.

(** The list [imports] of [visit_ImportFrom]; an element of [node.names]
    that has no attributes [name] and [asname] raises. *)
Fixpoint import_names (names : list ast.node) : M (list string) :=
  match names with
  | [] => ret []
  | ast.alias name asname :: r =>
      let name :=
        match asname with
        | Some (String c s) => name ++ " as " ++ String c s
        | _ => name
        end in
      imports <- import_names r ;;
      ret (name :: imports)
  | _ :: _ => raise AttributeError
  end.

Definition visit_ImportFrom (node : ast.node) (module : option string)
    (names : list ast.node) (level : Z) : M unit :=
  newline (Some node) ;;
  imports <- import_names names ;;
  write ("from " ++ py.mul "." level
           ++ match module with Some m => m | None => "" end
           ++ " import " ++ py.join_with ", " imports) None.

Definition visit_Import (node : ast.node) (names : list ast.node)
    : M unit :=
  newline (Some node) ;;
  for_each (fun item => write "import " None ;; visit item) names.

(** [_prefixes]. *)
Definition _prefixes (prefixes : list string) : M unit :=
  write (py.join_with " " prefixes) None ;;
  match prefixes with
  | [] => ret tt
  | _ :: _ => write " " None
  end.

(** [function_definition], on the attributes of [node]. *)
Definition function_definition (node : ast.node) (name : string)
    (args : ast.node) (node_body decorator_list : list ast.node)
    (prefixes : list string) : M unit :=
  decorators decorator_list ;;
  newline (Some node) ;;
  _prefixes prefixes ;;
  write ("def " ++ name ++ "(") (Some node) ;;
  signature args ;;
  write "):" None ;;
  body node_body.

Definition visit_FunctionDef_Base (node : ast.node) (name : string)
    (args : ast.node) (node_body decorator_list : list ast.node)
    : M unit :=
  function_definition node name args node_body decorator_list [].

Definition visit_FunctionDef_Python30 (node : ast.node) (name : string)
    (args : ast.node) (node_body decorator_list : list ast.node)
    (returns : option ast.node) : M unit :=
  decorators decorator_list ;;
  newline (Some node) ;;
  write ("def " ++ name ++ "(") (Some node) ;;
  signature args ;;
  write ")" None ;;
  match returns with
  | Some r => write " -> " None ;; visit r
  | None => ret tt
  end ;;
  write ":" None ;;
  body node_body.

(** The closure [paren_or_comma] of [visit_ClassDef]. *)
Definition paren_or_comma (have_args : bool) : M bool :=
  if have_args then write ", " None ;; ret have_args
  else write "(" None ;; ret true.

Definition class_item (x : ast.node) (have_args : bool) : M bool :=
  have_args <- paren_or_comma have_args ;;
  visit x ;;
  ret have_args.

Definition visit_ClassDef_Base (node : ast.node) (name : string)
    (bases node_body decorator_list : list ast.node) : M unit :=
  decorators decorator_list ;;
  newline (Some node) ;;
  write ("class " ++ name) (Some node) ;;
  have_args <- for_fold class_item bases false ;;
  write (if have_args then "):" else ":") None ;;
  body node_body.

Definition visit_ClassDef_Python30 (node : ast.node) (name : string)
    (bases : list ast.node) (keywords : option (list ast.node))
    (node_body decorator_list : list ast.node) : M unit :=
  decorators decorator_list ;;
  newline (Some node) ;;
  write ("class " ++ name) (Some node) ;;
  have_args <- for_fold class_item bases false ;;
  have_args <-
    match keywords with
    | Some keywords => for_fold class_item keywords have_args
    | None => ret have_args
    end ;;
  write (if have_args then "):" else ":") None ;;
  body node_body.

(** [visit_If].  The [while] loop follows the chain of [elif]: when
    [node.orelse] is a single [If] node the loop goes on with that node,
    rendered by [visit_elif]; any other non-empty [orelse] is rendered
    under [else:] and ends the loop. *)
Definition if_orelse (orelse : list ast.node) : M unit :=
  match orelse with
  | [] => ret tt
  | [ast.If _ _ _ _ as node] => visit_elif node
  | else_ =>
      newline None ;;
      write "else:" None ;;
      body else_
  end.

Definition visit_If (node test : ast.node)
    (node_body orelse : list ast.node) : M unit :=
  newline (Some node) ;;
  write "if " None ;;
  visit test ;;
  write ":" None ;;
  body node_body ;;
  if_orelse orelse.

(** One more iteration of the loop of [visit_If], on the node
    [else_[0]]. *)
Definition elif_ (node : ast.node) : M unit :=
  match node with
  | ast.If _ test node_body orelse =>
      newline None ;;
      write "elif " None ;;
      visit test ;;
      write ":" None ;;
      body node_body ;;
      if_orelse orelse
  | _ => ret tt
  end.

(** [for_loop], on the attributes of [node]. *)
Definition for_loop (node target iter : ast.node)
    (node_body orelse : list ast.node) (prefixes : list string) : M unit :=
  newline (Some node) ;;
  _prefixes prefixes ;;
  write "for " None ;;
  visit target ;;
  write " in " None ;;
  visit iter ;;
  write ":" None ;;
  body_or_else node_body orelse.

Definition visit_While (node test : ast.node)
    (node_body orelse : list ast.node) : M unit :=
  newline (Some node) ;;
  write "while " None ;;
  visit test ;;
  write ":" None ;;
  body_or_else node_body orelse.

Definition visit_Pass (node : ast.node) : M unit :=
  newline (Some node) ;;
  write "pass" (Some node).

Definition visit_Print (node : ast.node) (dest : option ast.node)
    (values : list ast.node) (nl : bool) : M unit :=
  newline (Some node) ;;
  write "print " None ;;
  want_comma <-
    match dest with
    | Some d => write ">> " None ;; visit d ;; ret true
    | None => ret false
    end ;;
  for_fold
    (fun value (want_comma : bool) =>
       (if want_comma then write ", " None else ret tt) ;;
       visit value ;;
       ret true)
    values want_comma ;;
  if nl then ret tt else write "," None.

(** [visit_Delete]; the comma is written after a target that is not the
    object [node.targets[-1]]. *)
Fixpoint visit_Delete_targets (targets : list ast.node)
    (target_is_last : list bool) : M unit :=
  match targets with
  | [] => ret tt
  | target :: r =>
      visit target ;;
      (if is_last r target_is_last then ret tt else write ", " None) ;;
      visit_Delete_targets r (tl target_is_last)
  end.

Definition visit_Delete (node : ast.node) (targets : list ast.node)
    (target_is_last : list bool) : M unit :=
  newline (Some node) ;;
  write "del " None ;;
  visit_Delete_targets targets target_is_last.

Definition visit_Global (node : ast.node) (names : list string)
    : M unit :=
  newline (Some node) ;;
  write ("global " ++ py.join_with ", " names) None.

Definition visit_Nonlocal (node : ast.node) (names : list string)
    : M unit :=
  newline (Some node) ;;
  write ("nonlocal " ++ py.join_with ", " names) None.

Definition visit_Return (node : ast.node) (value : option ast.node)
    : M unit :=
  newline (Some node) ;;
  write "return" None ;;
  match value with
  | Some v => if truth v then write " " None ;; visit v else ret tt
  | None => ret tt
  end.

Definition visit_Break (node : ast.node) : M unit :=
  newline (Some node) ;;
  write "break" None.

Definition visit_Continue (node : ast.node) : M unit :=
  newline (Some node) ;;
  write "continue" None.

(** [raise_type] and [raise_exc], on the attributes of [node]. *)
Definition raise_type (type : ast.node) (inst tback : option ast.node)
    : M unit :=
  write " " None ;;
  visit type ;;
  match inst with
  | Some i => write ", " None ;; visit i
  | None => ret tt
  end ;;
  match tback with
  | Some t => write ", " None ;; visit t
  | None => ret tt
  end.

Definition raise_exc (exc : ast.node) (cause : option ast.node)
    : M unit :=
  write " " None ;;
  visit exc ;;
  match cause with
  | Some c => write " from " None ;; visit c
  | None => ret tt
  end.

Definition visit_Raise (node : ast.node)
    (type inst tback exc cause : option ast.node) : M unit :=
  newline (Some node) ;;
  write "raise" None ;;
  match exc, type with
  | Some e, _ => raise_exc e cause
  | None, Some t => raise_type t inst tback
  | None, None => ret tt
  end.

Definition visit_ExceptHandler (node : ast.node)
    (type name : option ast.node) (node_body : list ast.node) : M unit :=
  newline (Some node) ;;
  write "except" None ;;
  match type with
  | Some t =>
      write " " None ;;
      visit t ;;
      match name with
      | Some n => write " as " None ;; visit n
      | None => ret tt
      end
  | None => ret tt
  end ;;
  write ":" None ;;
  body node_body.

Definition visit_Assert (node test : ast.node) (msg : option ast.node)
    : M unit :=
  newline (Some node) ;;
  write "assert " None ;;
  visit test ;;
  match msg with
  | Some m => if truth m then write ", " None ;; visit m else ret tt
  | None => ret tt
  end.

Definition visit_TryExcept (node : ast.node)
    (node_body handlers : list ast.node) : M unit :=
  newline (Some node) ;;
  write "try:" None ;;
  body node_body ;;
  for_each visit handlers.

Definition visit_TryFinally (node : ast.node)
    (node_body finalbody : list ast.node) : M unit :=
  newline (Some node) ;;
  write "try:" None ;;
  body node_body ;;
  newline (Some node) ;;
  write "finally:" None ;;
  body finalbody.

Definition visit_Try (node : ast.node)
    (node_body handlers finalbody : list ast.node) : M unit :=
  newline (Some node) ;;
  write "try:" None ;;
  body node_body ;;
  for_each visit handlers ;;
  match finalbody with
  | [] => ret tt
  | _ :: _ =>
      newline (Some node) ;;
      write "finally:" None ;;
      body finalbody
  end.

(** [visit_With] of the base class: [node.context_expr] is read. *)
Definition visit_With_Base (node : ast.node)
    (context_expr optional_vars : option ast.node)
    (node_body : list ast.node) : M unit :=
  newline (Some node) ;;
  write "with " None ;;
  match context_expr with
  | Some e => visit e
  | None => raise AttributeError
  end ;;
  match optional_vars with
  | Some v => write " as " None ;; visit v
  | None => ret tt
  end ;;
  write ":" None ;;
  body node_body.

(** [visit_With] from Python 3.3 on: [node.items] is read; the comma is
    written after an item that is not the object [node.items[-1]] (the
    classes of [ast] do not define [__ne__]). *)
Definition with_item_ (with_item : ast.node) : M unit :=
  match with_item with
  | ast.withitem context_expr optional_vars
  | ast.With _ (Some context_expr) optional_vars _ _ _ =>
      visit context_expr ;;
      match optional_vars with
      | Some v => write " as " None ;; visit v
      | None => ret tt
      end
  | _ => raise AttributeError
  end.

Fixpoint visit_With_items (items : list ast.node)
    (item_is_last : list bool) : M unit :=
  match items with
  | [] => ret tt
  | with_item :: r =>
      with_item_ with_item ;;
      (if is_last r item_is_last then ret tt else write ", " None) ;;
      visit_With_items r (tl item_is_last)
  end.

Definition visit_With_Python33 (node : ast.node)
    (items : option (list ast.node)) (item_is_last : list bool)
    (node_body : list ast.node) : M unit :=
  newline (Some node) ;;
  write "with " None ;;
  match items with
  | Some items => visit_With_items items item_is_last
  | None => raise AttributeError
  end ;;
  write ":" None ;;
  body node_body.

(** *** [ast.NodeVisitor.generic_visit]

    The fields of the node are read in the order of [_fields]; a field
    that holds a node is visited, a field that holds a list has its
    nodes visited; any other value is skipped, a [str] too. *)
Definition visit_if_AST (x : ast.node) : M unit :=
  match x with
  | ast.PyStr _ => ret tt
  | _ => visit x
  end.

Definition visit_field (x : option ast.node) : M unit :=
  match x with
  | Some x => visit_if_AST x
  | None => ret tt
  end.

Definition visit_fields (l : list ast.node) : M unit :=
  for_each visit_if_AST l.

Definition visit_optional_fields (l : list (option ast.node)) : M unit :=
  for_each visit_field l.

Definition generic_visit (node : ast.node) : M unit :=
  match node with
  | ast.PyStr _ => raise AttributeError
  | ast.Module b => visit_fields b
  | ast.FunctionDef _ _ a b d r | ast.AsyncFunctionDef _ _ a b d r =>
      visit_if_AST a ;; visit_fields b ;; visit_fields d ;; visit_field r
  | ast.ClassDef _ _ bases keywords b d =>
      visit_fields bases ;;
      match keywords with
      | Some k => visit_fields k
      | None => ret tt
      end ;;
      visit_fields b ;; visit_fields d
  | ast.Return _ v | ast.Await _ v | ast.Yield _ v => visit_field v
  | ast.Delete _ l _ | ast.Import _ l | ast.ImportFrom _ _ l _
  | ast.BoolOp _ _ l | ast.Set_ _ l | ast.List _ l | ast.Tuple _ l
  | ast.ExtSlice l => visit_fields l
  | ast.Assign _ targets v => visit_fields targets ;; visit_if_AST v
  | ast.AugAssign _ x _ y | ast.BinOp _ x _ y | ast.Lambda _ x y
  | ast.Subscript _ x y => visit_if_AST x ;; visit_if_AST y
  | ast.Print _ dest values _ => visit_field dest ;; visit_fields values
  | ast.For _ t i b o | ast.AsyncFor _ t i b o =>
      visit_if_AST t ;; visit_if_AST i ;; visit_fields b ;; visit_fields o
  | ast.While _ t b o | ast.If _ t b o =>
      visit_if_AST t ;; visit_fields b ;; visit_fields o
  | ast.With _ context_expr optional_vars items _ b =>
      visit_field context_expr ;; visit_field optional_vars ;;
      match items with
      | Some i => visit_fields i
      | None => ret tt
      end ;;
      visit_fields b
  | ast.Raise _ type inst tback exc cause =>
      visit_field type ;; visit_field inst ;; visit_field tback ;;
      visit_field exc ;; visit_field cause
  | ast.TryExcept _ b h o =>
      visit_fields b ;; visit_fields h ;; visit_fields o
  | ast.TryFinally _ b f => visit_fields b ;; visit_fields f
  | ast.Try _ b h o f =>
      visit_fields b ;; visit_fields h ;; visit_fields o ;; visit_fields f
  | ast.Assert _ t m => visit_if_AST t ;; visit_field m
  | ast.Expr _ v | ast.UnaryOp _ _ v | ast.YieldFrom _ v | ast.Repr _ v
  | ast.Attribute _ v _ | ast.Starred _ v | ast.Index v
  | ast.keyword _ v => visit_if_AST v
  | ast.IfExp _ t b o => visit_if_AST t ;; visit_if_AST b ;; visit_if_AST o
  | ast.Dict _ keys values =>
      visit_optional_fields keys ;; visit_fields values
  | ast.ListComp _ e g | ast.SetComp _ e g | ast.GeneratorExp _ e g =>
      visit_if_AST e ;; visit_fields g
  | ast.DictComp _ k v g =>
      visit_if_AST k ;; visit_if_AST v ;; visit_fields g
  | ast.Compare _ l _ c => visit_if_AST l ;; visit_fields c
  | ast.Call _ f a k s kw =>
      visit_if_AST f ;; visit_fields a ;; visit_fields k ;;
      visit_field s ;; visit_field kw
  | ast.FormattedValue _ v f => visit_field v ;; visit_field f
  | ast.JoinedStr _ values =>
      match values with
      | Some v => visit_fields v
      | None => ret tt
      end
  | ast.Slice l u s => visit_field l ;; visit_field u ;; visit_field s
  | ast.comprehension t i ifs =>
      visit_if_AST t ;; visit_if_AST i ;; visit_fields ifs
  | ast.ExceptHandler _ t n b =>
      visit_field t ;; visit_field n ;; visit_fields b
  | ast.arguments a vararg kwonlyargs kw_defaults kwarg defaults =>
      visit_fields a ;; visit_field vararg ;; visit_fields kwonlyargs ;;
      visit_optional_fields kw_defaults ;; visit_field kwarg ;;
      visit_fields defaults
  | ast.arg _ annotation => visit_field annotation
  | ast.withitem c o => visit_if_AST c ;; visit_field o
  | ast.Global _ _ | ast.Nonlocal _ _ | ast.Pass _ | ast.Break _
  | ast.Continue _ | ast.Num _ _ | ast.Str _ _ | ast.Bytes _ _
  | ast.NameConstant _ _ | ast.Ellipsis _ | ast.Name _ _
  | ast.alias _ _ => ret tt
  end.

Definition visit_Expr (node value : ast.node) : M unit :=
  match value with
  | ast.Str _ s => docstring s
  | _ => newline (Some node) ;; generic_visit node
  end.

Definition visit_keyword (arg : option string) (value : ast.node)
    : M unit :=
  match arg with
  | Some name => write (name ++ "=") None
  | None => write "**" None
  end ;;
  visit value.

(** *** Expressions *)

Definition visit_Attribute (value : ast.node) (attr : string) : M unit :=
  visit value ;;
  write ("." ++ attr) None.

(** [call_signature] of the base class. *)
Definition call_item (x : ast.node) (want_comma : bool) : M bool :=
  want_comma <- write_comma want_comma ;;
  visit x ;;
  ret want_comma.

Definition call_spread (stars : string) (x : option ast.node)
    (want_comma : bool) : M bool :=
  match x with
  | Some x =>
      want_comma <- write_comma want_comma ;;
      write stars None ;;
      visit x ;;
      ret want_comma
  | None => ret want_comma
  end.

Definition call_signature_Base (args keywords : list ast.node)
    (starargs kwargs : option ast.node) : M unit :=
  want_comma <- for_fold call_item args false ;;
  want_comma <- for_fold call_item keywords want_comma ;;
  want_comma <- call_spread "*" starargs want_comma ;;
  want_comma <- call_spread "**" kwargs want_comma ;;
  ret tt.

(** [call_signature] from Python 3.5 on.  The lists [starargs] and
    [kwargs] hold the arguments put aside, as suspended visits. *)
Definition attr_arg (x : ast.node) : M (option string) :=
  match x with
  | ast.keyword name _ => ret name
  | ast.arg name _ => ret (Some name)
  | _ => raise AttributeError
  end.

Definition truthy (s : option string) : bool :=
  match s with
  | Some (String _ _) => true
  | _ => false
  end.

Definition isinstance_Starred (x : ast.node) : bool :=
  match x with
  | ast.Starred _ _ => true
  | _ => false
  end.

Definition call_arg_Python35 (arg : ast.node)
    (st : bool * list (M unit)) : M (bool * list (M unit)) :=
  let '(want_comma, starargs) := st in
  if isinstance_Starred arg then ret (want_comma, (starargs ++ [visit arg])%list)
  else
    want_comma <- write_comma want_comma ;;
    visit arg ;;
    ret (want_comma, starargs).

Definition call_keyword_Python35 (keyword : ast.node)
    (st : bool * list (M unit)) : M (bool * list (M unit)) :=
  let '(want_comma, kwargs) := st in
  name <- attr_arg keyword ;;
  if truthy name then
    want_comma <- write_comma want_comma ;;
    visit keyword ;;
    ret (want_comma, kwargs)
  else ret (want_comma, (kwargs ++ [visit keyword])%list).

Definition call_deferred (visit_x : M unit) (want_comma : bool)
    : M bool :=
  want_comma <- write_comma want_comma ;;
  visit_x ;;
  ret want_comma.

Definition call_signature_Python35 (args keywords : list ast.node)
    : M unit :=
  '(want_comma, starargs) <- for_fold call_arg_Python35 args (false, []) ;;
  '(want_comma, kwargs) <-
    for_fold call_keyword_Python35 keywords (want_comma, []) ;;
  want_comma <- for_fold call_deferred starargs want_comma ;;
  want_comma <- for_fold call_deferred kwargs want_comma ;;
  ret tt.

Definition own_call_signature (c : visitor_class)
    (args keywords : list ast.node) (starargs kwargs : option ast.node)
    : option (M unit) :=
  match c with
  | Base => Some (call_signature_Base args keywords starargs kwargs)
  | Py35 => Some (call_signature_Python35 args keywords)
  | _ => None
  end.

Definition call_signature (args keywords : list ast.node)
    (starargs kwargs : option ast.node) : M unit :=
  match resolve (fun c => own_call_signature c args keywords starargs kwargs)
          self
  with
  | Some method => method
  | None => raise AttributeError
  end.

Definition visit_Call (func : ast.node) (args keywords : list ast.node)
    (starargs kwargs : option ast.node) : M unit :=
  visit func ;;
  write "(" None ;;
  call_signature args keywords starargs kwargs ;;
  write ")" None.

Definition visit_Name (node : ast.node) (id : string) : M unit :=
  write id (Some node).

Definition visit_str (node : string) : M unit := write node None.

Definition visit_Str (s : string) : M unit :=
  write (builtins.repr_str s) None.

Definition visit_Bytes (s : string) : M unit :=
  write (builtins.repr_bytes s) None.

Definition visit_Num (n : Z) : M unit :=
  write (builtins.repr_int n) None.

(** The loop [for idx, item in enumerate(l)] of the sequence rules: a
    comma before every item but the first. *)
Definition comma_item (idx : Z) (item : ast.node) : M unit :=
  (if idx =? 0 then ret tt else write ", " None) ;;
  visit item.

Definition visit_Tuple (elts : list ast.node) : M unit :=
  write "(" None ;;
  idx <- for_enumerate comma_item 0 elts (-1) ;;
  write (if idx =? 0 then ",)" else ")") None.

(** [sequence_visit(left, right)]. *)
Definition sequence_visit (left right : string) (elts : list ast.node)
    : M unit :=
  write left None ;;
  for_enumerate comma_item 0 elts 0 ;;
  write right None.

Definition visit_List := sequence_visit "[" "]".
Definition visit_Set := sequence_visit "{" "}".

(** [visit_Dict]; [value] is the suspended [self.visit(value)]. *)
Definition dict_item (key : option ast.node) (visit_value : M unit)
    (idx : Z) : M Z :=
  (if idx =? 0 then ret tt else write ", " None) ;;
  match key with
  | Some k => if truth k then visit k ;; write ": " None
              else write "**" None
  | None => write "**" None
  end ;;
  visit_value ;;
  ret (idx + 1).

Definition visit_Dict (keys : list (option ast.node))
    (values : list ast.node) : M unit :=
  write "{" None ;;
  for_zip dict_item keys (map visit values) 0 ;;
  write "}" None.

Definition visit_BinOp (left : ast.node) (op : ast.operator_class)
    (right : ast.node) : M unit :=
  visit left ;;
  token <- subscript BINOP_SYMBOLS op ;;
  write (" " ++ token ++ " ") None ;;
  visit right.

Definition boolop_item (op : ast.operator_class) (idx : Z)
    (value : ast.node) : M unit :=
  (if idx =? 0 then ret tt
   else
     token <- subscript BOOLOP_SYMBOLS op ;;
     write (" " ++ token ++ " ") None) ;;
  visit value.

Definition visit_BoolOp (op : ast.operator_class)
    (values : list ast.node) : M unit :=
  write "(" None ;;
  for_enumerate (boolop_item op) 0 values 0 ;;
  write ")" None.

(** [visit_Compare]; [right] is the suspended [self.visit(right)]. *)
Definition compare_item (op : ast.operator_class) (visit_right : M unit)
    (_ : unit) : M unit :=
  token <- subscript CMPOP_SYMBOLS op ;;
  write (" " ++ token ++ " ") None ;;
  visit_right.

Definition visit_Compare (left : ast.node) (ops : list ast.operator_class)
    (comparators : list ast.node) : M unit :=
  visit left ;;
  for_zip compare_item ops (map visit comparators) tt.

Definition visit_UnaryOp (op : ast.operator_class) (operand : ast.node)
    : M unit :=
  write "(" None ;;
  op <- subscript UNARYOP_SYMBOLS op ;;
  write op None ;;
  (if String.eqb op "not" then write " " None else ret tt) ;;
  visit operand ;;
  write ")" None.

Definition visit_Subscript (value slice : ast.node) : M unit :=
  visit value ;;
  write "[" None ;;
  visit slice ;;
  write "]" None.

Definition slice_lower (lower : option ast.node) : M unit :=
  match lower with
  | Some l => visit l
  | None => ret tt
  end.

Definition slice_upper (upper : option ast.node) : M unit :=
  match upper with
  | Some u => visit u
  | None => ret tt
  end.

Definition slice_step (step : option ast.node) : M unit :=
  match step with
  | Some s =>
      write ":" None ;;
      match s with
      | ast.Name _ id => if String.eqb id "None" then ret tt else visit s
      | _ => visit s
      end
  | None => ret tt
  end.

Definition visit_Slice (lower upper step : option ast.node) : M unit :=
  slice_lower lower ;;
  write ":" None ;;
  slice_upper upper ;;
  slice_step step.

Definition extslice_item (idx : Z) (item : ast.node) : M unit :=
  (if idx =? 0 then ret tt else write "," None) ;;
  visit item.

Definition visit_ExtSlice (dims : list ast.node) : M unit :=
  for_enumerate extslice_item 0 dims 0 ;; ret tt.

Definition visit_Yield (value : option ast.node) : M unit :=
  write "yield" None ;;
  match value with
  | Some v => if truth v then write " " None ;; visit v else ret tt
  | None => ret tt
  end.

Definition visit_Lambda (args node_body : ast.node) : M unit :=
  write "lambda " None ;;
  signature args ;;
  write ": " None ;;
  visit node_body.

Definition visit_Ellipsis : M unit := write "..." None.

(** [generator_visit(left, right)]. *)
Definition generator_visit (left right : string) (elt : ast.node)
    (generators : list ast.node) : M unit :=
  write left None ;;
  visit elt ;;
  for_each visit generators ;;
  write right None.

Definition visit_ListComp := generator_visit "[" "]".
Definition visit_GeneratorExp := generator_visit "(" ")".
Definition visit_SetComp := generator_visit "{" "}".

Definition visit_DictComp (key value : ast.node)
    (generators : list ast.node) : M unit :=
  write "{" None ;;
  visit key ;;
  write ": " None ;;
  visit value ;;
  for_each visit generators ;;
  write "}" None.

Definition visit_IfExp (test node_body orelse : ast.node) : M unit :=
  visit node_body ;;
  write " if " None ;;
  visit test ;;
  write " else " None ;;
  visit orelse.

Definition visit_Starred (value : ast.node) : M unit :=
  write "*" None ;;
  visit value.

Definition visit_Repr (value : ast.node) : M unit :=
  write "`" None ;;
  visit value ;;
  write "`" None.

(** *** Helper nodes *)

Definition visit_alias (name : string) (asname : option string)
    : M unit :=
  write name None ;;
  match asname with
  | Some a => write (" as " ++ a) None
  | None => ret tt
  end.

Definition visit_comprehension (target iter : ast.node)
    (ifs : list ast.node) : M unit :=
  write " for " None ;;
  visit target ;;
  write " in " None ;;
  visit iter ;;
  for_each (fun if_ => write " if " None ;; visit if_) ifs.

Definition visit_arg (arg : string) : M unit := write arg None.

(** *** The rules added by the later classes *)

Definition visit_YieldFrom (value : ast.node) : M unit :=
  write "yield from " None ;;
  visit value.

Definition visit_NameConstant (value : ast.singleton) : M unit :=
  write (ast.str_singleton value) None.

(** [visit_Name] of Python 3.4: [node.id] is a [str] here, never an
    instance of [ast.arg]. *)
Definition visit_Name_Python34 (node : ast.node) (id : string) : M unit :=
  write id (Some node).

Definition visit_AsyncFunctionDef (node : ast.node) (name : string)
    (args : ast.node) (node_body decorator_list : list ast.node)
    : M unit :=
  function_definition node name args node_body decorator_list ["async"].

Definition visit_AsyncFor (node target iter : ast.node)
    (node_body orelse : list ast.node) : M unit :=
  for_loop node target iter node_body orelse ["async"].

Definition visit_Await (value : option ast.node) : M unit :=
  write "await " None ;;
  match value with
  | Some v => visit v
  | None => ret tt
  end.

Definition joined_item (item : ast.node) : M unit :=
  match item with
  | ast.Str _ s =>
      write (py.rstrip builtins.SQ (py.lstrip builtins.SQ s)) None
  | _ => visit item
  end.

Definition visit_JoinedStr (values : option (list ast.node)) : M unit :=
  match values with
  | Some values =>
      write "f'" None ;;
      for_each joined_item values ;;
      write "'" None
  | None => ret tt
  end.

Definition visit_FormattedValue (value : option ast.node) : M unit :=
  match value with
  | Some v =>
      write "{" None ;;
      visit v ;;
      write "}" None
  | None => ret tt
  end.

(** *** The methods [visit_<class name>] each class defines

    [own_visit c node] is the call of the method that the body of the
    class [c] defines for the class of [node], when it defines one. *)
Definition own_visit (c : visitor_class) (node : ast.node)
    : option (M unit) :=
  match c, node with
  | Base, ast.PyStr s => Some (visit_str s)
  | Base, ast.Assign _ targets value =>
      Some (visit_Assign node targets value)
  | Base, ast.AugAssign _ target op value =>
      Some (visit_AugAssign node target op value)
  | Base, ast.ImportFrom _ module names level =>
      Some (visit_ImportFrom node module names level)
  | Base, ast.Import _ names => Some (visit_Import node names)
  | Base, ast.Expr _ value => Some (visit_Expr node value)
  | Base, ast.keyword name value => Some (visit_keyword name value)
  | Base, ast.FunctionDef _ name args b d _ =>
      Some (visit_FunctionDef_Base node name args b d)
  | Base, ast.ClassDef _ name bases _ b d =>
      Some (visit_ClassDef_Base node name bases b d)
  | Base, ast.If _ test b orelse => Some (visit_If node test b orelse)
  | Base, ast.For _ target iter b orelse =>
      Some (for_loop node target iter b orelse [])
  | Base, ast.While _ test b orelse =>
      Some (visit_While node test b orelse)
  | Base, ast.Pass _ => Some (visit_Pass node)
  | Base, ast.Print _ dest values nl =>
      Some (visit_Print node dest values nl)
  | Base, ast.Delete _ targets target_is_last =>
      Some (visit_Delete node targets target_is_last)
  | Base, ast.Global _ names => Some (visit_Global node names)
  | Base, ast.Nonlocal _ names => Some (visit_Nonlocal node names)
  | Base, ast.Return _ value => Some (visit_Return node value)
  | Base, ast.Break _ => Some (visit_Break node)
  | Base, ast.Continue _ => Some (visit_Continue node)
  | Base, ast.Raise _ type inst tback exc cause =>
      Some (visit_Raise node type inst tback exc cause)
  | Base, ast.Attribute _ value attr => Some (visit_Attribute value attr)
  | Base, ast.Call _ func args keywords starargs kwargs =>
      Some (visit_Call func args keywords starargs kwargs)
  | Base, ast.Name _ id => Some (visit_Name node id)
  | Base, ast.Str _ s => Some (visit_Str s)
  | Base, ast.Bytes _ s => Some (visit_Bytes s)
  | Base, ast.Num _ n => Some (visit_Num n)
  | Base, ast.Tuple _ elts => Some (visit_Tuple elts)
  | Base, ast.List _ elts => Some (visit_List elts)
  | Base, ast.Set_ _ elts => Some (visit_Set elts)
  | Base, ast.Dict _ keys values => Some (visit_Dict keys values)
  | Base, ast.BinOp _ lhs op rhs => Some (visit_BinOp lhs op rhs)
  | Base, ast.BoolOp _ op values => Some (visit_BoolOp op values)
  | Base, ast.Compare _ lhs ops comparators =>
      Some (visit_Compare lhs ops comparators)
  | Base, ast.UnaryOp _ op operand => Some (visit_UnaryOp op operand)
  | Base, ast.Subscript _ value slice =>
      Some (visit_Subscript value slice)
  | Base, ast.Slice lower upper step =>
      Some (visit_Slice lower upper step)
  | Base, ast.ExtSlice dims => Some (visit_ExtSlice dims)
  | Base, ast.Yield _ value => Some (visit_Yield value)
  | Base, ast.Lambda _ args b => Some (visit_Lambda args b)
  | Base, ast.Ellipsis _ => Some visit_Ellipsis
  | Base, ast.ListComp _ elt generators =>
      Some (visit_ListComp elt generators)
  | Base, ast.GeneratorExp _ elt generators =>
      Some (visit_GeneratorExp elt generators)
  | Base, ast.SetComp _ elt generators =>
      Some (visit_SetComp elt generators)
  | Base, ast.DictComp _ key value generators =>
      Some (visit_DictComp key value generators)
  | Base, ast.IfExp _ test b orelse => Some (visit_IfExp test b orelse)
  | Base, ast.Starred _ value => Some (visit_Starred value)
  | Base, ast.Repr _ value => Some (visit_Repr value)
  | Base, ast.alias name asname => Some (visit_alias name asname)
  | Base, ast.comprehension target iter ifs =>
      Some (visit_comprehension target iter ifs)
  | Base, ast.ExceptHandler _ type name b =>
      Some (visit_ExceptHandler node type name b)
  | Base, ast.arg name _ => Some (visit_arg name)
  | Base, ast.Assert _ test msg => Some (visit_Assert node test msg)
  | Base, ast.TryExcept _ b handlers _ =>
      Some (visit_TryExcept node b handlers)
  | Base, ast.TryFinally _ b finalbody =>
      Some (visit_TryFinally node b finalbody)
  | Base, ast.With _ context_expr optional_vars _ _ b =>
      Some (visit_With_Base node context_expr optional_vars b)
  | Py30, ast.ClassDef _ name bases keywords b d =>
      Some (visit_ClassDef_Python30 node name bases keywords b d)
  | Py30, ast.FunctionDef _ name args b d returns =>
      Some (visit_FunctionDef_Python30 node name args b d returns)
  | Py33, ast.Try _ b handlers _ finalbody =>
      Some (visit_Try node b handlers finalbody)
  | Py33, ast.With _ _ _ items item_is_last b =>
      Some (visit_With_Python33 node items item_is_last b)
  | Py33, ast.YieldFrom _ value => Some (visit_YieldFrom value)
  | Py34, ast.NameConstant _ value => Some (visit_NameConstant value)
  | Py34, ast.Name _ id => Some (visit_Name_Python34 node id)
  | Py35, ast.AsyncFunctionDef _ name args b d _ =>
      Some (visit_AsyncFunctionDef node name args b d)
  | Py35, ast.AsyncFor _ target iter b orelse =>
      Some (visit_AsyncFor node target iter b orelse)
  | Py35, ast.Await _ value => Some (visit_Await value)
  | Py36, ast.JoinedStr _ values => Some (visit_JoinedStr values)
  | Py36, ast.FormattedValue _ value _ =>
      Some (visit_FormattedValue value)
  | _, _ => None
  end.

(** [ast.NodeVisitor.visit]:
    [getattr(self, 'visit_' + node.__class__.__name__, self.generic_visit)(node)]. *)
Definition visit_ (node : ast.node) : M unit :=
  match resolve (fun c => own_visit c node) self with
  | Some visitor => visitor
  | None => generic_visit node
  end.

End Methods.

(** [self.visit], for a generator of class [self]. *)
Fixpoint visit (self : visitor_class) (node : ast.node) {struct node}
    : M unit :=
  visit_ self (visit self) (visit_elif self) node
with visit_elif (self : visitor_class) (node : ast.node) {struct node}
    : M unit :=
  elif_ (visit self) (visit_elif self) node.

(** [to_source], for the class [SourceGeneratorNodeVisitor] chosen by
    [utils.get_by_python_version] (a module that is not part of the sources
    read here; the class is a parameter). *)
Definition to_source (SourceGeneratorNodeVisitor : visitor_class)
    (node : ast.node) (indent_with : string) : exn + string :=
  match visit SourceGeneratorNodeVisitor node (init indent_with) with
  | Returns _ generator => inr (py.join (result generator))
  | Raises e => inl e
  end.

(** * Properties of the rendering *)

(** ** Equality of computations

    Two computations are equal when they have the same outcome from every
    generator. *)

Definition meq {A : Type} (m1 m2 : M A) : Prop := forall g, m1 g = m2 g.

Notation "m1 =~ m2" := (meq m1 m2) (at level 70, no associativity).

#[export] Instance meq_Equivalence {A : Type} : Equivalence (@meq A).
Proof.
  split.
  - intros m g; reflexivity.
  - intros m1 m2 H g; symmetry; apply H.
  - intros m1 m2 m3 H12 H23 g; rewrite H12; apply H23.
Qed.

#[export] Instance bind_Proper {A B : Type} :
  Proper (meq ==> pointwise_relation A meq ==> meq) (@bind A B).
Proof.
  intros m1 m2 Hm k1 k2 Hk g. unfold bind. rewrite Hm.
  destruct (m2 g); [apply Hk | reflexivity].
Qed.

Lemma bind_ret_l {A B : Type} (a : A) (k : A -> M B) : bind (ret a) k =~ k a.
Proof. intros g; reflexivity. Qed.

Lemma bind_ret_r {A : Type} (m : M A) : bind m ret =~ m.
Proof. intros g; unfold bind, ret; destruct (m g); reflexivity. Qed.

Lemma bind_ret_tt (m : M unit) : (m ;; ret tt) =~ m.
Proof. intros g; unfold bind, ret; destruct (m g) as [[] ?|]; reflexivity. Qed.

Lemma bind_assoc {A B C : Type} (m : M A) (k : A -> M B) (k' : B -> M C) :
  bind (bind m k) k' =~ bind m (fun a => bind (k a) k').
Proof. intros g; unfold bind; destruct (m g); reflexivity. Qed.

Lemma bind_raise {A B : Type} (e : exn) (k : A -> M B) :
  bind (raise e) k =~ raise e.
Proof. intros g; reflexivity. Qed.

Lemma meq_at {A : Type} (m1 m2 : M A) (g : generator) :
  m1 =~ m2 -> m1 g = m2 g.
Proof. intros H; apply H. Qed.

#[local] Arguments bind : simpl never.
#[local] Arguments ret : simpl never.
#[local] Arguments write : simpl never.
#[local] Arguments newline : simpl never.

(** Reassociate the binds to the right, and step over a common prefix. *)
Ltac mnorm :=
  repeat match goal with
         | |- bind (bind _ _) _ =~ _ => etransitivity; [apply bind_assoc|]
         | |- bind (ret _) _ =~ _ =>
             etransitivity; [apply bind_ret_l|]; cbv beta iota
         | |- _ =~ bind (bind _ _) _ =>
             etransitivity; [|symmetry; apply bind_assoc]
         | |- _ =~ bind (ret _) _ =>
             etransitivity; [|symmetry; apply bind_ret_l]; cbv beta iota
         end.
Ltac mstep := mnorm; apply bind_Proper; [reflexivity | intros ?]; mnorm.

(** ** Loops *)

Lemma for_each_app {A : Type} (f : A -> M unit) (l l' : list A) :
  for_each f (l ++ l') =~ (for_each f l ;; for_each f l').
Proof.
  induction l as [|x l IH]; simpl.
  - rewrite bind_ret_l; reflexivity.
  - rewrite bind_assoc. apply bind_Proper; [reflexivity | intros _; exact IH].
Qed.

Lemma for_each_map {A B : Type} (f : B -> M unit) (h : A -> B) (l : list A) :
  for_each f (map h l) = for_each (fun x => f (h x)) l.
Proof. induction l as [|x l IH]; simpl; [|rewrite IH]; reflexivity. Qed.

Lemma for_each_ext {A : Type} (f f' : A -> M unit) (l : list A) :
  (forall x, f x =~ f' x) -> for_each f l =~ for_each f' l.
Proof.
  intros H; induction l as [|x l IH]; simpl; [reflexivity|].
  apply bind_Proper; [apply H | intros _; exact IH].
Qed.

Lemma for_fold_app {A St : Type} (f : A -> St -> M St) (l l' : list A)
    (s : St) :
  for_fold f (l ++ l') s =~ (s' <- for_fold f l s ;; for_fold f l' s').
Proof.
  revert s; induction l as [|x l IH]; intros s; simpl.
  - rewrite bind_ret_l; reflexivity.
  - rewrite bind_assoc. apply bind_Proper; [reflexivity | intros s'; apply IH].
Qed.

Lemma for_fold_map {A B St : Type} (f : B -> St -> M St) (h : A -> B)
    (l : list A) (s : St) :
  for_fold f (map h l) s =~ for_fold (fun x => f (h x)) l s.
Proof.
  revert s; induction l as [|x l IH]; intros s; simpl; [reflexivity|].
  apply bind_Proper; [reflexivity | intros s'; apply IH].
Qed.

(** ** Items separated by commas

    The rendering the specification calls comma-separated: the items in
    order, [', '] written between two consecutive items. *)

Definition then_comma (item : M unit) : M unit := write ", " None ;; item.

Definition comma_separated (items : list (M unit)) : M unit :=
  match items with
  | [] => ret tt
  | item :: r => item ;; for_each then_comma r
  end.

Definition nonempty {A : Type} (l : list A) : bool :=
  match l with
  | [] => false
  | _ :: _ => true
  end.

Section Commas.

Variable visit : ast.node -> M unit.

(** The closure [write_comma] called before each item of a loop. *)
Lemma call_deferred_fold (items : list (M unit)) (want_comma : bool) :
  for_fold call_deferred items want_comma =~
    ((if want_comma then for_each then_comma items
      else comma_separated items) ;;
     ret (want_comma || nonempty items)).
Proof.
  revert want_comma; induction items as [|x r IH]; intros w.
  - destruct w; cbn [for_fold for_each comma_separated orb nonempty];
      rewrite bind_ret_l; reflexivity.
  - cbn [for_fold]. unfold call_deferred at 1, write_comma.
    destruct w; cbn [for_each comma_separated orb nonempty].
    + unfold then_comma at 1. mnorm. mstep. mstep.
      rewrite IH. reflexivity.
    + mnorm. mstep. rewrite IH. reflexivity.
Qed.

Lemma comma_separated_fold (items : list (M unit)) :
  (for_fold call_deferred items false ;; ret tt) =~ comma_separated items.
Proof.
  rewrite call_deferred_fold. mnorm.
  rewrite <- (bind_ret_tt (comma_separated items)) at 2.
  mstep. mnorm. reflexivity.
Qed.

(** The loops [for idx, item in enumerate(l): if idx: write(', ')]. *)
Lemma comma_item_enumerate (l : list ast.node) (idx idx0 : Z) :
  0 < idx ->
  for_enumerate (comma_item visit) idx l idx0 =~
    (for_each then_comma (map visit l) ;;
     ret (if nonempty l then idx + py.len l - 1 else idx0)).
Proof.
  revert idx idx0; induction l as [|x r IH]; intros idx idx0 Hidx.
  - cbn [for_enumerate map for_each nonempty]. mnorm. reflexivity.
  - cbn [for_enumerate map for_each nonempty].
    unfold comma_item at 1, then_comma at 1.
    replace (idx =? 0) with false by (symmetry; apply Z.eqb_neq; lia).
    mnorm. mstep. mstep.
    rewrite IH by lia. mstep.
    intros g. unfold ret. f_equal.
    destruct r; cbn [nonempty]; unfold py.len; cbn [List.length]; lia.
Qed.

Lemma comma_item_enumerate_0 (x : ast.node) (r : list ast.node)
    (idx0 : Z) :
  for_enumerate (comma_item visit) 0 (x :: r) idx0 =~
    (comma_separated (map visit (x :: r)) ;; ret (py.len r)).
Proof.
  cbn [for_enumerate map comma_separated]. unfold comma_item at 1.
  change (0 =? 0) with true. cbv iota.
  mnorm. mstep.
  rewrite comma_item_enumerate by lia. mstep.
  intros g. unfold ret. f_equal.
  destruct r; cbn [nonempty]; unfold py.len; cbn [List.length]; lia.
Qed.

End Commas.

(** ** Dispatch *)

(** [visit] unfolds to the dispatch of [ast.NodeVisitor.visit]. *)
Lemma visit_eq (self : visitor_class) (node : ast.node) :
  visit self node = visit_ self (visit self) (visit_elif self) node.
Proof. destruct node; reflexivity. Qed.

Lemma visit_elif_eq (self : visitor_class) (node : ast.node) :
  visit_elif self node = elif_ (visit self) (visit_elif self) node.
Proof. destruct node; reflexivity. Qed.

(** A class at or after [c] in the chain. *)
Definition since (c self : visitor_class) : bool :=
  Nat.leb (rank c) (rank self).

Section Dispatch.

Variable self : visitor_class.
Variable v e : ast.node -> M unit.

Lemma visit_Tuple_rule ln elts :
  visit_ self v e (ast.Tuple ln elts) = visit_Tuple v elts.
Proof. destruct self; reflexivity. Qed.

Lemma visit_Expr_rule ln value :
  visit_ self v e (ast.Expr ln value) =
  visit_Expr v (ast.Expr ln value) value.
Proof. destruct self; reflexivity. Qed.


Lemma visit_YieldFrom_rule ln value :
  visit_ self v e (ast.YieldFrom ln value) =
  if since Py33 self then visit_YieldFrom v value else visit_if_AST v value.
Proof. destruct self; reflexivity. Qed.

Lemma visit_Call_rule ln func args keywords starargs kwargs :
  visit_ self v e (ast.Call ln func args keywords starargs kwargs) =
  visit_Call self v func args keywords starargs kwargs.
Proof. destruct self; reflexivity. Qed.

Lemma call_signature_rule args keywords starargs kwargs :
  call_signature self v args keywords starargs kwargs =
  if since Py35 self then call_signature_Python35 v args keywords
  else call_signature_Base v args keywords starargs kwargs.
Proof. destruct self; reflexivity. Qed.

Lemma signature_arg_rule arg default want_comma :
  signature_arg self v arg default want_comma =
  if since Py30 self then signature_arg_Python30 v arg default want_comma
  else signature_arg_Base v arg default want_comma.
Proof. destruct self; reflexivity. Qed.

Lemma signature_vararg_rule a vararg ko kd kwarg d want_comma :
  signature_vararg self (ast.arguments a vararg ko kd kwarg d) want_comma =
  signature_star (since Py34 self) "*" vararg want_comma.
Proof. destruct self; reflexivity. Qed.

Lemma signature_kwarg_rule a vararg ko kd kwarg d want_comma :
  signature_kwarg self (ast.arguments a vararg ko kd kwarg d) want_comma =
  signature_star (since Py34 self) "**" kwarg want_comma.
Proof. destruct self; reflexivity. Qed.

Lemma visit_BinOp_rule ln lhs op rhs :
  visit_ self v e (ast.BinOp ln lhs op rhs) = visit_BinOp v lhs op rhs.
Proof. destruct self; reflexivity. Qed.

Lemma visit_BoolOp_rule ln op values :
  visit_ self v e (ast.BoolOp ln op values) = visit_BoolOp v op values.
Proof. destruct self; reflexivity. Qed.

Lemma visit_UnaryOp_rule ln op operand :
  visit_ self v e (ast.UnaryOp ln op operand) = visit_UnaryOp v op operand.
Proof. destruct self; reflexivity. Qed.

Lemma visit_Compare_rule ln lhs ops comparators :
  visit_ self v e (ast.Compare ln lhs ops comparators) =
  visit_Compare v lhs ops comparators.
Proof. destruct self; reflexivity. Qed.

Lemma visit_ClassDef_rule ln name bases keywords b d :
  visit_ self v e (ast.ClassDef ln name bases keywords b d) =
  if since Py30 self then
    visit_ClassDef_Python30 v (ast.ClassDef ln name bases keywords b d)
      name bases keywords b d
  else
    visit_ClassDef_Base v (ast.ClassDef ln name bases keywords b d)
      name bases b d.
Proof. destruct self; reflexivity. Qed.

End Dispatch.

(** ** Tuples *)

(** C10: a tuple node without elements renders as the two parentheses,
    with no comma between them and without raising: from any generator the
    rule writes ["("] and then [")"], and [to_source] returns ["()"]. *)
Theorem tuple_empty (self : visitor_class) (ln : option Z) :
  (forall g,
     visit self (ast.Tuple ln []) g = (write "(" None ;; write ")" None) g)
  /\ (forall indent, to_source self (ast.Tuple ln []) indent = inr "()").
Proof.
  split.
  - intros g. rewrite visit_eq, visit_Tuple_rule. reflexivity.
  - intros indent. unfold to_source.
    rewrite visit_eq, visit_Tuple_rule. reflexivity.
Qed.

(** C9: a tuple node with exactly one element renders the element followed
    by a comma before the closing parenthesis; a tuple with two or more
    elements renders its elements separated by commas and closes without a
    trailing comma. *)
Theorem tuple_trailing_comma (self : visitor_class) (ln : option Z) :
  (forall x g,
     visit self (ast.Tuple ln [x]) g =
     (write "(" None ;; visit self x ;; write ",)" None) g)
  /\ (forall x y r g,
        visit self (ast.Tuple ln (x :: y :: r)) g =
        (write "(" None ;;
         comma_separated (map (visit self) (x :: y :: r)) ;;
         write ")" None) g)
  /\ to_source self (ast.Tuple ln [ast.Name None "x"]) "" = inr "(x,)"
  /\ to_source self (ast.Tuple ln [ast.Name None "x"; ast.Name None "y"]) ""
     = inr "(x, y)".
Proof.
  split; [|split; [|split]].
  - intros x g. rewrite visit_eq, visit_Tuple_rule. unfold visit_Tuple.
    revert g.
    apply bind_Proper; [reflexivity | intros _].
    rewrite comma_item_enumerate_0.
    cbn [map comma_separated for_each]. mnorm. mstep. reflexivity.
  - intros x y r g. rewrite visit_eq, visit_Tuple_rule. unfold visit_Tuple.
    revert g.
    apply bind_Proper; [reflexivity | intros _].
    rewrite comma_item_enumerate_0. mnorm. mstep.
    replace (py.len (y :: r) =? 0) with false; [reflexivity|].
    symmetry; apply Z.eqb_neq. unfold py.len; cbn [List.length]; lia.
  - destruct self; vm_compute; reflexivity.
  - destruct self; vm_compute; reflexivity.
Qed.

(** ** Docstrings *)

(** The text of a docstring: the string between two runs of three double
    quotes. *)
Definition triple_quoted (s : string) : string :=
  let q := String builtins.DQ "" in
  q ++ q ++ q ++ s ++ q ++ q ++ q.

(** The text written by a computation run from a fresh generator. *)
Definition text_of (m : M unit) (indent : string) : exn + string :=
  match m (init indent) with
  | Returns _ g => inr (py.join (result g))
  | Raises e => inl e
  end.

(** C7: an expression statement whose value is a string literal is rendered
    by [docstring], as the triple-quoted literal, in every class of the
    chain; so is the first statement of a block when it is one.  The path of
    the other expression statements ([newline(node)], then the generic
    visit, which would write the [repr] of the string) is not taken. *)
Theorem docstring_statement (self : visitor_class) (ln ln' : option Z)
    (s : string) :
  (forall g,
     visit self (ast.Expr ln (ast.Str ln' s)) g =
     write (triple_quoted s) None g)
  /\ (forall rest g,
        body (visit self) (ast.Expr ln (ast.Str ln' s) :: rest) g =
        (set_new_line true ;;
         add_indentation 1 ;;
         write (triple_quoted s) None ;;
         for_each (visit self) rest ;;
         add_indentation (-1)) g)
  /\ (let node := ast.Expr None (ast.Str None "doc") in
      to_source self node "" = inr (triple_quoted "doc")
      /\ text_of (newline (Some node) ;; generic_visit (visit self) node) ""
         = inr "'doc'").
Proof.
  assert (H : forall g, visit self (ast.Expr ln (ast.Str ln' s)) g =
                        write (triple_quoted s) None g).
  { intros g. rewrite visit_eq, visit_Expr_rule. reflexivity. }
  split; [exact H | split].
  - intros rest g. unfold body. cbn [for_each].
    revert g. mstep. mstep.
    apply bind_Proper; [exact H | intros _; reflexivity].
  - split; destruct self; vm_compute; reflexivity.
Qed.

(** ** Line reconciliation *)

Lemma append_nil_r (s : string) : (s ++ "")%string = s.
Proof. induction s as [|c s IH]; simpl; [|rewrite IH]; reflexivity. Qed.

Lemma append_assoc (s1 s2 s3 : string) :
  ((s1 ++ s2) ++ s3)%string = (s1 ++ (s2 ++ s3))%string.
Proof. induction s1 as [|c s1 IH]; simpl; [|rewrite IH]; reflexivity. Qed.

Lemma join_cons (x : string) (l : list string) :
  py.join (x :: l) = (x ++ py.join l)%string.
Proof.
  unfold py.join. destruct l as [|y l]; simpl.
  - rewrite append_nil_r; reflexivity.
  - reflexivity.
Qed.

Lemma join_app (l l' : list string) :
  py.join (l ++ l') = (py.join l ++ py.join l')%string.
Proof.
  induction l as [|x l IH].
  - reflexivity.
  - cbn [app]. rewrite !join_cons, IH, append_assoc. reflexivity.
Qed.

Lemma count_LF_app (s1 s2 : string) :
  py.count_LF (s1 ++ s2) = (py.count_LF s1 + py.count_LF s2)%nat.
Proof.
  induction s1 as [|c s1 IH]; simpl; [reflexivity|].
  destruct (Ascii.eqb c py.LF); rewrite IH; reflexivity.
Qed.

(** [len(s.split('\n'))] is one more than the number of line feeds. *)
Lemma split_lines_length (s : string) :
  List.length (py.split_lines s) = S (py.count_LF s).
Proof.
  induction s as [|c s IH]; simpl; [reflexivity|].
  destruct (Ascii.eqb c py.LF); simpl.
  - rewrite IH; reflexivity.
  - destruct (py.split_lines s); simpl in *; [discriminate | exact IH].
Qed.

(** The text written so far, and the indentation of the current level. *)
Definition text (g : generator) : string := py.join (result g).

Definition indent (g : generator) : string :=
  py.mul (indent_with g) (indentation g).

Lemma lines_count (g : generator) :
  result g <> [] -> lines g = Z.of_nat (S (py.count_LF (text g))).
Proof.
  intros H. unfold lines, text. destruct (result g) as [|x r] eqn:E.
  - contradiction.
  - unfold py.len. rewrite split_lines_length. reflexivity.
Qed.

(** The generator after [k] line breaks written by [write_newline] on a
    non-empty result. *)
Definition broken (g : generator) (k : nat) : generator :=
  {| result := (result g ++ List.concat (repeat [py.nl; indent g] k))%list;
     indent_with := indent_with g;
     indentation := indentation g;
     new_line := false |}.

Lemma write_newline_nonempty (g : generator) :
  result g <> [] -> write_newline g = Returns tt (broken g 1).
Proof.
  intros H. unfold write_newline, bind, get, broken.
  destruct (result g) as [|x r] eqn:E; [contradiction|].
  unfold append, set_new_line, indent. cbn.
  rewrite E. cbn. rewrite <- app_assoc. reflexivity.
Qed.

Lemma broken_plus (g : generator) (j k : nat) :
  broken (broken g j) k = broken g (j + k).
Proof.
  unfold broken, indent; cbn. f_equal.
  rewrite repeat_app, List.concat_app, app_assoc. reflexivity.
Qed.

Lemma broken_nonempty (g : generator) (k : nat) :
  result g <> [] -> result (broken g k) <> [].
Proof.
  intros H. cbn. destruct (result g); [contradiction | discriminate].
Qed.

Lemma times_write_newline (g : generator) (k : nat) :
  result g <> [] -> new_line g = false ->
  times k write_newline g = Returns tt (broken g k).
Proof.
  intros Hr Hn. revert g Hr Hn. induction k as [|k IH]; intros g Hr Hn.
  - unfold broken; cbn. rewrite app_nil_r, <- Hn. destruct g; reflexivity.
  - cbn [times]. unfold bind at 1. rewrite write_newline_nonempty by exact Hr.
    rewrite IH; [|apply broken_nonempty; exact Hr | reflexivity].
    rewrite broken_plus. reflexivity.
Qed.

Lemma text_broken (g : generator) (k : nat) :
  text (broken g k) =
  (text g ++ py.repeat_string (py.nl ++ indent g) k)%string.
Proof.
  unfold text. cbn [result broken]. rewrite join_app. f_equal.
  induction k as [|k IH]; [reflexivity|].
  cbn [repeat List.concat py.repeat_string app].
  rewrite !join_cons, IH, append_assoc. reflexivity.
Qed.

Lemma lines_broken (g : generator) (k : nat) :
  result g <> [] -> py.count_LF (indent g) = O ->
  lines (broken g k) = lines g + Z.of_nat k.
Proof.
  intros Hr Hi.
  rewrite (lines_count (broken g k)) by (apply broken_nonempty; exact Hr).
  rewrite (lines_count g) by exact Hr.
  rewrite text_broken, count_LF_app.
  assert (H : py.count_LF (py.repeat_string (py.nl ++ indent g) k) = k).
  { induction k as [|k IH]; [reflexivity|].
    cbn [py.repeat_string]. rewrite !count_LF_app, IH, Hi. reflexivity. }
  rewrite H. lia.
Qed.

(** [add_missing_lines] calls [write_newline] as many times as
    [range(line_diff)] has elements. *)
Lemma add_missing_lines_times (node : ast.node) (l : Z) (g : generator) :
  lineno node = Some l ->
  add_missing_lines node g =
  times (Z.to_nat (l - lines g)) write_newline g.
Proof.
  intros H. unfold add_missing_lines, bind, get. rewrite H.
  destruct (l - lines g =? 0) eqn:E; [|reflexivity].
  apply Z.eqb_eq in E. rewrite E. reflexivity.
Qed.

Lemma write_newline_empty (g : generator) :
  result g = [] ->
  write_newline g =
  Returns tt {| result := [indent g]; indent_with := indent_with g;
                indentation := indentation g; new_line := false |}.
Proof.
  intros H. unfold write_newline, bind, get. rewrite H.
  unfold ret, append, set_new_line, indent. cbn. rewrite H. reflexivity.
Qed.

(** [write_newline] returns, and never lowers the count of lines. *)
Lemma write_newline_lines (g : generator) :
  exists g', write_newline g = Returns tt g' /\ lines g <= lines g'.
Proof.
  destruct (result g) as [|x r] eqn:E.
  - eexists; split; [apply write_newline_empty; exact E|].
    unfold lines at 1. rewrite E. unfold lines; cbn. unfold py.len. lia.
  - assert (H : result g <> []) by (rewrite E; discriminate).
    exists (broken g 1); split; [apply write_newline_nonempty; exact H|].
    rewrite (lines_count (broken g 1)) by (apply broken_nonempty; exact H).
    rewrite (lines_count g) by exact H.
    rewrite text_broken, count_LF_app. lia.
Qed.

(** C8: when the line number of the visited node is at most the number of
    lines already produced, [add_missing_lines] writes nothing and raises
    nothing, and [correct_line_number] does no more than materialise the
    pending line break, if there is one; in general the count of line
    breaks [add_missing_lines] writes is the natural number
    [max(0, lineno - lines)], never a negative one. *)
Theorem no_newline_for_reached_line (node : ast.node) (l : Z)
    (g : generator) :
  lineno node = Some l ->
  l <= lines g ->
  add_missing_lines node g = Returns tt g
  /\ correct_line_number (Some node) g =
     (if new_line g then write_newline g else Returns tt g)
  /\ (exists g', correct_line_number (Some node) g = Returns tt g'
                 /\ (new_line g = false -> g' = g))
  /\ (forall g', add_missing_lines node g' =
                 times (Z.to_nat (l - lines g')) write_newline g').
Proof.
  intros Hl Hle.
  assert (Hnone : forall g', l <= lines g' ->
                             add_missing_lines node g' = Returns tt g').
  { intros g' H. rewrite (add_missing_lines_times node l g' Hl).
    replace (Z.to_nat (l - lines g')) with O by lia. reflexivity. }
  assert (Hc : correct_line_number (Some node) g =
               (if new_line g then write_newline g else Returns tt g)).
  { unfold correct_line_number, bind, get. rewrite Hl.
    destruct (new_line g).
    - destruct (write_newline_lines g) as [g' [Hw Hg']].
      rewrite Hw. apply Hnone. lia.
    - unfold ret. apply Hnone; exact Hle. }
  split; [apply Hnone; exact Hle | split; [exact Hc | split]].
  - rewrite Hc. destruct (new_line g).
    + destruct (write_newline_lines g) as [g' [Hw _]].
      exists g'. split; [exact Hw | discriminate].
    + exists g. split; reflexivity.
  - intros g'. apply add_missing_lines_times; exact Hl.
Qed.

Lemma no_newline_for_reached_line_witness :
  let g := {| result := ["@"; "staticmethod"]; indent_with := "    ";
              indentation := 0; new_line := true |} in
  let node := ast.FunctionDef (Some 1) "f"
                (ast.arguments [] None [] [] None []) [] [] None in
  add_missing_lines node g = Returns tt g
  /\ correct_line_number (Some node) g = write_newline g.
Proof.
  intros g node.
  destruct (no_newline_for_reached_line node 1 g) as [H1 [H2 _]].
  - reflexivity.
  - vm_compute; discriminate.
  - split; [exact H1 | exact H2].
Defined.

(** ** Blank lines between sibling statements *)





Example decorator_on_the_line_of_its_function :
  to_source Py27
    (ast.FunctionDef (Some 1) "f" (ast.arguments [] None [] [] None [])
       [ast.Pass (Some 1)] [ast.Name (Some 1) "d"] None) "    "
  = inr ("@d" ++ py.nl ++ "def f():" ++ py.nl ++ "    pass")%string.
Proof. vm_compute; reflexivity. Qed.

(** ** Node kinds without a rendering rule *)

(** Whether a generator of class [self] has a method
    [visit_<class name>] for the class of [node]. *)
Definition has_rule (self : visitor_class) (node : ast.node) : bool :=
  match
    resolve
      (fun c => own_visit self (fun _ => ret tt) (fun _ => ret tt) c node)
      self
  with
  | Some _ => true
  | None => false
  end.

(** [ast.iter_child_nodes]: the nodes held by the fields of a node, in the
    order of the fields; a [str] is not one of them. *)
Definition AST_of (x : ast.node) : list ast.node :=
  match x with
  | ast.PyStr _ => []
  | _ => [x]
  end.

Definition AST_in (x : option ast.node) : list ast.node :=
  match x with
  | Some x => AST_of x
  | None => []
  end.

Definition ASTs_of (l : list ast.node) : list ast.node :=
  flat_map AST_of l.

Definition ASTs_in (l : list (option ast.node)) : list ast.node :=
  flat_map AST_in l.

Definition iter_child_nodes (node : ast.node) : list ast.node :=
  match node with
  | ast.Module b => ASTs_of b
  | ast.FunctionDef _ _ a b d r | ast.AsyncFunctionDef _ _ a b d r =>
      AST_of a ++ ASTs_of b ++ ASTs_of d ++ AST_in r
  | ast.ClassDef _ _ bases keywords b d =>
      ASTs_of bases
      ++ match keywords with Some k => ASTs_of k | None => [] end
      ++ ASTs_of b ++ ASTs_of d
  | ast.Return _ v | ast.Await _ v | ast.Yield _ v => AST_in v
  | ast.Delete _ l _ | ast.Import _ l | ast.ImportFrom _ _ l _
  | ast.BoolOp _ _ l | ast.Set_ _ l | ast.List _ l | ast.Tuple _ l
  | ast.ExtSlice l => ASTs_of l
  | ast.Assign _ targets v => ASTs_of targets ++ AST_of v
  | ast.AugAssign _ x _ y | ast.BinOp _ x _ y | ast.Lambda _ x y
  | ast.Subscript _ x y => AST_of x ++ AST_of y
  | ast.Print _ dest values _ => AST_in dest ++ ASTs_of values
  | ast.For _ t i b o | ast.AsyncFor _ t i b o =>
      AST_of t ++ AST_of i ++ ASTs_of b ++ ASTs_of o
  | ast.While _ t b o | ast.If _ t b o =>
      AST_of t ++ ASTs_of b ++ ASTs_of o
  | ast.With _ context_expr optional_vars items _ b =>
      AST_in context_expr ++ AST_in optional_vars
      ++ match items with Some i => ASTs_of i | None => [] end
      ++ ASTs_of b
  | ast.Raise _ type inst tback exc cause =>
      AST_in type ++ AST_in inst ++ AST_in tback ++ AST_in exc
      ++ AST_in cause
  | ast.TryExcept _ b h o => ASTs_of b ++ ASTs_of h ++ ASTs_of o
  | ast.TryFinally _ b f => ASTs_of b ++ ASTs_of f
  | ast.Try _ b h o f => ASTs_of b ++ ASTs_of h ++ ASTs_of o ++ ASTs_of f
  | ast.Assert _ t m => AST_of t ++ AST_in m
  | ast.Expr _ v | ast.UnaryOp _ _ v | ast.YieldFrom _ v | ast.Repr _ v
  | ast.Attribute _ v _ | ast.Starred _ v | ast.Index v
  | ast.keyword _ v => AST_of v
  | ast.IfExp _ t b o => AST_of t ++ AST_of b ++ AST_of o
  | ast.Dict _ keys values => ASTs_in keys ++ ASTs_of values
  | ast.ListComp _ e g | ast.SetComp _ e g | ast.GeneratorExp _ e g =>
      AST_of e ++ ASTs_of g
  | ast.DictComp _ k v g => AST_of k ++ AST_of v ++ ASTs_of g
  | ast.Compare _ l _ c => AST_of l ++ ASTs_of c
  | ast.Call _ f a k s kw =>
      AST_of f ++ ASTs_of a ++ ASTs_of k ++ AST_in s ++ AST_in kw
  | ast.FormattedValue _ v f => AST_in v ++ AST_in f
  | ast.JoinedStr _ values =>
      match values with Some v => ASTs_of v | None => [] end
  | ast.Slice l u s => AST_in l ++ AST_in u ++ AST_in s
  | ast.comprehension t i ifs => AST_of t ++ AST_of i ++ ASTs_of ifs
  | ast.ExceptHandler _ t n b => AST_in t ++ AST_in n ++ ASTs_of b
  | ast.arguments a vararg kwonlyargs kw_defaults kwarg defaults =>
      ASTs_of a ++ AST_in vararg ++ ASTs_of kwonlyargs
      ++ ASTs_in kw_defaults ++ AST_in kwarg ++ ASTs_of defaults
  | ast.arg _ annotation => AST_in annotation
  | ast.withitem c o => AST_of c ++ AST_in o
  | ast.PyStr _ | ast.Global _ _ | ast.Nonlocal _ _ | ast.Pass _
  | ast.Break _ | ast.Continue _ | ast.Num _ _ | ast.Str _ _
  | ast.Bytes _ _ | ast.NameConstant _ _ | ast.Ellipsis _ | ast.Name _ _
  | ast.alias _ _ => []
  end%list.

Section GenericVisit.

Variable v : ast.node -> M unit.

Lemma visit_if_AST_children (x : ast.node) :
  visit_if_AST v x =~ for_each v (AST_of x).
Proof.
  destruct x; cbn [visit_if_AST AST_of for_each];
    first [reflexivity | rewrite bind_ret_tt; reflexivity].
Qed.

Lemma visit_field_children (x : option ast.node) :
  visit_field v x =~ for_each v (AST_in x).
Proof.
  destruct x; [apply visit_if_AST_children | reflexivity].
Qed.

Lemma visit_fields_children (l : list ast.node) :
  visit_fields v l =~ for_each v (ASTs_of l).
Proof.
  unfold visit_fields, ASTs_of.
  induction l as [|x l IH]; cbn [for_each flat_map]; [reflexivity|].
  rewrite for_each_app.
  apply bind_Proper; [apply visit_if_AST_children | intros _; exact IH].
Qed.

Lemma visit_optional_fields_children (l : list (option ast.node)) :
  visit_optional_fields v l =~ for_each v (ASTs_in l).
Proof.
  unfold visit_optional_fields, ASTs_in.
  induction l as [|x l IH]; cbn [for_each flat_map]; [reflexivity|].
  rewrite for_each_app.
  apply bind_Proper; [apply visit_field_children | intros _; exact IH].
Qed.

Ltac children_leaf :=
  first [ apply visit_if_AST_children
        | apply visit_field_children
        | apply visit_fields_children
        | apply visit_optional_fields_children
        | reflexivity ].

Ltac children :=
  first [ children_leaf
        | rewrite for_each_app;
          apply bind_Proper; [children_leaf | intros _; children] ].

(** [generic_visit] visits the child nodes, in order, and does nothing
    else. *)
Lemma generic_visit_children (node : ast.node) :
  (forall s, node <> ast.PyStr s) ->
  generic_visit v node =~ for_each v (iter_child_nodes node).
Proof.
  intros Hstr.
  destruct node; cbn [generic_visit iter_child_nodes];
    try (exfalso; eapply Hstr; reflexivity);
    repeat match goal with
           | |- context [match ?o with Some _ => _ | None => _ end] =>
               destruct o
           end;
    children.
Qed.

End GenericVisit.

Lemma own_visit_None (self : visitor_class) (v e v' e' : ast.node -> M unit)
    (c : visitor_class) (node : ast.node) :
  own_visit self v e c node = None -> own_visit self v' e' c node = None.
Proof.
  destruct c, node; intros H; first [reflexivity | discriminate H].
Qed.

Lemma first_defined_None {A B : Type} (own : visitor_class -> option A)
    (own' : visitor_class -> option B) (l : list visitor_class) :
  (forall c, own c = None -> own' c = None) ->
  first_defined own l = None -> first_defined own' l = None.
Proof.
  intros H. induction l as [|c l IH]; cbn [first_defined]; [reflexivity|].
  destruct (own c) eqn:E; [discriminate|].
  rewrite (H c E). exact IH.
Qed.

(** Without a rule, [visit] is [generic_visit]. *)
Lemma visit_without_rule (self : visitor_class) (node : ast.node) :
  has_rule self node = false ->
  visit self node = generic_visit (visit self) node.
Proof.
  intros H. rewrite visit_eq. unfold visit_, resolve.
  rewrite (first_defined_None
             (fun c => own_visit self (fun _ => ret tt) (fun _ => ret tt)
                         c node)
             (fun c => own_visit self (visit self) (visit_elif self) c node)).
  - reflexivity.
  - intros c. apply own_visit_None.
  - unfold has_rule, resolve in H.
    destruct (first_defined _ (mro self)); [discriminate H | reflexivity].
Qed.

Lemma has_rule_str (self : visitor_class) (s : string) :
  has_rule self (ast.PyStr s) = true.
Proof. destruct self; reflexivity. Qed.

(** C1 (as amended): a node whose class has no rendering rule in the class
    of the generator does not make the render fail: it is rendered by
    [generic_visit], that is, its child nodes are rendered in the order of
    its fields and nothing is written for the node itself.  A [YieldFrom]
    node has a rule from Python 3.3 on and no rule before: before, it
    renders as its value alone; from 3.3 on, as ['yield from '] followed by
    its value. *)
Theorem missing_rule_falls_back (self : visitor_class) :
  (forall node g,
     has_rule self node = false ->
     visit self node g = for_each (visit self) (iter_child_nodes node) g)
  /\ (forall ln value, has_rule self (ast.YieldFrom ln value) = since Py33 self)
  /\ (forall ln value g,
        visit self (ast.YieldFrom ln value) g =
        (if since Py33 self
         then write "yield from " None ;; visit self value
         else visit_if_AST (visit self) value) g).
Proof.
  split; [|split].
  - intros node g H. rewrite (visit_without_rule self node H).
    apply generic_visit_children.
    intros s Hs. rewrite Hs, has_rule_str in H. discriminate H.
  - intros ln value. destruct self; reflexivity.
  - intros ln value g. rewrite visit_eq, visit_YieldFrom_rule.
    destruct (since Py33 self); reflexivity.
Qed.

Lemma missing_rule_falls_back_witness :
  visit Py32 (ast.YieldFrom None (ast.Name None "x")) (init "") =
  for_each (visit Py32) [ast.Name None "x"] (init "").
Proof.
  apply (proj1 (missing_rule_falls_back Py32)
           (ast.YieldFrom None (ast.Name None "x")) (init "")).
  reflexivity.
Defined.

(** The claim C1 as first stated fails: under the class of Python 3.2, which
    has no rule for [YieldFrom], the node [yield from x] renders without
    raising, as the text [x]. *)
Lemma missing_rule_counterexample :
  has_rule Py32 (ast.YieldFrom None (ast.Name None "x")) = false
  /\ to_source Py32 (ast.YieldFrom None (ast.Name None "x")) "    " = inr "x"
  /\ to_source Py33 (ast.YieldFrom None (ast.Name None "x")) "    "
     = inr "yield from x".
Proof. repeat split; vm_compute; reflexivity. Qed.


(** ** The order of the arguments of a call *)

Definition isinstance_keyword (x : ast.node) : bool :=
  match x with
  | ast.keyword _ _ => true
  | _ => false
  end.

(** A keyword with an explicit name: [keyword.arg] is a non-empty string. *)
Definition named (keyword : ast.node) : bool :=
  match keyword with
  | ast.keyword name _ => truthy name
  | _ => false
  end.

Definition not_ {A : Type} (p : A -> bool) (x : A) : bool := negb (p x).

(** A spread read from the attribute [starargs] or [kwargs] of the call. *)
Definition spread (visit : ast.node -> M unit) (stars : string)
    (x : option ast.node) : list (M unit) :=
  match x with
  | Some x => [write stars None ;; visit x]
  | None => []
  end.

(** The order of the base class: the positional arguments, the keywords,
    the [starargs] spread, the [kwargs] spread. *)
Definition default_order (visit : ast.node -> M unit)
    (args keywords : list ast.node) (starargs kwargs : option ast.node)
    : list (M unit) :=
  (map visit args ++ map visit keywords
   ++ spread visit "*" starargs ++ spread visit "**" kwargs)%list.

(** The order from Python 3.5 on: the positional arguments that are not
    starred, the keywords with a name, the starred arguments, the keywords
    without a name. *)
Definition deferred_order (visit : ast.node -> M unit)
    (args keywords : list ast.node) : list (M unit) :=
  (map visit (filter (not_ isinstance_Starred) args)
   ++ map visit (filter named keywords)
   ++ map visit (filter isinstance_Starred args)
   ++ map visit (filter (not_ named) keywords))%list.

Section CallSignature.

Variable v : ast.node -> M unit.

Lemma call_item_fold (l : list ast.node) (want_comma : bool) :
  for_fold (call_item v) l want_comma =~
  for_fold call_deferred (map v l) want_comma.
Proof. rewrite for_fold_map. reflexivity. Qed.

Lemma call_spread_fold (stars : string) (x : option ast.node)
    (want_comma : bool) :
  call_spread v stars x want_comma =~
  for_fold call_deferred (spread v stars x) want_comma.
Proof.
  destruct x as [x|]; cbn [call_spread spread for_fold]; [|reflexivity].
  unfold call_deferred. mnorm. mstep. mstep. mstep. reflexivity.
Qed.

Lemma call_signature_Base_order args keywords starargs kwargs :
  call_signature_Base v args keywords starargs kwargs =~
  comma_separated (default_order v args keywords starargs kwargs).
Proof.
  unfold call_signature_Base, default_order.
  rewrite <- comma_separated_fold.
  rewrite for_fold_app. mnorm.
  apply bind_Proper; [apply call_item_fold | intros w1].
  rewrite for_fold_app. mnorm.
  apply bind_Proper; [apply call_item_fold | intros w2].
  rewrite for_fold_app. mnorm.
  apply bind_Proper; [apply call_spread_fold | intros w3].
  apply bind_Proper; [apply call_spread_fold | intros w4].
  reflexivity.
Qed.

(** The first loop of the Python 3.5 rule: the arguments that are not
    starred are written, the starred ones are put aside in order. *)
Lemma call_args_Python35 (args : list ast.node) (want_comma : bool)
    (starargs : list (M unit)) :
  for_fold (call_arg_Python35 v) args (want_comma, starargs) =~
  (w <- for_fold call_deferred
          (map v (filter (not_ isinstance_Starred) args)) want_comma ;;
   ret (w, (starargs ++ map v (filter isinstance_Starred args))%list)).
Proof.
  revert want_comma starargs.
  induction args as [|a r IH]; intros w acc; cbn [for_fold filter map].
  - mnorm. rewrite app_nil_r. reflexivity.
  - unfold call_arg_Python35 at 1, not_ at 1.
    destruct (isinstance_Starred a); cbn [negb map for_fold].
    + mnorm. rewrite IH. mstep. rewrite <- app_assoc. reflexivity.
    + unfold call_deferred at 1. mnorm. mstep. mstep.
      rewrite IH. reflexivity.
Qed.

(** The second loop: the keywords with a name are written, the others are
    put aside in order. *)
Lemma call_keywords_Python35 (keywords : list ast.node) (want_comma : bool)
    (kwargs : list (M unit)) :
  Forall (fun k => isinstance_keyword k = true) keywords ->
  for_fold (call_keyword_Python35 v) keywords (want_comma, kwargs) =~
  (w <- for_fold call_deferred (map v (filter named keywords)) want_comma ;;
   ret (w, (kwargs ++ map v (filter (not_ named) keywords))%list)).
Proof.
  intros H. revert want_comma kwargs.
  induction H as [|k r Hk Hr IH]; intros w acc; cbn [for_fold filter map].
  - mnorm. rewrite app_nil_r. reflexivity.
  - unfold call_keyword_Python35 at 1, not_ at 1.
    destruct k; try discriminate Hk.
    cbn [attr_arg named]. mnorm.
    destruct (truthy name); cbn [negb map for_fold].
    + unfold call_deferred at 1. mnorm. mstep. mstep.
      rewrite IH. reflexivity.
    + mnorm. rewrite IH. mstep. rewrite <- app_assoc. reflexivity.
Qed.

Lemma call_signature_Python35_order args keywords :
  Forall (fun k => isinstance_keyword k = true) keywords ->
  call_signature_Python35 v args keywords =~
  comma_separated (deferred_order v args keywords).
Proof.
  intros H. unfold call_signature_Python35, deferred_order.
  rewrite <- comma_separated_fold.
  rewrite for_fold_app. mnorm.
  rewrite call_args_Python35. mnorm. mstep.
  rewrite for_fold_app. mnorm.
  rewrite (call_keywords_Python35 keywords _ _ H). mnorm. mstep.
  cbn [app]. rewrite for_fold_app. mnorm.
  mstep. mstep. reflexivity.
Qed.

End CallSignature.

(** C3: from the class of Python 3.5 on, a call node renders its arguments
    in the order: positional arguments that are not starred, keywords with
    a name, starred positional arguments, keywords without a name; the
    earlier classes render the positional arguments, the keywords, the
    [starargs] spread and the [kwargs] spread.  In both cases the items are
    separated by commas, between the parentheses that follow the callee.
    The elements of [node.keywords] are [keyword] nodes. *)
Theorem call_argument_order (self : visitor_class) (ln : option Z)
    (func : ast.node) (args keywords : list ast.node)
    (starargs kwargs : option ast.node) (g : generator) :
  Forall (fun k => isinstance_keyword k = true) keywords ->
  visit self (ast.Call ln func args keywords starargs kwargs) g =
  (visit self func ;;
   write "(" None ;;
   comma_separated
     (if since Py35 self
      then deferred_order (visit self) args keywords
      else default_order (visit self) args keywords starargs kwargs) ;;
   write ")" None) g.
Proof.
  intros H. rewrite visit_eq, visit_Call_rule. unfold visit_Call.
  revert g. mstep. mstep.
  rewrite call_signature_rule.
  destruct (since Py35 self).
  - rewrite (call_signature_Python35_order _ _ _ H). reflexivity.
  - rewrite call_signature_Base_order. reflexivity.
Qed.

Lemma call_argument_order_witness :
  let a := ast.Starred None (ast.Name None "a") in
  let b := ast.Name None "b" in
  let k := ast.keyword None (ast.Name None "k") in
  let x := ast.keyword (Some "x") (ast.Name None "y") in
  visit Py35 (ast.Call None (ast.Name None "f") [a; b] [k; x] None None)
    (init "") =
  (visit Py35 (ast.Name None "f") ;;
   write "(" None ;;
   comma_separated
     [visit Py35 b; visit Py35 x; visit Py35 a; visit Py35 k] ;;
   write ")" None) (init "").
Proof.
  intros a b k x.
  apply (call_argument_order Py35 None (ast.Name None "f") [a; b] [k; x]
           None None (init "")).
  repeat constructor.
Defined.

Example call_text_Python35 :
  to_source Py35
    (ast.Call None (ast.Name None "f")
       [ast.Starred None (ast.Name None "a"); ast.Name None "b"]
       [ast.keyword None (ast.Name None "k");
        ast.keyword (Some "x") (ast.Name None "y")]
       None None) ""
  = inr "f(b, x=y, *a, **k)".
Proof. vm_compute; reflexivity. Qed.

Example call_text_Python27 :
  to_source Py27
    (ast.Call None (ast.Name None "f")
       [ast.Name None "b"] [ast.keyword (Some "x") (ast.Name None "y")]
       (Some (ast.Name None "a")) (Some (ast.Name None "k"))) ""
  = inr "f(b, x=y, *a, **k)".
Proof. vm_compute; reflexivity. Qed.

(** ** Signatures *)

(** What [signature_arg] writes for one parameter: its name, then [=] and
    the default when it has one; from Python 3.0 on the annotation of an
    [arg] node comes last, after the default when there is one. *)
Definition parameter_deferred (self : visitor_class)
    (visit : ast.node -> M unit) (arg : ast.node)
    (default : option (M unit)) : M unit :=
  visit arg ;;
  match default with
  | Some visit_default => write "=" None ;; visit_default
  | None => ret tt
  end ;;
  if since Py30 self then
    match arg with
    | ast.arg _ (Some annotation) => write ": " None ;; visit annotation
    | _ => ret tt
    end
  else ret tt.

Definition parameter (self : visitor_class) (visit : ast.node -> M unit)
    (arg : ast.node) (default : option ast.node) : M unit :=
  parameter_deferred self visit arg (option_map visit default).

(** The variadic parameter, with its marker. *)
Definition star_parameter (self : visitor_class) (marker : string)
    (x : option ast.node) : list (M unit) :=
  match x with
  | Some x =>
      [text <- (if since Py34 self then plus_attr_arg marker x
                else plus_str marker x) ;;
       write text None]
  | None => []
  end.

(** The parameters of a signature with [N] positional parameters and [D]
    defaults, as the specification orders them: the first [N - D]
    parameters without default, the last [D] ones with the defaults in
    order, the variadic positional parameter, the variadic keyword
    parameter. *)
Definition parameters (self : visitor_class) (visit : ast.node -> M unit)
    (args : list ast.node) (vararg kwarg : option ast.node)
    (defaults : list ast.node) : list (M unit) :=
  let n := (List.length args - List.length defaults)%nat in
  (map (fun arg => parameter self visit arg None) (firstn n args)
   ++ map (fun '(arg, default) => parameter self visit arg (Some default))
        (combine (skipn n args) defaults)
   ++ star_parameter self "*" vararg
   ++ star_parameter self "**" kwarg)%list.

Lemma for_zip_combine {A B St : Type} (f : A -> B -> St -> M St)
    (l : list A) (l' : list B) (s : St) :
  for_zip f l l' s =~ for_fold (fun '(x, y) => f x y) (combine l l') s.
Proof.
  revert l' s; induction l as [|x l IH]; intros [|y l'] s;
    cbn [for_zip combine for_fold]; try reflexivity.
  apply bind_Proper; [reflexivity | intros s'; apply IH].
Qed.

Lemma for_fold_ext {A St : Type} (f f' : A -> St -> M St) (l : list A)
    (s : St) :
  (forall x s, f x s =~ f' x s) -> for_fold f l s =~ for_fold f' l s.
Proof.
  intros H; revert s; induction l as [|x l IH]; intros s; cbn [for_fold];
    [reflexivity|].
  apply bind_Proper; [apply H | intros s'; apply IH].
Qed.

Lemma combine_app_firstn {A B : Type} (l : list A) (l1 l2 : list B) :
  combine l (l1 ++ l2) =
  (combine (firstn (List.length l1) l) l1
   ++ combine (skipn (List.length l1) l) l2)%list.
Proof.
  revert l; induction l1 as [|y l1 IH]; intros l.
  - reflexivity.
  - destruct l as [|x l]; [reflexivity|].
    cbn [app combine List.length firstn skipn]. rewrite IH. reflexivity.
Qed.

Lemma map_combine_repeat {A B C : Type} (f : A * B -> C) (b : B)
    (l : list A) (n : nat) :
  (List.length l <= n)%nat ->
  map f (combine l (repeat b n)) = map (fun a => f (a, b)) l.
Proof.
  revert n; induction l as [|x l IH]; intros n H; [reflexivity|].
  destruct n as [|n]; cbn [List.length] in H; [lia|].
  cbn [repeat combine map]. rewrite IH by lia. reflexivity.
Qed.

Lemma map_combine_map {A B B' C : Type} (f : A * B' -> C) (h : B -> B')
    (l : list A) (l' : list B) :
  map f (combine l (map h l')) =
  map (fun '(a, b) => f (a, h b)) (combine l l').
Proof.
  revert l'; induction l as [|x l IH]; intros [|y l']; try reflexivity.
  cbn [map combine]. rewrite IH. reflexivity.
Qed.

Section Signature.

Variable self : visitor_class.
Variable v : ast.node -> M unit.

(** [signature_arg] writes the comma, if wanted, then the parameter. *)
Lemma signature_arg_deferred (arg : ast.node) (default : option (M unit))
    (want_comma : bool) :
  signature_arg self v arg default want_comma =~
  call_deferred (parameter_deferred self v arg default) want_comma.
Proof.
  rewrite signature_arg_rule.
  unfold call_deferred, parameter_deferred, signature_arg_Python30,
    signature_arg_Base.
  destruct (since Py30 self), default.
  - mstep. mstep. mstep. mstep. mstep. reflexivity.
  - mstep. mstep. mstep. reflexivity.
  - mstep. mstep. mstep. mstep. reflexivity.
  - mstep. mstep. reflexivity.
Qed.

Lemma signature_star_deferred (marker : string) (x : option ast.node)
    (want_comma : bool) :
  signature_star (since Py34 self) marker x want_comma =~
  for_fold call_deferred (star_parameter self marker x) want_comma.
Proof.
  destruct x as [x|]; cbn [signature_star star_parameter for_fold];
    [|reflexivity].
  unfold call_deferred. mstep. mstep. mstep. reflexivity.
Qed.

(** The pairs of [zip(node.args, padding + node.defaults)], as parameters:
    the first [n] without default, the others with the defaults in order. *)
Lemma zip_parameters (args defaults : list ast.node) (n : nat) :
  map (fun p => parameter_deferred self v (fst p) (snd p))
    (combine args
       (repeat None n ++ map (fun default => Some (v default)) defaults))
  = (map (fun arg => parameter self v arg None) (firstn n args)
     ++ map (fun '(arg, default) => parameter self v arg (Some default))
          (combine (skipn n args) defaults))%list.
Proof.
  rewrite <- (repeat_length (@None (M unit)) n) at 2 3.
  rewrite combine_app_firstn, map_app.
  rewrite map_combine_repeat
    by (rewrite length_firstn, repeat_length; apply Nat.le_min_l).
  rewrite map_combine_map.
  f_equal; try (apply map_ext; intros [a d]; reflexivity).
Qed.

Lemma signature_zip (args defaults : list ast.node) (n : nat)
    (want_comma : bool) :
  for_zip (signature_arg self v) args
    (repeat None n ++ map (fun default => Some (v default)) defaults)
    want_comma =~
  for_fold call_deferred
    (map (fun arg => parameter self v arg None) (firstn n args)
     ++ map (fun '(arg, default) => parameter self v arg (Some default))
          (combine (skipn n args) defaults))
    want_comma.
Proof.
  rewrite for_zip_combine.
  rewrite (for_fold_ext _
             (fun p => call_deferred
                         (parameter_deferred self v (fst p) (snd p))));
    [|intros [a d] w; apply signature_arg_deferred].
  rewrite <- (for_fold_map call_deferred
                (fun p => parameter_deferred self v (fst p) (snd p))).
  rewrite zip_parameters. reflexivity.
Qed.

Lemma signature_parameters_eq args vararg ko kd kwarg defaults :
  signature self v (ast.arguments args vararg ko kd kwarg defaults) =~
  comma_separated (parameters self v args vararg kwarg defaults).
Proof.
  unfold signature, parameters.
  rewrite <- comma_separated_fold.
  replace (Z.to_nat (py.len args - py.len defaults))
    with (List.length args - List.length defaults)%nat
    by (unfold py.len; lia).
  rewrite app_assoc, for_fold_app. mnorm.
  apply bind_Proper; [apply signature_zip | intros w1].
  rewrite for_fold_app. mnorm.
  rewrite signature_vararg_rule.
  apply bind_Proper; [apply signature_star_deferred | intros w2].
  rewrite signature_kwarg_rule.
  apply bind_Proper; [apply signature_star_deferred | intros w3].
  reflexivity.
Qed.

End Signature.

(** The pairing of parameters and defaults.  For a signature with [N]
    positional parameters and [D <= N] defaults, the parameter list is the
    comma-separated sequence of what [signature_arg] writes for the first
    [N - D] parameters, without default, and for the last [D] parameters,
    each with its default, in order, and of the variadic parameters when
    present; a comma is written between two parameters and before none.
    A parameter without annotation that has a default is written
    [name=default].  Without positional parameter, [vararg] and [kwarg],
    nothing is written. *)
Theorem signature_parameters (self : visitor_class)
    (args : list ast.node) (vararg : option ast.node)
    (kwonlyargs : list ast.node) (kw_defaults : list (option ast.node))
    (kwarg : option ast.node) (defaults : list ast.node) :
  (List.length defaults <= List.length args)%nat ->
  let N := List.length args in
  let D := List.length defaults in
  (forall g,
     signature self (visit self)
       (ast.arguments args vararg kwonlyargs kw_defaults kwarg defaults) g =
     comma_separated
       (parameters self (visit self) args vararg kwarg defaults) g)
  /\ List.length (firstn (N - D) args) = (N - D)%nat
  /\ map fst (combine (skipn (N - D) args) defaults) = skipn (N - D) args
  /\ map snd (combine (skipn (N - D) args) defaults) = defaults
  /\ (forall name default g,
        parameter self (visit self) (ast.arg name None) (Some default) g =
        (write name None ;; write "=" None ;; visit self default) g)
  /\ (forall g,
        signature self (visit self)
          (ast.arguments [] None kwonlyargs kw_defaults None []) g =
        Returns tt g).
Proof.
  intros H N D.
  assert (Hlen : List.length (skipn (N - D) args) = D).
  { rewrite length_skipn. unfold N, D. lia. }
  split; [|split; [|split; [|split; [|split]]]].
  - apply signature_parameters_eq.
  - rewrite length_firstn. unfold N, D. lia.
  - revert Hlen. generalize (skipn (N - D) args) as l. unfold D.
    clear. intros l; revert defaults.
    induction l as [|x l IH]; intros [|d ds] Hl; try discriminate Hl;
      [reflexivity|].
    cbn [combine map fst]. rewrite IH; [reflexivity|].
    cbn [List.length] in Hl. lia.
  - revert Hlen. generalize (skipn (N - D) args) as l. unfold D.
    clear. intros l; revert defaults.
    induction l as [|x l IH]; intros [|d ds] Hl; try discriminate Hl;
      [reflexivity|].
    cbn [combine map snd]. rewrite IH; [reflexivity|].
    cbn [List.length] in Hl. lia.
  - intros name default. unfold parameter, parameter_deferred.
    cbn [option_map].
    assert (Hn : visit self (ast.arg name None) = write name None).
    { rewrite visit_eq. destruct self; reflexivity. }
    rewrite Hn.
    destruct (since Py30 self); mstep; mstep; rewrite bind_ret_tt;
      reflexivity.
  - intros g. rewrite signature_parameters_eq. reflexivity.
Qed.

Lemma signature_parameters_witness :
  let a := ast.Name None "a" in
  let b := ast.Name None "b" in
  let one := ast.Num None 1 in
  signature Py27 (visit Py27) (ast.arguments [a; b] None [] [] None [one])
    (init "") =
  comma_separated
    [parameter Py27 (visit Py27) a None;
     parameter Py27 (visit Py27) b (Some one)] (init "").
Proof.
  intros a b one.
  apply (signature_parameters Py27 [a; b] None [] [] None [one]).
  cbn [List.length]. lia.
Defined.

Example function_text_with_default :
  to_source Py27
    (ast.FunctionDef (Some 1) "f"
       (ast.arguments [ast.Name None "a"; ast.Name None "b"] None [] []
          None [ast.Num None 1])
       [ast.Return (Some 2)
          (Some (ast.BinOp None (ast.Name None "a") ast.Add
                   (ast.Name None "b")))]
       [] None) "    "
  = inr ("def f(a, b=1):" ++ py.nl ++ "    return a + b")%string.
Proof. vm_compute; reflexivity. Qed.

Example function_text_without_parameter :
  to_source Py27
    (ast.FunctionDef (Some 1) "f" (ast.arguments [] None [] [] None [])
       [ast.Pass (Some 2)] [] None) "    "
  = inr ("def f():" ++ py.nl ++ "    pass")%string.
Proof. vm_compute; reflexivity. Qed.

(** C4 (a defect of the code): from the class of Python 3.0 on, a
    parameter that has both an annotation and a default is not written as
    the claim says.  [signature_arg] of Python 3.0 calls the method of the
    base class, which writes the name, [=] and the default, and only then
    writes [: ] and the annotation: the parameter [b: str = 1] comes out
    as [b=1: str], which is not a parameter of Python. *)
Theorem annotated_default_misplaced (self : visitor_class)
    (name : string) (annotation default : ast.node) (g : generator) :
  since Py30 self = true ->
  signature self (visit self)
    (ast.arguments [ast.arg name (Some annotation)] None [] [] None
       [default]) g =
  (write name None ;;
   write "=" None ;;
   visit self default ;;
   write ": " None ;;
   visit self annotation) g.
Proof.
  intros H. rewrite signature_parameters_eq.
  unfold parameters. cbn [List.length Nat.sub firstn skipn combine map app].
  unfold star_parameter. cbn [app comma_separated for_each].
  unfold parameter, parameter_deferred. cbn [option_map]. rewrite H.
  assert (Hn : visit self (ast.arg name (Some annotation)) = write name None).
  { rewrite visit_eq. destruct self; reflexivity. }
  rewrite Hn. apply meq_at. mnorm. mstep. mnorm. mstep. mstep. mnorm.
  mstep. apply bind_ret_tt.
Qed.

Lemma annotated_default_misplaced_witness :
  to_source Py30
    (ast.FunctionDef (Some 1) "f"
       (ast.arguments [ast.arg "b" (Some (ast.Name None "str"))] None [] []
          None [ast.Num None 1])
       [ast.Pass (Some 2)] [] None) "    "
  = inr ("def f(b=1: str):" ++ py.nl ++ "    pass")%string
  /\ signature Py30 (visit Py30)
       (ast.arguments [ast.arg "b" (Some (ast.Name None "str"))] None [] []
          None [ast.Num None 1]) (init "")
     = Returns tt
         {| result := ["b"; "="; "1"; ": "; "str"]; indent_with := "";
            indentation := 0; new_line := false |}.
Proof.
  split; [vm_compute; reflexivity|].
  rewrite (annotated_default_misplaced Py30 "b" (ast.Name None "str")
             (ast.Num None 1) (init "") eq_refl).
  vm_compute. reflexivity.
Defined.

(** ** Operators *)

(** [write] without a node always returns. *)
Lemma write_returns (x : string) (g : generator) :
  exists g', write x None g = Returns tt g'.
Proof.
  unfold write, correct_line_number, bind, get.
  destruct (new_line g).
  - destruct (write_newline_lines g) as [g' [H _]]. rewrite H.
    eexists; reflexivity.
  - eexists; reflexivity.
Qed.

(** The claim C5 as first stated fails for a boolean construct with a
    single operand, and for a comparison whose absent operator has no
    comparator: the table is not read, and the node renders whatever that
    operator is. *)
Lemma operator_lookup_counterexample :
  BOOLOP_SYMBOLS ast.MatMult = None
  /\ to_source Py35 (ast.BoolOp None ast.MatMult [ast.Name None "x"]) ""
     = inr "(x)"
  /\ CMPOP_SYMBOLS ast.MatMult = None
  /\ to_source Py35
       (ast.Compare None (ast.Name None "x") [ast.Lt; ast.MatMult]
          [ast.Name None "y"]) ""
     = inr "x < y".
Proof. repeat split; vm_compute; reflexivity. Qed.

(** What a comparison writes for an operator and its comparator. *)
Definition compare_pair (visit : ast.node -> M unit)
    (pair : ast.operator_class * ast.node) : M unit :=
  token <- subscript CMPOP_SYMBOLS (fst pair) ;;
  write (" " ++ token ++ " ") None ;;
  visit (snd pair).

Lemma visit_Compare_pairs (v : ast.node -> M unit) (x : ast.node)
    (ops : list ast.operator_class) (comparators : list ast.node) :
  visit_Compare v x ops comparators =~
  (v x ;; for_each (compare_pair v) (combine ops comparators)).
Proof.
  unfold visit_Compare. mstep. generalize tt at 1. intros u.
  revert comparators u.
  induction ops as [|op ops IH]; intros [|y comparators] [];
    cbn [map for_zip combine for_each]; try reflexivity.
  unfold compare_item at 1, compare_pair at 1. cbn [fst snd].
  mnorm. mstep. mstep. mstep. apply IH.
Qed.

Lemma combine_surplus {A B : Type} (l1 l2 : list A) (l' : list B) :
  List.length l1 = List.length l' ->
  combine (l1 ++ l2) l' = combine l1 l'.
Proof.
  revert l'; induction l1 as [|x l1 IH]; intros [|y l'] H;
    try discriminate H.
  - destruct l2; reflexivity.
  - cbn [app combine]. rewrite IH; [reflexivity|].
    cbn [List.length] in H. lia.
Qed.

(** The lookup raises at the first operator absent from the table among
    those that have a comparator. *)
Lemma compare_pairs_KeyError (v : ast.node -> M unit)
    (ops1 : list ast.operator_class) (op : ast.operator_class)
    (ops2 : list ast.operator_class) :
  CMPOP_SYMBOLS op = None ->
  forall comparators g g',
    (List.length ops1 < List.length comparators)%nat ->
    for_each (compare_pair v) (combine ops1 comparators) g = Returns tt g' ->
    for_each (compare_pair v) (combine (ops1 ++ op :: ops2) comparators) g
    = Raises KeyError.
Proof.
  intros Hop. induction ops1 as [|o ops1 IH];
    intros [|y comparators] g g' Hlen H; cbn [List.length] in Hlen;
    try lia.
  - cbn [app combine for_each]. unfold compare_pair at 1. cbn [fst].
    unfold bind, subscript. rewrite Hop. reflexivity.
  - cbn [app combine for_each] in H |- *. unfold bind at 1 in H. unfold bind at 1.
    destruct (compare_pair v (o, y) g) as [[] g1|]; [|discriminate H].
    apply (IH comparators g1 g'); [lia | exact H].
Qed.

(** C5 (as amended): the token of a binary operator is read from
    [BINOP_SYMBOLS] after the left operand is rendered, that of a unary
    operator from [UNARYOP_SYMBOLS] after the opening parenthesis, that of
    a boolean operator from [BOOLOP_SYMBOLS] between two consecutive
    operands; when the operator class is absent from the table the render
    raises [KeyError] there.  A comparison reads [CMPOP_SYMBOLS] once for
    each pair of [zip(ops, comparators)], in order, after the left operand:
    it raises [KeyError] at the first operator of a pair that is absent
    from the table, and an operator without comparator is not read.  A
    boolean construct with fewer than two operands never reads the
    table. *)
Theorem operator_lookup (self : visitor_class) (ln : option Z)
    (op : ast.operator_class) (x y : ast.node) :
  (forall g,
     visit self (ast.BinOp ln x op y) g =
     (visit self x ;;
      token <- subscript BINOP_SYMBOLS op ;;
      write (" " ++ token ++ " ") None ;;
      visit self y) g)
  /\ (forall g,
        visit self (ast.UnaryOp ln op x) g =
        (write "(" None ;;
         token <- subscript UNARYOP_SYMBOLS op ;;
         write token None ;;
         (if String.eqb token "not" then write " " None else ret tt) ;;
         visit self x ;;
         write ")" None) g)
  /\ (forall g,
        visit self (ast.Compare ln x [op] [y]) g =
        (visit self x ;;
         token <- subscript CMPOP_SYMBOLS op ;;
         write (" " ++ token ++ " ") None ;;
         visit self y) g)
  /\ (forall ops comparators g,
        visit self (ast.Compare ln x ops comparators) g =
        (visit self x ;;
         for_each (compare_pair (visit self)) (combine ops comparators)) g)
  /\ (forall ops1 ops2 comparators g g',
        CMPOP_SYMBOLS op = None ->
        (List.length ops1 < List.length comparators)%nat ->
        (visit self x ;;
         for_each (compare_pair (visit self)) (combine ops1 comparators)) g
        = Returns tt g' ->
        visit self (ast.Compare ln x (ops1 ++ op :: ops2) comparators) g =
        Raises KeyError)
  /\ (forall ops1 ops2 comparators g,
        List.length ops1 = List.length comparators ->
        visit self (ast.Compare ln x (ops1 ++ ops2) comparators) g =
        visit self (ast.Compare ln x ops1 comparators) g)
  /\ (forall g,
        visit self (ast.BoolOp ln op []) g =
        (write "(" None ;; write ")" None) g)
  /\ (forall g,
        visit self (ast.BoolOp ln op [x; y]) g =
        (write "(" None ;;
         visit self x ;;
         token <- subscript BOOLOP_SYMBOLS op ;;
         write (" " ++ token ++ " ") None ;;
         visit self y ;;
         write ")" None) g)
  /\ (forall g,
        visit self (ast.BoolOp ln op [x]) g =
        (write "(" None ;; visit self x ;; write ")" None) g)
  /\ (forall g g',
        visit self x g = Returns tt g' ->
        (BINOP_SYMBOLS op = None ->
         visit self (ast.BinOp ln x op y) g = Raises KeyError)
        /\ (CMPOP_SYMBOLS op = None ->
            forall ops comparators,
              visit self (ast.Compare ln x (op :: ops) (y :: comparators)) g
              = Raises KeyError))
  /\ (forall g,
        UNARYOP_SYMBOLS op = None ->
        visit self (ast.UnaryOp ln op x) g = Raises KeyError)
  /\ (forall g g' values,
        (write "(" None ;; visit self x) g = Returns tt g' ->
        BOOLOP_SYMBOLS op = None ->
        visit self (ast.BoolOp ln op (x :: y :: values)) g =
        Raises KeyError).
Proof.
  repeat match goal with |- _ /\ _ => split end.
  - intros g. rewrite visit_eq, visit_BinOp_rule. reflexivity.
  - intros g. rewrite visit_eq, visit_UnaryOp_rule. reflexivity.
  - intros g. rewrite visit_eq, visit_Compare_rule.
    unfold visit_Compare. cbn [map for_zip]. unfold compare_item.
    apply meq_at. mstep. mstep. mstep. apply bind_ret_r.
  - intros ops comparators g. rewrite visit_eq, visit_Compare_rule.
    apply visit_Compare_pairs.
  - intros ops1 ops2 comparators g g' Hop Hlen H.
    rewrite visit_eq, visit_Compare_rule, visit_Compare_pairs.
    unfold bind at 1 in H. unfold bind at 1.
    destruct (visit self x g) as [[] g1|]; [|discriminate H].
    apply (compare_pairs_KeyError _ ops1 op ops2 Hop comparators g1 g');
      [exact Hlen | exact H].
  - intros ops1 ops2 comparators g Hlen.
    rewrite !visit_eq, !visit_Compare_rule, !visit_Compare_pairs.
    rewrite combine_surplus by exact Hlen. reflexivity.
  - intros g. rewrite visit_eq, visit_BoolOp_rule.
    unfold visit_BoolOp. cbn [for_enumerate].
    apply meq_at. mstep. mnorm. reflexivity.
  - intros g. rewrite visit_eq, visit_BoolOp_rule.
    unfold visit_BoolOp. cbn [for_enumerate]. unfold boolop_item.
    change (0 =? 0) with true. change (0 + 1 =? 0) with false. cbv iota.
    apply meq_at. mstep. mstep. mstep. mstep. mstep. reflexivity.
  - intros g. rewrite visit_eq, visit_BoolOp_rule.
    unfold visit_BoolOp. cbn [for_enumerate].
    unfold boolop_item. change (0 =? 0) with true. cbv iota.
    apply meq_at. mstep. mstep. mstep. reflexivity.
  - intros g g' Hx. split.
    + intros Hop. rewrite visit_eq, visit_BinOp_rule.
      unfold visit_BinOp, bind at 1. rewrite Hx.
      unfold bind, subscript. rewrite Hop. reflexivity.
    + intros Hop ops comparators. rewrite visit_eq, visit_Compare_rule.
      unfold visit_Compare, bind at 1. rewrite Hx.
      cbn [map for_zip]. unfold bind at 1, compare_item, bind, subscript.
      rewrite Hop. reflexivity.
  - intros g Hop. rewrite visit_eq, visit_UnaryOp_rule.
    unfold visit_UnaryOp, bind at 1.
    destruct (write_returns "(" g) as [g1 H1]. rewrite H1.
    unfold bind, subscript. rewrite Hop. reflexivity.
  - intros g g' values H0 Hop. rewrite visit_eq, visit_BoolOp_rule.
    unfold visit_BoolOp. cbn [for_enumerate].
    unfold boolop_item at 1. change (0 =? 0) with true. cbv iota.
    unfold bind in H0 |- *. unfold ret at 1.
    destruct (write "(" None g) as [[] g1|]; [|discriminate H0].
    rewrite H0. unfold boolop_item at 1.
    change (0 + 1 =? 0) with false. cbv iota.
    unfold subscript. rewrite Hop. reflexivity.
Qed.

Lemma operator_lookup_witness :
  visit Py35
    (ast.BinOp None (ast.Name None "a") ast.MatMult (ast.Name None "b"))
    (init "") = Raises KeyError.
Proof.
  destruct (operator_lookup Py35 None ast.MatMult (ast.Name None "a")
              (ast.Name None "b"))
    as [_ [_ [_ [_ [_ [_ [_ [_ [_ [H _]]]]]]]]]].
  refine (proj1 (H (init "") _ _) _).
  - vm_compute. reflexivity.
  - reflexivity.
Defined.

Example operator_text :
  to_source Py27
    (ast.BoolOp None ast.And
       [ast.Compare None (ast.Name None "a") [ast.Lt; ast.NotIn]
          [ast.Name None "b"; ast.Name None "c"];
        ast.UnaryOp None ast.Not (ast.Name None "d")]) ""
  = inr "(a < b not in c and (not d))".
Proof. vm_compute; reflexivity. Qed.

(** ** Keyword-style bases of a class *)

(** The class node of the scenario: a positional base [Base1] and a
    keyword-style base [meta=M]. *)
Definition class_C (ln : option Z) (class_body : list ast.node) : ast.node :=
  ast.ClassDef ln "C" [ast.Name None "Base1"]
    (Some [ast.keyword (Some "meta") (ast.Name None "M")]) class_body [].

(** The claim C6 as first stated fails on its second half: under the
    classes before Python 3.0 the render does not raise; it leaves the
    keyword-style base out. *)
Lemma class_keyword_counterexample :
  to_source Py27 (class_C (Some 1) [ast.Pass (Some 2)]) "    "
  = inr ("class C(Base1):" ++ py.nl ++ "    pass")%string.
Proof. vm_compute; reflexivity. Qed.

(** C6 (as amended): from the class of Python 3.0 on, the class node with
    the bases [Base1] and [meta=M] renders with the header
    [class C(Base1, meta=M):]; under the earlier classes it renders
    without raising, with the header [class C(Base1):], the keyword-style
    base left out. *)
Theorem class_keyword_bases (self : visitor_class) :
  (forall ln class_body g,
     visit self (class_C ln class_body) g =
     (newline (Some (class_C ln class_body)) ;;
      write "class C" (Some (class_C ln class_body)) ;;
      write "(" None ;;
      visit self (ast.Name None "Base1") ;;
      (if since Py30 self
       then write ", " None ;; write "meta=" None ;;
            visit self (ast.Name None "M")
       else ret tt) ;;
      write "):" None ;;
      body (visit self) class_body) g)
  /\ to_source self (class_C (Some 1) [ast.Pass (Some 2)]) "    "
     = inr ((if since Py30 self then "class C(Base1, meta=M):"
             else "class C(Base1):") ++ py.nl ++ "    pass")%string.
Proof.
  split.
  - intros ln class_body g. unfold class_C.
    rewrite visit_eq, visit_ClassDef_rule.
    assert (Hk : visit self (ast.keyword (Some "meta") (ast.Name None "M"))
                 =~ (write "meta=" None ;; visit self (ast.Name None "M"))).
    { intros g0. rewrite visit_eq. destruct self; reflexivity. }
    apply meq_at.
    destruct (since Py30 self);
      unfold visit_ClassDef_Python30, visit_ClassDef_Base, decorators;
      cbn [for_each for_fold]; unfold class_item, paren_or_comma;
      mstep; mstep; mstep; mstep.
    + mstep. rewrite Hk. mstep. mstep. reflexivity.
    + reflexivity.
  - destruct self; vm_compute; reflexivity.
Qed.

(** * Further properties of the generator *)

(** ** The symbol tables as a whole *)

Definition is_MatMult (op : ast.operator_class) : bool :=
  match op with
  | ast.MatMult => true
  | _ => false
  end.

(** The tokens the four tables give for an operator class. *)
Definition tokens_of (op : ast.operator_class) : list string :=
  flat_map
    (fun table : ast.operator_class -> option string =>
       match table op with
       | Some token => [token]
       | None => []
       end)
    [BOOLOP_SYMBOLS; BINOP_SYMBOLS; CMPOP_SYMBOLS; UNARYOP_SYMBOLS].

Lemma visit_AugAssign_rule (self : visitor_class) (v e : ast.node -> M unit)
    ln target op value :
  visit_ self v e (ast.AugAssign ln target op value) =
  visit_AugAssign v (ast.AugAssign ln target op value) target op value.
Proof. destruct self; reflexivity. Qed.

(** X1: the four tables have disjoint keys, so that [ALL_SYMBOLS] holds
    the one token an operator class has; the class [MatMult] is the only
    one without a token in any table.  A binary operation or an augmented
    assignment with that operator raises [KeyError] once its left operand
    or target is rendered, in every class of the chain. *)
Theorem MatMult_has_no_symbol (self : visitor_class) (ln : option Z)
    (x y : ast.node) (g g' : generator) :
  visit self x g = Returns tt g' ->
  (forall op,
     tokens_of op =
     match ALL_SYMBOLS op with
     | Some token => [token]
     | None => []
     end
     /\ List.length (tokens_of op) = (if is_MatMult op then 0 else 1)%nat)
  /\ visit self (ast.BinOp ln x ast.MatMult y) g = Raises KeyError
  /\ (forall g0,
        newline (Some (ast.AugAssign ln x ast.MatMult y)) g0 = Returns tt g ->
        visit self (ast.AugAssign ln x ast.MatMult y) g0 = Raises KeyError).
Proof.
  intros Hx. split; [|split].
  - intros op. destruct op; split; reflexivity.
  - rewrite visit_eq, visit_BinOp_rule. unfold visit_BinOp, bind at 1.
    rewrite Hx. reflexivity.
  - intros g0 H0. rewrite visit_eq, visit_AugAssign_rule.
    unfold visit_AugAssign, bind at 1. rewrite H0.
    unfold bind at 1. rewrite Hx. reflexivity.
Qed.

Lemma MatMult_has_no_symbol_witness :
  to_source Py36
    (ast.BinOp None (ast.Name None "a") ast.MatMult (ast.Name None "b")) ""
  = inl KeyError.
Proof.
  unfold to_source.
  destruct (MatMult_has_no_symbol Py36 None (ast.Name None "a")
              (ast.Name None "b") (init "")
              {| result := ["a"]; indent_with := ""; indentation := 0;
                 new_line := false |}) as [_ [H _]].
  - reflexivity.
  - rewrite H. reflexivity.
Defined.

(** ** Bracketed sequences *)

Section Sequences.

Variable v : ast.node -> M unit.

Lemma sequence_visit_commas (left_ right_ : string) (elts : list ast.node) :
  sequence_visit v left_ right_ elts =~
  (write left_ None ;; comma_separated (map v elts) ;; write right_ None).
Proof.
  unfold sequence_visit. mstep. destruct elts as [|x r].
  - cbn [for_enumerate map comma_separated]. mnorm. reflexivity.
  - rewrite comma_item_enumerate_0. mnorm. mstep. reflexivity.
Qed.

(** No position before the last one, in a list of [n] elements, holds the
    object that ends the list. *)
Definition last_object_once (n : nat) (flags : list bool) : bool :=
  forallb negb (firstn (n - 1) flags).

Lemma last_object_once_tail (n : nat) (flags : list bool) :
  last_object_once (S (S n)) flags = true ->
  hd false flags = false /\ last_object_once (S n) (tl flags) = true.
Proof.
  unfold last_object_once. cbn [Nat.sub]. rewrite Nat.sub_0_r.
  destruct flags as [|b flags]; cbn [firstn forallb hd tl].
  - intros _. split; [reflexivity | destruct n; reflexivity].
  - intros H. apply andb_prop in H. destruct H as [Hb H].
    split; [destruct b; [discriminate Hb | reflexivity] | exact H].
Qed.

(** The loop of [visit_Delete], which writes the comma after each target
    that is not the last object, against the commas written between the
    targets. *)
Lemma visit_Delete_targets_tail (x : ast.node) (r : list ast.node)
    (flags : list bool) :
  last_object_once (S (List.length r)) flags = true ->
  visit_Delete_targets v (x :: r) flags =~
  (v x ;; for_each then_comma (map v r)).
Proof.
  revert x flags; induction r as [|y r IH]; intros x flags H.
  - cbn [visit_Delete_targets map for_each is_last]. mstep. mnorm.
    reflexivity.
  - cbn [List.length] in H. apply last_object_once_tail in H.
    destruct H as [Hh Ht].
    change (visit_Delete_targets v (x :: y :: r) flags)
      with (v x ;;
            (if hd false flags then ret tt else write ", " None) ;;
            visit_Delete_targets v (y :: r) (tl flags)).
    rewrite Hh. cbn [map for_each]. unfold then_comma at 1.
    mstep. mstep. apply IH, Ht.
Qed.

Lemma visit_Delete_targets_commas (targets : list ast.node)
    (flags : list bool) :
  last_object_once (List.length targets) flags = true ->
  visit_Delete_targets v targets flags =~ comma_separated (map v targets).
Proof.
  destruct targets as [|x r]; [reflexivity|].
  apply visit_Delete_targets_tail.
Qed.

(** One object at every position: no comma at all. *)
Lemma visit_Delete_targets_one_object (x : ast.node) (n : nat) :
  visit_Delete_targets v (repeat x n) (repeat true n) =~
  for_each v (repeat x n).
Proof.
  induction n as [|n IH]; [reflexivity|].
  cbn [repeat visit_Delete_targets for_each tl]. mstep.
  replace (is_last (repeat x n) (true :: repeat true n)) with true
    by (destruct n; reflexivity).
  mnorm. apply IH.
Qed.

Lemma visit_With_items_tail (x : ast.node) (r : list ast.node)
    (flags : list bool) :
  last_object_once (S (List.length r)) flags = true ->
  visit_With_items v (x :: r) flags =~
  (with_item_ v x ;; for_each then_comma (map (with_item_ v) r)).
Proof.
  revert x flags; induction r as [|y r IH]; intros x flags H.
  - cbn [visit_With_items map for_each is_last]. mstep. mnorm. reflexivity.
  - cbn [List.length] in H. apply last_object_once_tail in H.
    destruct H as [Hh Ht].
    change (visit_With_items v (x :: y :: r) flags)
      with (with_item_ v x ;;
            (if hd false flags then ret tt else write ", " None) ;;
            visit_With_items v (y :: r) (tl flags)).
    rewrite Hh. cbn [map for_each]. unfold then_comma at 1.
    mstep. mstep. apply IH, Ht.
Qed.

Lemma visit_With_items_one_object (x : ast.node) (n : nat) :
  visit_With_items v (repeat x n) (repeat true n) =~
  for_each (with_item_ v) (repeat x n).
Proof.
  induction n as [|n IH]; [reflexivity|].
  cbn [repeat visit_With_items for_each tl]. mstep.
  replace (is_last (repeat x n) (true :: repeat true n)) with true
    by (destruct n; reflexivity).
  mnorm. apply IH.
Qed.

End Sequences.

Section MoreDispatch.

Variable self : visitor_class.
Variable v e : ast.node -> M unit.

Lemma visit_List_rule ln elts :
  visit_ self v e (ast.List ln elts) = visit_List v elts.
Proof. destruct self; reflexivity. Qed.

Lemma visit_Set_rule ln elts :
  visit_ self v e (ast.Set_ ln elts) = visit_Set v elts.
Proof. destruct self; reflexivity. Qed.

Lemma visit_Delete_rule ln targets flags :
  visit_ self v e (ast.Delete ln targets flags) =
  visit_Delete v (ast.Delete ln targets flags) targets flags.
Proof. destruct self; reflexivity. Qed.

Lemma visit_With_rule ln context_expr optional_vars items flags b :
  visit_ self v e (ast.With ln context_expr optional_vars items flags b) =
  if since Py33 self then
    visit_With_Python33 v
      (ast.With ln context_expr optional_vars items flags b) items flags b
  else
    visit_With_Base v
      (ast.With ln context_expr optional_vars items flags b)
      context_expr optional_vars b.
Proof. destruct self; reflexivity. Qed.

Lemma visit_Dict_rule ln keys values :
  visit_ self v e (ast.Dict ln keys values) = visit_Dict v keys values.
Proof. destruct self; reflexivity. Qed.

Lemma visit_If_rule ln test b orelse :
  visit_ self v e (ast.If ln test b orelse) =
  visit_If v e (ast.If ln test b orelse) test b orelse.
Proof. destruct self; reflexivity. Qed.



Lemma visit_Lambda_rule ln args b :
  visit_ self v e (ast.Lambda ln args b) = visit_Lambda self v args b.
Proof. destruct self; reflexivity. Qed.

End MoreDispatch.

(** X2: a list and a set render their elements separated by commas between
    the brackets, with no comma after the last element whatever the number
    of elements; without element only the two brackets are written. *)
Theorem list_and_set_commas (self : visitor_class) (ln : option Z)
    (elts : list ast.node) (g : generator) :
  visit self (ast.List ln elts) g =
  (write "[" None ;; comma_separated (map (visit self) elts) ;;
   write "]" None) g
  /\ visit self (ast.Set_ ln elts) g =
     (write "{" None ;; comma_separated (map (visit self) elts) ;;
      write "}" None) g
  /\ to_source self (ast.List ln []) "" = inr "[]"
  /\ to_source self (ast.Set_ ln []) "" = inr "{}".
Proof.
  split; [|split; [|split]].
  - rewrite visit_eq, visit_List_rule. apply sequence_visit_commas.
  - rewrite visit_eq, visit_Set_rule. apply sequence_visit_commas.
  - destruct self; vm_compute; reflexivity.
  - destruct self; vm_compute; reflexivity.
Qed.

(** X3: [del] writes a comma after each target that is not the object
    ending the list of targets.  When no earlier position holds that
    object, the targets are separated by commas, and without target only
    [del ] is written; when every position holds one and the same object,
    no comma is written at all. *)
Theorem delete_targets_commas (self : visitor_class) (ln : option Z)
    (targets : list ast.node) (flags : list bool) (g : generator) :
  (last_object_once (List.length targets) flags = true ->
   visit self (ast.Delete ln targets flags) g =
   (newline (Some (ast.Delete ln targets flags)) ;;
    write "del " None ;;
    comma_separated (map (visit self) targets)) g)
  /\ (forall x n,
        visit self (ast.Delete ln (repeat x n) (repeat true n)) g =
        (newline (Some (ast.Delete ln (repeat x n) (repeat true n))) ;;
         write "del " None ;;
         for_each (visit self) (repeat x n)) g).
Proof.
  split.
  - intros H. rewrite visit_eq, visit_Delete_rule. unfold visit_Delete.
    apply meq_at. mstep. mstep. apply visit_Delete_targets_commas, H.
  - intros x n. rewrite visit_eq, visit_Delete_rule. unfold visit_Delete.
    apply meq_at. mstep. mstep. apply visit_Delete_targets_one_object.
Qed.

Lemma delete_targets_commas_witness :
  to_source Py27
    (ast.Delete (Some 1) [ast.Name None "a"; ast.Name None "b"] []) ""
  = inr "del a, b".
Proof.
  unfold to_source.
  rewrite (proj1 (delete_targets_commas Py27 (Some 1)
                    [ast.Name None "a"; ast.Name None "b"] [] (init ""))
             eq_refl).
  vm_compute. reflexivity.
Defined.

Example delete_one_object_twice :
  to_source Py27
    (ast.Delete (Some 1) [ast.Name None "a"; ast.Name None "a"] [true]) ""
  = inr "del aa".
Proof. vm_compute. reflexivity. Qed.

(** An item of a [with] statement, as the pair of its context expression
    and its optional target. *)
Definition withitem_of (item : ast.node * option ast.node) : ast.node :=
  ast.withitem (fst item) (snd item).

(** What is written for an item: the context expression, then [ as ] and
    the target when there is one. *)
Definition with_item_text (visit : ast.node -> M unit)
    (item : ast.node * option ast.node) : M unit :=
  visit (fst item) ;;
  match snd item with
  | Some target => write " as " None ;; visit target
  | None => ret tt
  end.

(** X4: from Python 3.3 on, [with] writes for each item its context
    expression, followed by [ as ] and the target when it has one, and a
    comma after each item that is not the object ending the list of
    items: when no earlier position holds that object, the items are
    separated by commas.  The earlier classes read [node.context_expr],
    and raise [AttributeError] on a node that only has [items]. *)
Theorem with_items_commas (self : visitor_class) (ln : option Z)
    (items : list (ast.node * option ast.node)) (flags : list bool)
    (b : list ast.node) (g : generator) :
  last_object_once (List.length items) flags = true ->
  let node := ast.With ln None None (Some (map withitem_of items)) flags b in
  visit self node g =
  (if since Py33 self then
     newline (Some node) ;;
     write "with " None ;;
     comma_separated (map (with_item_text (visit self)) items) ;;
     write ":" None ;;
     body (visit self) b
   else
     newline (Some node) ;; write "with " None ;; raise AttributeError) g.
Proof.
  intros H node. unfold node. rewrite visit_eq, visit_With_rule.
  apply meq_at. destruct (since Py33 self).
  - unfold visit_With_Python33. mstep. mstep.
    rewrite <- (length_map withitem_of) in H.
    destruct items as [|x r]; [reflexivity|].
    cbn [map] in H |- *. rewrite (visit_With_items_tail _ _ _ _ H).
    rewrite map_map. reflexivity.
  - unfold visit_With_Base. mstep. mstep. reflexivity.
Qed.

Lemma with_items_commas_witness :
  to_source Py36
    (ast.With (Some 1) None None
       (Some [ast.withitem (ast.Name None "a") (Some (ast.Name None "x"));
              ast.withitem (ast.Name None "b") None]) []
       [ast.Pass (Some 2)]) "  "
  = inr ("with a as x, b:" ++ py.nl ++ "  pass")%string.
Proof.
  unfold to_source.
  pose proof (with_items_commas Py36 (Some 1)
                [(ast.Name None "a", Some (ast.Name None "x"));
                 (ast.Name None "b", None)] [] [ast.Pass (Some 2)]
                (init "  ") eq_refl) as H.
  cbv beta zeta iota delta [map withitem_of fst snd] in H.
  rewrite H. vm_compute. reflexivity.
Defined.

Example with_one_object_twice :
  to_source Py36
    (ast.With (Some 1) None None
       (Some [ast.withitem (ast.Name None "a") None;
              ast.withitem (ast.Name None "a") None]) [true]
       [ast.Pass (Some 2)]) "  "
  = inr ("with aa:" ++ py.nl ++ "  pass")%string.
Proof. vm_compute. reflexivity. Qed.

(** ** The header of a class *)

Section ClassHeader.

Variable v : ast.node -> M unit.

Lemma class_items_fold (l : list ast.node) (have_args : bool) :
  for_fold (class_item v) l have_args =~
  (if have_args then for_each then_comma (map v l) ;; ret true
   else match l with
        | [] => ret false
        | _ :: _ => write "(" None ;; comma_separated (map v l) ;; ret true
        end).
Proof.
  revert have_args; induction l as [|x r IH]; intros w.
  - destruct w; cbn [for_fold map for_each]; mnorm; reflexivity.
  - cbn [for_fold map for_each comma_separated].
    unfold class_item at 1, paren_or_comma.
    destruct w.
    + unfold then_comma at 1. mstep. mstep. rewrite IH. reflexivity.
    + mstep. mstep. rewrite IH. reflexivity.
Qed.

(** The parentheses are written when, and only when, an item is. *)
Lemma class_parentheses (l : list ast.node) :
  (have_args <- for_fold (class_item v) l false ;;
   write (if have_args then "):" else ":") None) =~
  match l with
  | [] => write ":" None
  | _ :: _ =>
      write "(" None ;; comma_separated (map v l) ;; write "):" None
  end.
Proof.
  rewrite class_items_fold. destruct l as [|x r].
  - mnorm. reflexivity.
  - mstep. mstep. reflexivity.
Qed.

End ClassHeader.

(** The bases a class renders: the positional ones, and from Python 3.0 on
    the keywords after them. *)
Definition rendered_bases (self : visitor_class) (bases : list ast.node)
    (keywords : option (list ast.node)) : list ast.node :=
  (bases
   ++ if since Py30 self
      then match keywords with Some k => k | None => [] end
      else [])%list.

Ltac parenthesise v :=
  match goal with
  | |- _ =~ bind (match ?l with [] => _ | _ :: _ => _ end) ?k =>
      transitivity
        (bind (have_args <- for_fold (class_item v) l false ;;
               write (if have_args then "):" else ":") None) k);
      [|apply bind_Proper;
        [apply class_parentheses | intros ?; reflexivity]]
  end.

(** X5: a class writes its decorators, then [class] and its name, then the
    bases it renders between parentheses and separated by commas, then the
    colon and the body; the parentheses are written exactly when there is
    at least one rendered base, so that a class without base is
    [class C:]. *)
Theorem class_header (self : visitor_class) (ln : option Z) (name : string)
    (bases : list ast.node) (keywords : option (list ast.node))
    (b decorator_list : list ast.node) (g : generator) :
  let node := ast.ClassDef ln name bases keywords b decorator_list in
  visit self node g =
  (decorators (visit self) decorator_list ;;
   newline (Some node) ;;
   write ("class " ++ name) (Some node) ;;
   match rendered_bases self bases keywords with
   | [] => write ":" None
   | _ :: _ =>
       write "(" None ;;
       comma_separated
         (map (visit self) (rendered_bases self bases keywords)) ;;
       write "):" None
   end ;;
   body (visit self) b) g.
Proof.
  intros node. unfold node, rendered_bases.
  rewrite visit_eq, visit_ClassDef_rule.
  apply meq_at.
  destruct (since Py30 self);
    unfold visit_ClassDef_Python30, visit_ClassDef_Base;
    mstep; mstep; mstep.
  - parenthesise (visit self).
    rewrite for_fold_app. mstep.
    destruct keywords as [k|]; cbn [for_fold]; mnorm; reflexivity.
  - parenthesise (visit self).
    rewrite app_nil_r. mnorm. reflexivity.
Qed.

(** ** Dictionaries *)

(** One entry of a dictionary display: the key, a colon and the value, or
    [**] and the value when the key is [None]. *)
Definition dict_entry (visit : ast.node -> M unit)
    (entry : option ast.node * ast.node) : M unit :=
  match fst entry with
  | Some key =>
      if truth key then visit key ;; write ": " None else write "**" None
  | None => write "**" None
  end ;;
  visit (snd entry).

Section Dict.

Variable v : ast.node -> M unit.

Lemma dict_items_tail (keys : list (option ast.node))
    (values : list ast.node) (idx : Z) (m : M unit) :
  0 < idx ->
  (for_zip (dict_item v) keys (map v values) idx ;; m) =~
  (for_each then_comma (map (dict_entry v) (combine keys values)) ;; m).
Proof.
  revert values idx; induction keys as [|k keys IH];
    intros [|x values] idx Hidx;
    cbn [for_zip map combine for_each]; try (mnorm; reflexivity).
  unfold dict_item at 1, then_comma at 1, dict_entry at 1.
  cbn [fst snd].
  replace (idx =? 0) with false by (symmetry; apply Z.eqb_neq; lia).
  mstep. destruct k as [k|]; [destruct (truth k)|];
    mstep; try mstep; try mstep; apply IH; lia.
Qed.

Lemma visit_Dict_entries (keys : list (option ast.node))
    (values : list ast.node) :
  visit_Dict v keys values =~
  (write "{" None ;;
   comma_separated (map (dict_entry v) (combine keys values)) ;;
   write "}" None).
Proof.
  unfold visit_Dict. mstep.
  destruct keys as [|k keys]; destruct values as [|x values];
    cbn [for_zip map combine comma_separated]; try (mnorm; reflexivity).
  unfold dict_item at 1, dict_entry at 1. cbn [fst snd].
  change (0 =? 0) with true. cbv iota.
  mnorm. destruct k as [k|]; [destruct (truth k)|];
    mstep; try mstep; try mstep; apply dict_items_tail; lia.
Qed.

End Dict.

(** X6: a dictionary display writes, between braces and separated by
    commas, one entry for each pair of [zip(node.keys, node.values)]: the
    key, [: ] and the value, or [**] and the value when the key is false
    ([None], or an empty [str]).  The keys or the values beyond the shorter
    of the two lists are not rendered. *)
Theorem dict_entries (self : visitor_class) (ln : option Z)
    (keys : list (option ast.node)) (values : list ast.node)
    (g : generator) :
  visit self (ast.Dict ln keys values) g =
  (write "{" None ;;
   comma_separated (map (dict_entry (visit self)) (combine keys values)) ;;
   write "}" None) g
  /\ List.length (combine keys values) =
     Nat.min (List.length keys) (List.length values).
Proof.
  split.
  - rewrite visit_eq, visit_Dict_rule. apply visit_Dict_entries.
  - apply length_combine.
Qed.

(** ** Signatures: the edges *)

(** X7: when a signature has at least as many defaults as positional
    parameters, every parameter is written with a default, the defaults
    being taken from the front of [node.defaults]; the defaults beyond the
    number of parameters are not rendered. *)
Theorem surplus_defaults (self : visitor_class) (args : list ast.node)
    (vararg : option ast.node) (kwonlyargs : list ast.node)
    (kw_defaults : list (option ast.node)) (kwarg : option ast.node)
    (defaults : list ast.node) (g : generator) :
  (List.length args <= List.length defaults)%nat ->
  signature self (visit self)
    (ast.arguments args vararg kwonlyargs kw_defaults kwarg defaults) g =
  comma_separated
    (map (fun '(arg, default) =>
            parameter self (visit self) arg (Some default))
       (combine args (firstn (List.length args) defaults))
     ++ star_parameter self "*" vararg
     ++ star_parameter self "**" kwarg) g.
Proof.
  intros H. rewrite signature_parameters_eq. unfold parameters.
  replace (List.length args - List.length defaults)%nat with O by lia.
  cbn [firstn skipn map app].
  rewrite combine_firstn_l. reflexivity.
Qed.

Lemma surplus_defaults_witness :
  to_source Py27
    (ast.Lambda None
       (ast.arguments [ast.Name None "a"] None [] [] None
          [ast.Num None 1; ast.Num None 2])
       (ast.Name None "a")) ""
  = inr "lambda a=1: a".
Proof.
  unfold to_source. rewrite visit_eq, visit_Lambda_rule.
  unfold visit_Lambda, bind at 1.
  destruct (write_returns "lambda " (init "")) as [g1 H1]. rewrite H1.
  unfold bind at 1.
  rewrite (surplus_defaults Py27 [ast.Name None "a"] None [] [] None
             [ast.Num None 1; ast.Num None 2] g1) by (cbn; lia).
  revert H1. vm_compute. intros H1. injection H1 as <-. reflexivity.
Defined.

(** X8: the name of a variadic parameter is read as the [str] it is in the
    grammars before Python 3.4 by the classes before 3.4, and as the
    attribute [arg] of an [arg] node from 3.4 on.  A tree of the other
    grammar makes the render raise: [TypeError] for an [arg] node under an
    earlier class, [AttributeError] for a [str] from 3.4 on. *)
Theorem variadic_name_by_version (self : visitor_class)
    (kwonlyargs : list ast.node) (kw_defaults : list (option ast.node))
    (name : string) (annotation : option ast.node) (g : generator) :
  let star x := ast.arguments [] (Some x) kwonlyargs kw_defaults None [] in
  let stars x := ast.arguments [] None kwonlyargs kw_defaults (Some x) [] in
  signature self (visit self) (star (ast.arg name annotation)) g =
  (if since Py34 self then write ("*" ++ name) None g else Raises TypeError)
  /\ signature self (visit self) (star (ast.PyStr name)) g =
     (if since Py34 self then Raises AttributeError
      else write ("*" ++ name) None g)
  /\ signature self (visit self) (stars (ast.arg name annotation)) g =
     (if since Py34 self then write ("**" ++ name) None g
      else Raises TypeError)
  /\ signature self (visit self) (stars (ast.PyStr name)) g =
     (if since Py34 self then Raises AttributeError
      else write ("**" ++ name) None g).
Proof.
  intros star stars. unfold star, stars.
  repeat match goal with |- _ /\ _ => split end;
    rewrite signature_parameters_eq; unfold parameters;
    cbn [List.length Nat.sub firstn skipn combine map app star_parameter
         comma_separated for_each];
    destruct (since Py34 self); cbn [plus_attr_arg plus_str];
    first [ reflexivity
          | apply meq_at; mnorm; rewrite bind_ret_tt; reflexivity ].
Qed.

(** ** Branches that are, or are not, rendered *)



Definition isinstance_If (x : ast.node) : bool :=
  match x with
  | ast.If _ _ _ _ => true
  | _ => false
  end.

(** The beginning of an [if] statement, up to the end of its body. *)
Definition if_head (self : visitor_class) (node : option ast.node)
    (keyword : string) (test : ast.node) (b : list ast.node) : M unit :=
  newline node ;;
  write keyword None ;;
  visit self test ;;
  write ":" None ;;
  body (visit self) b.

(** X10: an [if] whose [orelse] is a single [If] node goes on with
    [elif], at the same indentation; the line break before [elif] is the
    plain one, the line number of the inner node is not reconciled.  Any
    other non-empty [orelse] is written under [else:], and an empty one
    ends the statement. *)
Theorem elif_chain (self : visitor_class) (ln : option Z) (test : ast.node)
    (b : list ast.node) (x : ast.node) (g : generator) :
  let node orelse := ast.If ln test b orelse in
  (forall ln' test' b' orelse',
     visit self (node [ast.If ln' test' b' orelse']) g =
     (if_head self (Some (node [ast.If ln' test' b' orelse'])) "if " test b ;;
      if_head self None "elif " test' b' ;;
      if_orelse (visit self) (visit_elif self) orelse') g)
  /\ (isinstance_If x = false ->
      visit self (node [x]) g =
      (if_head self (Some (node [x])) "if " test b ;;
       newline None ;; write "else:" None ;; body (visit self) [x]) g)
  /\ (forall y orelse,
        visit self (node (x :: y :: orelse)) g =
        (if_head self (Some (node (x :: y :: orelse))) "if " test b ;;
         newline None ;; write "else:" None ;;
         body (visit self) (x :: y :: orelse)) g)
  /\ visit self (node []) g = if_head self (Some (node [])) "if " test b g.
Proof.
  intros node. unfold node, if_head.
  repeat match goal with |- _ /\ _ => split end.
  - intros ln' test' b' orelse'. rewrite visit_eq, visit_If_rule.
    unfold visit_If. cbn [if_orelse]. rewrite visit_elif_eq.
    cbn [elif_]. apply meq_at.
    mstep. mstep. mstep. mstep. mstep. mstep. mstep. mstep. mstep. mstep.
    reflexivity.
  - intros Hx. rewrite visit_eq, visit_If_rule. unfold visit_If.
    apply meq_at. mstep. mstep. mstep. mstep. mstep.
    destruct x; try discriminate Hx; reflexivity.
  - intros y orelse. rewrite visit_eq, visit_If_rule. unfold visit_If.
    apply meq_at. mstep. mstep. mstep. mstep. mstep.
    destruct x; reflexivity.
  - rewrite visit_eq, visit_If_rule. unfold visit_If. cbn [if_orelse].
    apply meq_at. mstep. mstep. mstep. mstep. rewrite bind_ret_tt.
    reflexivity.
Qed.

Lemma elif_chain_witness :
  to_source Py27
    (ast.If (Some 1) (ast.Name None "a") [ast.Pass (Some 2)]
       [ast.Pass (Some 4)]) "    "
  = inr ("if a:" ++ py.nl ++ "    pass" ++ py.nl ++ "else:" ++ py.nl
         ++ "    pass")%string.
Proof.
  unfold to_source.
  rewrite (proj1 (proj2 (elif_chain Py27 (Some 1) (ast.Name None "a")
                           [ast.Pass (Some 2)] (ast.Pass (Some 4))
                           (init "    "))) eq_refl).
  vm_compute. reflexivity.
Defined.

(** ** Unary operators *)

Definition is_Not (op : ast.operator_class) : bool :=
  match op with
  | ast.Not => true
  | _ => false
  end.

(** X11: a unary operation is written between parentheses; the space
    after the operator is written for [not] and for no other operator of
    the table. *)
Theorem unary_space_after_not (self : visitor_class) (ln : option Z)
    (op : ast.operator_class) (operand : ast.node) (token : string)
    (g : generator) :
  UNARYOP_SYMBOLS op = Some token ->
  visit self (ast.UnaryOp ln op operand) g =
  (write "(" None ;;
   write token None ;;
   (if is_Not op then write " " None else ret tt) ;;
   visit self operand ;;
   write ")" None) g.
Proof.
  intros H. rewrite visit_eq, visit_UnaryOp_rule. unfold visit_UnaryOp.
  apply meq_at. mstep. unfold subscript. rewrite H. mnorm. mstep.
  destruct op; try discriminate H;
    injection H as <-; reflexivity.
Qed.

Lemma unary_space_after_not_witness :
  to_source Py27 (ast.UnaryOp None ast.USub (ast.Name None "x")) ""
  = inr "(-x)"
  /\ to_source Py27 (ast.UnaryOp None ast.Not (ast.Name None "x")) ""
     = inr "(not x)".
Proof.
  unfold to_source. split.
  - rewrite (unary_space_after_not Py27 None ast.USub (ast.Name None "x")
               "-" (init "") eq_refl).
    reflexivity.
  - rewrite (unary_space_after_not Py27 None ast.Not (ast.Name None "x")
               "not" (init "") eq_refl).
    reflexivity.
Defined.

(** ** Line breaks *)

Lemma write_newline_one_line (g : generator) :
  py.count_LF (indent g) = O ->
  exists g',
    write_newline g = Returns tt g'
    /\ lines g' = lines g + 1
    /\ result g' <> []
    /\ new_line g' = false
    /\ indent g' = indent g.
Proof.
  intros Hi. destruct (result g) as [|x r] eqn:E.
  - eexists. split; [apply write_newline_empty; exact E|].
    repeat split; try discriminate.
    unfold lines. rewrite E. cbn [result]. unfold py.len.
    rewrite split_lines_length, join_cons, count_LF_app, Hi. reflexivity.
  - assert (H : result g <> []) by (rewrite E; discriminate).
    exists (broken g 1). split; [apply write_newline_nonempty; exact H|].
    repeat split.
    + rewrite lines_broken by assumption. lia.
    + apply broken_nonempty; exact H.
Qed.

(** X12: [newline(node)] always returns; when the indentation prefix has
    no line feed, the output then has [max(lines + 1, node.lineno)] lines:
    the text that follows starts on a fresh line, on the line of the node
    when the output had not reached it yet and on the next free line
    otherwise, and from an empty output on line [max(1, node.lineno)]. *)
Theorem newline_reaches_line (node : ast.node) (l : Z) (g : generator) :
  lineno node = Some l ->
  py.count_LF (indent g) = O ->
  exists g',
    newline (Some node) g = Returns tt g'
    /\ lines g' = Z.max (lines g + 1) l
    /\ new_line g' = false.
Proof.
  intros Hl Hi.
  set (g1 := {| result := result g; indent_with := indent_with g;
                indentation := indentation g; new_line := true |}).
  assert (H1 : lines g1 = lines g) by reflexivity.
  destruct (write_newline_one_line g1 Hi) as [g2 [Hw [Hl2 [Hr2 [Hn2 Hi2]]]]].
  set (k := Z.to_nat (l - lines g2)).
  exists (broken g2 k). split; [|split].
  - unfold newline, bind at 1, set_new_line. fold g1.
    unfold correct_line_number, bind, get. cbn [new_line g1].
    rewrite Hw, Hl.
    rewrite (add_missing_lines_times node l g2 Hl).
    apply times_write_newline; assumption.
  - rewrite lines_broken; [|exact Hr2|].
    + unfold k. rewrite Hl2, H1. lia.
    + rewrite Hi2. exact Hi.
  - reflexivity.
Qed.

Lemma newline_reaches_line_witness :
  exists g',
    newline (Some (ast.Pass (Some 3))) (init "    ") = Returns tt g'
    /\ lines g' = 3
    /\ new_line g' = false.
Proof.
  apply (newline_reaches_line (ast.Pass (Some 3)) 3 (init "    "));
    reflexivity.
Defined.

(** The generator with [x] and then [y] appended to its result. *)
Definition appended (g : generator) (l : list string) : generator :=
  {| result := result g ++ l; indent_with := indent_with g;
     indentation := indentation g; new_line := new_line g |}.

(** X13: a line break requested by [newline] or [body] is materialised by
    the first [write] that follows and by that one only: two writes in a
    row put their texts side by side after the single break; without a
    pending request a write only appends its text. *)
Theorem pending_newline_once (x y : string) (g : generator) :
  new_line g = true ->
  (exists g1,
     write_newline g = Returns tt g1
     /\ (write x None ;; write y None) g = Returns tt (appended g1 [x; y]))
  /\ (forall g0, new_line g0 = false ->
                 write x None g0 = Returns tt (appended g0 [x])).
Proof.
  intros H. split.
  - destruct (write_newline_lines g) as [g1 [Hw _]].
    exists g1. split; [exact Hw|].
    assert (Hn : new_line g1 = false).
    { revert Hw. unfold write_newline, bind, get, append, set_new_line.
      destruct (result g); intros Hw; injection Hw as <-; reflexivity. }
    unfold bind at 1, write at 1, bind at 1, correct_line_number, bind, get.
    rewrite H, Hw. unfold ret, append at 1.
    unfold write, bind at 1, correct_line_number, bind, get.
    cbn [new_line]. rewrite Hn. unfold ret, append, appended. cbn.
    rewrite <- app_assoc, Hn. reflexivity.
  - intros g0 H0. unfold write, bind at 1, correct_line_number, bind, get.
    rewrite H0. reflexivity.
Qed.

Lemma pending_newline_once_witness :
  let g := {| result := ["if a"; ":"]; indent_with := "  ";
              indentation := 1; new_line := true |} in
  (write "x" None ;; write " = " None) g =
  Returns tt {| result := ["if a"; ":"; py.nl; "  "; "x"; " = "];
                indent_with := "  "; indentation := 1;
                new_line := false |}.
Proof.
  intros g.
  destruct (proj1 (pending_newline_once "x" " = " g eq_refl))
    as [g1 [Hw H]].
  rewrite H. revert Hw. vm_compute. intros Hw. injection Hw as <-.
  reflexivity.
Defined.

(** ** What a render keeps of the generator *)

(** [g'] extends [g]: the indentation unit and depth are those of [g], and
    the result of [g] is the beginning of that of [g']. *)
Definition extends (g g' : generator) : Prop :=
  indent_with g' = indent_with g
  /\ indentation g' = indentation g
  /\ exists suffix, result g' = (result g ++ suffix)%list.

(** A computation that, when it returns, returns an extension of the
    generator it started from. *)
Definition steady {A : Type} (m : M A) : Prop :=
  forall g a g', m g = Returns a g' -> extends g g'.

Lemma extends_refl (g : generator) : extends g g.
Proof.
  repeat split. exists []. rewrite app_nil_r. reflexivity.
Qed.

Lemma extends_trans (g1 g2 g3 : generator) :
  extends g1 g2 -> extends g2 g3 -> extends g1 g3.
Proof.
  intros [Hw [Hi [s Hs]]] [Hw' [Hi' [s' Hs']]].
  repeat split; try congruence.
  exists (s ++ s')%list. rewrite Hs', Hs, app_assoc. reflexivity.
Qed.

Lemma steady_ret {A : Type} (a : A) : steady (ret a).
Proof. intros g a' g' H. injection H as _ <-. apply extends_refl. Qed.

Lemma steady_raise {A : Type} (x : exn) : steady (@raise A x).
Proof. intros g a g' H. discriminate H. Qed.

Lemma steady_bind {A B : Type} (m : M A) (k : A -> M B) :
  steady m -> (forall a, steady (k a)) -> steady (bind m k).
Proof.
  intros Hm Hk g b g' H. unfold bind in H.
  destruct (m g) as [a g1|] eqn:E; [|discriminate H].
  eapply extends_trans; [eapply Hm; exact E | eapply Hk; exact H].
Qed.

Lemma steady_meq {A : Type} (m m' : M A) :
  m =~ m' -> steady m' -> steady m.
Proof. intros H Hm g a g' Hg. rewrite H in Hg. eapply Hm; exact Hg. Qed.

Lemma steady_get : steady get.
Proof. intros g a g' H. injection H as _ <-. apply extends_refl. Qed.

Lemma steady_append (x : string) : steady (append x).
Proof.
  intros g a g' H. unfold append in H. injection H as _ <-.
  repeat split. exists [x]. reflexivity.
Qed.

Lemma steady_set_new_line (b : bool) : steady (set_new_line b).
Proof.
  intros g a g' H. unfold set_new_line in H. injection H as _ <-.
  repeat split. exists []. cbn. rewrite app_nil_r. reflexivity.
Qed.

Lemma steady_times (n : nat) (m : M unit) : steady m -> steady (times n m).
Proof.
  intros H. induction n as [|n IH]; cbn [times].
  - apply steady_ret.
  - apply steady_bind; [exact H | intros _; exact IH].
Qed.

Lemma steady_write_newline : steady write_newline.
Proof.
  unfold write_newline. apply steady_bind; [apply steady_get | intros g0].
  apply steady_bind.
  - destruct (result g0); [apply steady_ret | apply steady_append].
  - intros _. apply steady_bind; [apply steady_append | intros _].
    apply steady_set_new_line.
Qed.

Lemma steady_add_missing_lines (node : ast.node) :
  steady (add_missing_lines node).
Proof.
  unfold add_missing_lines.
  apply steady_bind; [apply steady_get | intros g0].
  destruct (lineno node); [|apply steady_raise].
  destruct (_ =? 0); [apply steady_ret|].
  apply steady_times, steady_write_newline.
Qed.

Lemma steady_correct_line_number (node : option ast.node) :
  steady (correct_line_number node).
Proof.
  unfold correct_line_number.
  apply steady_bind; [apply steady_get | intros g0].
  apply steady_bind.
  - destruct (new_line g0); [apply steady_write_newline | apply steady_ret].
  - intros _. destruct node as [n|]; [|apply steady_ret].
    destruct (lineno n);
      [apply steady_add_missing_lines | apply steady_ret].
Qed.

Lemma steady_write (x : string) (node : option ast.node) :
  steady (write x node).
Proof.
  unfold write.
  apply steady_bind; [apply steady_correct_line_number | intros _].
  apply steady_append.
Qed.

Lemma steady_newline (node : option ast.node) : steady (newline node).
Proof.
  unfold newline.
  apply steady_bind; [apply steady_set_new_line | intros _].
  apply steady_correct_line_number.
Qed.

Lemma steady_subscript (table : ast.operator_class -> option string)
    (op : ast.operator_class) : steady (subscript table op).
Proof.
  unfold subscript. destruct (table op);
    [apply steady_ret | apply steady_raise].
Qed.

Lemma steady_for_each {A : Type} (f : A -> M unit) (l : list A) :
  (forall x, In x l -> steady (f x)) -> steady (for_each f l).
Proof.
  induction l as [|x l IH]; intros H; cbn [for_each].
  - apply steady_ret.
  - apply steady_bind; [apply H; left; reflexivity | intros _].
    apply IH. intros y Hy. apply H. right. exact Hy.
Qed.

Lemma steady_for_fold {A St : Type} (f : A -> St -> M St) (l : list A)
    (s : St) :
  (forall x s, In x l -> steady (f x s)) -> steady (for_fold f l s).
Proof.
  revert s; induction l as [|x l IH]; intros s H; cbn [for_fold].
  - apply steady_ret.
  - apply steady_bind; [apply H; left; reflexivity | intros s'].
    apply IH. intros y s0 Hy. apply H. right. exact Hy.
Qed.

Lemma steady_for_zip {A B St : Type} (f : A -> B -> St -> M St)
    (l : list A) (l' : list B) (s : St) :
  (forall x y s, In x l -> In y l' -> steady (f x y s)) ->
  steady (for_zip f l l' s).
Proof.
  revert l' s; induction l as [|x l IH]; intros [|y l'] s H;
    cbn [for_zip]; try apply steady_ret.
  apply steady_bind; [apply H; left; reflexivity | intros s'].
  apply IH. intros x0 y0 s0 Hx Hy. apply H; right; assumption.
Qed.

Lemma steady_for_enumerate {A : Type} (f : Z -> A -> M unit) (l : list A)
    (idx idx0 : Z) :
  (forall i x, In x l -> steady (f i x)) ->
  steady (for_enumerate f idx l idx0).
Proof.
  revert idx idx0; induction l as [|x l IH]; intros idx idx0 H;
    cbn [for_enumerate].
  - apply steady_ret.
  - apply steady_bind; [apply H; left; reflexivity | intros _].
    apply IH. intros i y Hy. apply H. right. exact Hy.
Qed.

(** [body] deepens the indentation for the statements and restores it. *)
Lemma steady_body (v : ast.node -> M unit) (l : list ast.node) :
  (forall x, In x l -> steady (v x)) -> steady (body v l).
Proof.
  intros H g a g' Hg. unfold body, bind, set_new_line, add_indentation in Hg.
  match type of Hg with
  | match for_each v l ?g2 with _ => _ end = _ =>
      destruct (for_each v l g2) as [[] g3|] eqn:E; [|discriminate Hg];
      apply (steady_for_each v l H) in E
  end.
  injection Hg as _ <-. destruct E as [Hw [Hi [s Hs]]]. cbn in *.
  repeat split; cbn; try assumption; [lia | exists s; exact Hs].
Qed.

(** The size of a node: one more than the sizes of the nodes it holds. *)
Fixpoint size (node : ast.node) : nat :=
  let sizes := fun l : list ast.node => list_sum (map size l) in
  let osize :=
    fun o : option ast.node =>
      match o with Some x => size x | None => O end in
  let osizes :=
    fun l : list (option ast.node) =>
      list_sum
        (map (fun o => match o with Some x => size x | None => O end) l) in
  S (match node with
     | ast.PyStr _ | ast.Global _ _ | ast.Nonlocal _ _ | ast.Pass _
     | ast.Break _ | ast.Continue _ | ast.Num _ _ | ast.Str _ _
     | ast.Bytes _ _ | ast.NameConstant _ _ | ast.Ellipsis _
     | ast.Name _ _ | ast.alias _ _ => O
     | ast.Module b => sizes b
     | ast.FunctionDef _ _ a b d r | ast.AsyncFunctionDef _ _ a b d r =>
         size a + sizes b + sizes d + osize r
     | ast.ClassDef _ _ bases keywords b d =>
         sizes bases
         + match keywords with Some k => sizes k | None => O end
         + sizes b + sizes d
     | ast.Return _ v | ast.Await _ v | ast.Yield _ v => osize v
     | ast.Delete _ l _ | ast.Import _ l | ast.ImportFrom _ _ l _
     | ast.BoolOp _ _ l | ast.Set_ _ l | ast.List _ l | ast.Tuple _ l
     | ast.ExtSlice l => sizes l
     | ast.Assign _ targets v => sizes targets + size v
     | ast.AugAssign _ x _ y | ast.BinOp _ x _ y | ast.Lambda _ x y
     | ast.Subscript _ x y => size x + size y
     | ast.Print _ dest values _ => osize dest + sizes values
     | ast.For _ t i b o | ast.AsyncFor _ t i b o =>
         size t + size i + sizes b + sizes o
     | ast.While _ t b o | ast.If _ t b o => size t + sizes b + sizes o
     | ast.With _ context_expr optional_vars items _ b =>
         osize context_expr + osize optional_vars
         + match items with Some i => sizes i | None => O end
         + sizes b
     | ast.Raise _ type inst tback exc cause =>
         osize type + osize inst + osize tback + osize exc + osize cause
     | ast.TryExcept _ b h o => sizes b + sizes h + sizes o
     | ast.TryFinally _ b f => sizes b + sizes f
     | ast.Try _ b h o f => sizes b + sizes h + sizes o + sizes f
     | ast.Assert _ t m => size t + osize m
     | ast.Expr _ v | ast.UnaryOp _ _ v | ast.YieldFrom _ v | ast.Repr _ v
     | ast.Attribute _ v _ | ast.Starred _ v | ast.Index v
     | ast.keyword _ v => size v
     | ast.IfExp _ t b o => size t + size b + size o
     | ast.Dict _ keys values => osizes keys + sizes values
     | ast.ListComp _ x g | ast.SetComp _ x g | ast.GeneratorExp _ x g =>
         size x + sizes g
     | ast.DictComp _ k v g => size k + size v + sizes g
     | ast.Compare _ l _ c => size l + sizes c
     | ast.Call _ f a k s kw =>
         size f + sizes a + sizes k + osize s + osize kw
     | ast.FormattedValue _ v f => osize v + osize f
     | ast.JoinedStr _ values =>
         match values with Some v => sizes v | None => O end
     | ast.Slice l u s => osize l + osize u + osize s
     | ast.comprehension t i ifs => size t + size i + sizes ifs
     | ast.ExceptHandler _ t n b => osize t + osize n + sizes b
     | ast.arguments a vararg kwonlyargs kw_defaults kwarg defaults =>
         sizes a + osize vararg + sizes kwonlyargs + osizes kw_defaults
         + osize kwarg + sizes defaults
     | ast.arg _ annotation => osize annotation
     | ast.withitem c o => size c + osize o
     end).

Definition osize (o : option ast.node) : nat :=
  match o with Some x => size x | None => O end.

Lemma in_sizes (x : ast.node) (l : list ast.node) :
  In x l -> (size x <= list_sum (map size l))%nat.
Proof.
  unfold list_sum.
  induction l as [|y l IH]; intros H; [contradiction|].
  cbn [map fold_right]. destruct H as [<-|H]; [lia|].
  apply IH in H. lia.
Qed.

Lemma in_osizes (x : ast.node) (l : list (option ast.node)) :
  In (Some x) l -> (size x <= list_sum (map osize l))%nat.
Proof.
  unfold list_sum.
  induction l as [|y l IH]; intros H; [contradiction|].
  cbn [map fold_right]. destruct H as [->|H]; [cbn [osize]; lia|].
  apply IH in H. lia.
Qed.

(** A loop that carries local variables keeps a property of them. *)
Lemma for_fold_invariant {A St : Type} (f : A -> St -> M St)
    (P : St -> Prop) (l : list A) :
  (forall x s g s' g',
     In x l -> P s -> f x s g = Returns s' g' -> extends g g' /\ P s') ->
  forall s g s' g',
    P s -> for_fold f l s g = Returns s' g' -> extends g g' /\ P s'.
Proof.
  induction l as [|x l IH]; intros H s g s' g' Hs Hg; cbn [for_fold] in Hg.
  - injection Hg as <- <-. split; [apply extends_refl | exact Hs].
  - unfold bind in Hg. destruct (f x s g) as [s1 g1|] eqn:E;
      [|discriminate Hg].
    destruct (H x s g s1 g1 (or_introl eq_refl) Hs E) as [He1 Hs1].
    destruct (IH (fun y s0 g0 s0' g0' Hy => H y s0 g0 s0' g0' (or_intror Hy))
                s1 g1 s' g' Hs1 Hg) as [He2 Hs2].
    split; [eapply extends_trans; eassumption | exact Hs2].
Qed.

Create HintDb rules.

#[local] Hint Unfold visit_Assign visit_AugAssign visit_ImportFrom
  visit_Import visit_Expr visit_keyword visit_FunctionDef_Base
  function_definition _prefixes visit_FunctionDef_Python30
  visit_ClassDef_Base visit_ClassDef_Python30 class_item paren_or_comma
  visit_If if_orelse elif_ for_loop body_or_else visit_While visit_Pass
  visit_Print visit_Delete visit_Global visit_Nonlocal visit_Return
  visit_Break visit_Continue visit_Raise raise_type raise_exc
  visit_Attribute visit_Call visit_Name visit_str visit_Str visit_Bytes
  visit_Num visit_Tuple comma_item visit_List visit_Set sequence_visit
  visit_Dict dict_item visit_BinOp visit_BoolOp boolop_item visit_Compare
  compare_item visit_UnaryOp visit_Subscript visit_Slice slice_lower
  slice_upper slice_step visit_ExtSlice extslice_item visit_Yield
  visit_Lambda visit_Ellipsis visit_ListComp visit_GeneratorExp
  visit_SetComp generator_visit visit_DictComp visit_IfExp visit_Starred
  visit_Repr visit_alias visit_comprehension visit_ExceptHandler visit_arg
  visit_Assert visit_TryExcept visit_TryFinally visit_With_Base visit_Try
  visit_With_Python33 with_item_ visit_YieldFrom visit_NameConstant
  visit_Name_Python34 visit_AsyncFunctionDef visit_AsyncFor visit_Await
  visit_JoinedStr joined_item visit_FormattedValue decorators docstring
  write_comma call_item call_spread call_deferred signature_arg_Base
  signature_arg_Python30 signature_star plus_str plus_attr_arg attr_arg
  visit_field visit_fields visit_optional_fields : rules.

(** Bounds on sizes, from membership in the lists of a node. *)
Ltac size_tac :=
  repeat match goal with
         | H : In (Some _) _ |- _ => apply in_osizes in H
         | H : In _ _ |- _ => apply in_sizes in H
         end;
  unfold osize in *;
  repeat (progress (unfold list_sum in *; cbn [size map fold_right] in *));
  lia.

Section Steady.

Variable self : visitor_class.
Variable v e : ast.node -> M unit.
Variable k : nat.
Hypothesis Hv : forall x, (size x < k)%nat -> steady (v x).
Hypothesis He : forall x, (size x < k)%nat -> steady (e x).

Lemma steady_visit_if_AST (x : ast.node) :
  steady (v x) -> steady (visit_if_AST v x).
Proof. intros H. destruct x; try exact H. apply steady_ret. Qed.

Lemma steady_import_names (names : list ast.node) :
  steady (import_names names).
Proof.
  induction names as [|x r IH]; cbn [import_names]; [apply steady_ret|].
  destruct x; try apply steady_raise.
  apply steady_bind; [exact IH | intros ?; apply steady_ret].
Qed.

(** The syntax-directed proof that a rule is steady; [other] is tried on
    what is not one of the combinators. *)
Ltac st_with other :=
  cbv beta;
  lazymatch goal with
  | |- steady (bind _ _) =>
      apply steady_bind; [st_with other | intros ?; st_with other]
  | |- steady (ret _) => apply steady_ret
  | |- steady (raise _) => apply steady_raise
  | |- steady (write _ _) => apply steady_write
  | |- steady (newline _) => apply steady_newline
  | |- steady (subscript _ _) => apply steady_subscript
  | |- steady (import_names _) => apply steady_import_names
  | |- steady (body _ _) => apply steady_body; intros ? ?; st_with other
  | |- steady (visit_if_AST _ _) =>
      apply steady_visit_if_AST; st_with other
  | |- steady (for_each _ _) =>
      apply steady_for_each; intros ? ?; st_with other
  | |- steady (for_fold _ _ _) =>
      apply steady_for_fold; intros ? ? ?; st_with other
  | |- steady (for_enumerate _ _ _ _) =>
      apply steady_for_enumerate; intros ? ? ?; st_with other
  | |- steady (for_zip _ _ (map _ _) _) =>
      let Hm := fresh "Hm" in
      apply steady_for_zip; intros ? ? ? ? Hm;
      apply in_map_iff in Hm; destruct Hm as [? [<- ?]]; st_with other
  | |- steady (match ?x with _ => _ end) => destruct x; st_with other
  | |- steady (v _) => first [assumption | apply Hv; size_tac]
  | |- steady (e _) => first [assumption | apply He; size_tac]
  | |- _ => other
  end.

Ltac st := st_with ltac:(try assumption).

Lemma steady_visit_Delete_targets (l : list ast.node)
    (flags : list bool) :
  (forall x, In x l -> steady (v x)) ->
  steady (visit_Delete_targets v l flags).
Proof.
  revert flags. induction l as [|x r IH]; intros flags H;
    cbn [visit_Delete_targets].
  - apply steady_ret.
  - apply steady_bind; [apply H; left; reflexivity | intros _].
    apply steady_bind; [st | intros _].
    apply IH. intros y Hy. apply H. right. exact Hy.
Qed.

Lemma steady_visit_With_items (l : list ast.node) (flags : list bool) :
  (forall x, In x l -> steady (with_item_ v x)) ->
  steady (visit_With_items v l flags).
Proof.
  revert flags. induction l as [|x r IH]; intros flags H;
    cbn [visit_With_items].
  - apply steady_ret.
  - apply steady_bind; [apply H; left; reflexivity | intros _].
    apply steady_bind; [st | intros _].
    apply IH. intros y Hy. apply H. right. exact Hy.
Qed.

Lemma steady_signature (a : ast.node) :
  (size a < k)%nat -> steady (signature self v a).
Proof.
  intros Ha. destruct a; try apply steady_raise. unfold signature.
  apply steady_bind; [|intros w1].
  - apply steady_for_zip. intros x y w Hx Hy.
    rewrite signature_arg_rule.
    assert (Hd : match y with Some t => steady t | None => True end).
    { apply in_app_or in Hy. destruct Hy as [Hy|Hy].
      - apply repeat_spec in Hy. subst y. exact I.
      - apply in_map_iff in Hy. destruct Hy as [d [<- Hd]].
        apply Hv. size_tac. }
    clear Hy. destruct (since Py30 self); autounfold with rules; st.
  - rewrite signature_vararg_rule.
    apply steady_bind; [autounfold with rules; st | intros w2].
    rewrite signature_kwarg_rule.
    apply steady_bind; [autounfold with rules; st | intros w3; st].
Qed.

Lemma steady_write_comma (w : bool) : steady (write_comma w).
Proof. unfold write_comma. st. Qed.

Definition deferred_steady (s : bool * list (M unit)) : Prop :=
  Forall steady (snd s).

Lemma steady_call_signature_Python35 (args keywords : list ast.node) :
  (forall x, In x args -> (size x < k)%nat) ->
  (forall x, In x keywords -> (size x < k)%nat) ->
  steady (call_signature_Python35 v args keywords).
Proof.
  intros Ha Hk g a g' H. unfold call_signature_Python35 in H.
  unfold bind at 1 in H.
  destruct (for_fold (call_arg_Python35 v) args (false, []) g)
    as [[w1 stars] g1|] eqn:E1; [|discriminate H].
  apply (for_fold_invariant _ deferred_steady) in E1;
    [|clear E1 H | constructor].
  2:{ intros x [w l] g0 s' g0' Hx Hl Hr. unfold call_arg_Python35 in Hr.
      assert (Hs : steady (v x)) by (apply Hv, Ha, Hx).
      destruct (isinstance_Starred x).
      - injection Hr as <- <-. split; [apply extends_refl|].
        apply Forall_app. split; [exact Hl | constructor; [exact Hs|]].
        constructor.
      - unfold bind at 1 in Hr.
        destruct (write_comma w g0) as [w' g2|] eqn:E; [|discriminate Hr].
        unfold bind at 1 in Hr.
        destruct (v x g2) as [[] g3|] eqn:E'; [|discriminate Hr].
        injection Hr as <- <-. split; [|exact Hl].
        eapply extends_trans; [|apply (Hs _ _ _ E')].
        apply (steady_write_comma _ _ _ _ E). }
  destruct E1 as [X1 S1]. unfold bind at 1 in H.
  destruct (for_fold (call_keyword_Python35 v) keywords (w1, []) g1)
    as [[w2 kws] g2|] eqn:E2; [|discriminate H].
  apply (for_fold_invariant _ deferred_steady) in E2;
    [|clear E2 H | constructor].
  2:{ intros x [w l] g0 s' g0' Hx Hl Hr. unfold call_keyword_Python35 in Hr.
      assert (Hs : steady (v x)) by (apply Hv, Hk, Hx).
      unfold bind at 1 in Hr.
      destruct (attr_arg x g0) as [name g4|] eqn:E4; [|discriminate Hr].
      assert (g4 = g0) as ->.
      { destruct x; cbn in E4; try discriminate E4;
          injection E4 as _ <-; reflexivity. }
      destruct (truthy name).
      - unfold bind at 1 in Hr.
        destruct (write_comma w g0) as [w' g5|] eqn:E; [|discriminate Hr].
        unfold bind at 1 in Hr.
        destruct (v x g5) as [[] g3|] eqn:E'; [|discriminate Hr].
        injection Hr as <- <-. split; [|exact Hl].
        eapply extends_trans; [|apply (Hs _ _ _ E')].
        apply (steady_write_comma _ _ _ _ E).
      - injection Hr as <- <-. split; [apply extends_refl|].
        apply Forall_app. split; [exact Hl | constructor; [exact Hs|]].
        constructor. }
  destruct E2 as [X2 S2]. unfold deferred_steady in S1, S2.
  cbn [snd] in S1, S2. rewrite Forall_forall in S1, S2.
  eapply extends_trans; [exact X1|]. eapply extends_trans; [exact X2|].
  refine ((_ : steady (want_comma <- for_fold call_deferred stars w2 ;;
                       want_comma <- for_fold call_deferred kws want_comma ;;
                       ret tt)) _ _ _ H).
  autounfold with rules.
  apply steady_bind; [|intros w3; apply steady_bind; [|intros ?; st]].
  - apply steady_for_fold. intros x s Hx. specialize (S1 x Hx). st.
  - apply steady_for_fold. intros x s Hx. specialize (S2 x Hx). st.
Qed.

Lemma steady_call_signature (args keywords : list ast.node)
    (starargs kwargs : option ast.node) :
  (forall x, In x args -> (size x < k)%nat) ->
  (forall x, In x keywords -> (size x < k)%nat) ->
  (forall x, starargs = Some x -> (size x < k)%nat) ->
  (forall x, kwargs = Some x -> (size x < k)%nat) ->
  steady (call_signature self v args keywords starargs kwargs).
Proof.
  intros Ha Hk Hs Hw. rewrite call_signature_rule.
  destruct (since Py35 self).
  - apply steady_call_signature_Python35; assumption.
  - unfold call_signature_Base. autounfold with rules.
    apply steady_bind; [|intros w1; apply steady_bind; [|intros w2]].
    + apply steady_for_fold. intros x s Hx. apply Ha in Hx.
      apply Hv in Hx. st.
    + apply steady_for_fold. intros x s Hx. apply Hk in Hx.
      apply Hv in Hx. st.
    + destruct starargs as [x|];
        [specialize (Hv x (Hs x eq_refl)) as Hx|];
        (destruct kwargs as [y|];
          [specialize (Hv y (Hw y eq_refl)) as Hy|]); st.
Qed.

Lemma steady_generic_visit (node : ast.node) :
  (size node <= k)%nat -> steady (generic_visit v node).
Proof.
  intros Hn. destruct node; cbn [generic_visit]; autounfold with rules; st.
Qed.

Ltac rule :=
  st_with ltac:(idtac;
    lazymatch goal with
    | |- steady (generic_visit _ _) => apply steady_generic_visit; size_tac
    | |- steady (signature _ _ _) => apply steady_signature; size_tac
    | |- steady (call_signature _ _ _ _ _ _) =>
        apply steady_call_signature;
        [intros ? ?; size_tac | intros ? ?; size_tac
        |intros ? ->; size_tac | intros ? ->; size_tac]
    | |- steady (visit_Delete_targets _ _ _) =>
        apply steady_visit_Delete_targets; intros ? ?; rule
    | |- steady (visit_With_items _ _ _) =>
        apply steady_visit_With_items; intros ? ?;
        autounfold with rules; rule
    | |- _ => try assumption
    end).

Lemma steady_own_visit (c : visitor_class) (node : ast.node)
    (m : M unit) :
  (size node <= k)%nat -> own_visit self v e c node = Some m -> steady m.
Proof.
  intros Hn H.
  destruct c, node; cbn [own_visit] in H; try discriminate H;
    injection H as <-; autounfold with rules; rule.
Qed.

Lemma steady_visit_ (node : ast.node) :
  (size node <= k)%nat -> steady (visit_ self v e node).
Proof.
  intros Hn. unfold visit_, resolve.
  generalize (mro self). intros l. induction l as [|c l IH].
  - apply steady_generic_visit, Hn.
  - cbn [first_defined].
    destruct (own_visit self v e c node) as [m|] eqn:E; [|exact IH].
    exact (steady_own_visit c node m Hn E).
Qed.

Lemma steady_elif_ (node : ast.node) :
  (size node <= k)%nat -> steady (elif_ v e node).
Proof. intros Hn. destruct node; autounfold with rules; rule. Qed.

End Steady.

(** Every node is rendered by a steady computation: by induction on a
    bound of the size of the node. *)
Lemma visit_steady_bound (self : visitor_class) (k : nat) :
  forall node, (size node < k)%nat ->
    steady (visit self node) /\ steady (visit_elif self node).
Proof.
  induction k as [|k IH]; intros node Hn; [lia|].
  assert (Hv : forall x, (size x < k)%nat -> steady (visit self x))
    by (intros x Hx; apply (IH x Hx)).
  assert (He : forall x, (size x < k)%nat -> steady (visit_elif self x))
    by (intros x Hx; apply (IH x Hx)).
  rewrite visit_eq, visit_elif_eq. split.
  - apply (steady_visit_ self _ _ k Hv He). lia.
  - apply (steady_elif_ _ _ k Hv He). lia.
Qed.

Lemma visit_steady (self : visitor_class) (node : ast.node) :
  steady (visit self node).
Proof. apply (visit_steady_bound self (S (size node))). lia. Qed.

(** X14: rendering only appends: when [visit] returns, on any node, for
    any class of the chain and from any state of the generator, the
    pieces of text that were in [result] before are still there, in the
    same order, as the beginning of [result]. *)
Theorem visit_only_appends (self : visitor_class) (node : ast.node)
    (g g' : generator) :
  visit self node g = Returns tt g' ->
  exists suffix, result g' = (result g ++ suffix)%list.
Proof. intros H. apply (visit_steady self node g tt g' H). Qed.

Lemma visit_only_appends_witness :
  let node := ast.If (Some 2%Z) (ast.Name None "a") [ast.Pass (Some 3%Z)] []
  in
  let g := {| result := ["x"]; indent_with := "  "; indentation := 1;
              new_line := false |} in
  let g' := {| result := ["x"; py.nl; "  "; "if "; "a"; ":"; py.nl; "    ";
                          "pass"];
               indent_with := "  "; indentation := 1; new_line := false |}
  in
  visit Py36 node g = Returns tt g'
  /\ exists suffix, result g' = (result g ++ suffix)%list.
Proof.
  intros node g g'.
  assert (H : visit Py36 node g = Returns tt g') by (vm_compute; reflexivity).
  split; [exact H | exact (visit_only_appends Py36 node g g' H)].
Defined.

(** X15: indentation is restored: when [visit] returns, on any node,
    the level [indentation] and the unit [indent_with] of the generator
    are what they were before, however many bodies were rendered in
    between. *)
Theorem visit_restores_indentation (self : visitor_class)
    (node : ast.node) (g g' : generator) :
  visit self node g = Returns tt g' ->
  indentation g' = indentation g /\ indent_with g' = indent_with g.
Proof.
  intros H. destruct (visit_steady self node g tt g' H) as [H1 [H2 _]].
  split; assumption.
Qed.

Lemma visit_restores_indentation_witness :
  let node :=
    ast.While (Some 1%Z) (ast.Name None "a")
      [ast.If (Some 2%Z) (ast.Name None "b") [ast.Break (Some 3%Z)] []] []
  in
  let g' := {| result := [""; "while "; "a"; ":"; py.nl; "    "; "if "; "b";
                          ":"; py.nl; "        "; "break"];
               indent_with := "    "; indentation := 0; new_line := false |}
  in
  visit Py27 node (init "    ") = Returns tt g'
  /\ indentation g' = indentation (init "    ")
  /\ indent_with g' = indent_with (init "    ").
Proof.
  intros node g'.
  assert (H : visit Py27 node (init "    ") = Returns tt g')
    by (vm_compute; reflexivity).
  split; [exact H|].
  exact (visit_restores_indentation Py27 node (init "    ") g' H).
Defined.

(** X16: the count of lines that [add_missing_lines] compares with the
    line of a node never goes back: when [visit] returns, the output has
    at least as many lines as before. *)
Theorem visit_keeps_lines (self : visitor_class) (node : ast.node)
    (g g' : generator) :
  visit self node g = Returns tt g' -> lines g <= lines g'.
Proof.
  intros H. destruct (visit_steady self node g tt g' H) as [_ [_ [l Hl]]].
  destruct (result g) as [|x r] eqn:E.
  - unfold lines at 1. rewrite E. unfold lines.
    destruct (result g'); [lia | unfold py.len; lia].
  - assert (Hg : result g <> []) by (rewrite E; discriminate).
    assert (Hg' : result g' <> []) by (rewrite Hl; discriminate).
    rewrite <- E in Hl.
    rewrite (lines_count g Hg), (lines_count g' Hg'). unfold text.
    rewrite Hl, join_app, count_LF_app. lia.
Qed.

Lemma visit_keeps_lines_witness :
  let node := ast.Pass (Some 1%Z) in
  let g := {| result := ["x"; py.nl; "y"]; indent_with := " ";
              indentation := 0; new_line := false |} in
  let g' := {| result := ["x"; py.nl; "y"; py.nl; ""; "pass"];
               indent_with := " "; indentation := 0; new_line := false |}
  in
  visit Py27 node g = Returns tt g' /\ lines g <= lines g'.
Proof.
  intros node g g'.
  assert (H : visit Py27 node g = Returns tt g') by (vm_compute; reflexivity).
  split; [exact H | exact (visit_keeps_lines Py27 node g g' H)].
Defined.

(** ** Attributes that a rule does not read *)

(** Line reconciliation reads the attribute [lineno] of the node and
    nothing else. *)
Lemma correct_line_number_lineno (n1 n2 : ast.node) :
  lineno n1 = lineno n2 ->
  correct_line_number (Some n1) = correct_line_number (Some n2).
Proof.
  intros H. unfold correct_line_number, add_missing_lines.
  rewrite H. reflexivity.
Qed.

Lemma newline_lineno (n1 n2 : ast.node) :
  lineno n1 = lineno n2 -> newline (Some n1) = newline (Some n2).
Proof.
  intros H. unfold newline. rewrite (correct_line_number_lineno n1 n2 H).
  reflexivity.
Qed.

Lemma write_lineno (x : string) (n1 n2 : ast.node) :
  lineno n1 = lineno n2 -> write x (Some n1) = write x (Some n2).
Proof.
  intros H. unfold write. rewrite (correct_line_number_lineno n1 n2 H).
  reflexivity.
Qed.

Section AttributeDispatch.

Variable self : visitor_class.
Variable v e : ast.node -> M unit.

Lemma visit_AsyncFunctionDef_rule ln name args b d returns :
  since Py35 self = true ->
  visit_ self v e (ast.AsyncFunctionDef ln name args b d returns) =
  visit_AsyncFunctionDef self v
    (ast.AsyncFunctionDef ln name args b d returns) name args b d.
Proof. destruct self; intros H; try discriminate H; reflexivity. Qed.



Lemma visit_Import_rule ln names :
  visit_ self v e (ast.Import ln names) =
  visit_Import v (ast.Import ln names) names.
Proof. destruct self; reflexivity. Qed.

Lemma visit_alias_rule name asname :
  visit_ self v e (ast.alias name asname) = visit_alias name asname.
Proof. destruct self; reflexivity. Qed.

End AttributeDispatch.

(** X17: from the class of Python 3.5 on, the annotation [returns] of an
    [async def] is never rendered: the node is rendered as the same node
    without it.  (The rule of [def] writes it from Python 3.0 on.) *)
Theorem async_def_drops_returns (self : visitor_class) (ln : option Z)
    (name : string) (args : ast.node) (b d : list ast.node)
    (returns : option ast.node) :
  since Py35 self = true ->
  visit self (ast.AsyncFunctionDef ln name args b d returns) =
  visit self (ast.AsyncFunctionDef ln name args b d None).
Proof.
  intros H. rewrite !visit_eq, !visit_AsyncFunctionDef_rule by exact H.
  unfold visit_AsyncFunctionDef, function_definition.
  rewrite (newline_lineno _ (ast.AsyncFunctionDef ln name args b d None))
    by reflexivity.
  rewrite (write_lineno _ _ (ast.AsyncFunctionDef ln name args b d None))
    by reflexivity.
  reflexivity.
Qed.

Lemma async_def_drops_returns_witness :
  to_source Py36
    (ast.AsyncFunctionDef (Some 1%Z) "f"
       (ast.arguments [] None [] [] None []) [ast.Pass (Some 2%Z)] []
       (Some (ast.Name None "int"))) "  "
  = to_source Py36
      (ast.AsyncFunctionDef (Some 1%Z) "f"
         (ast.arguments [] None [] [] None []) [ast.Pass (Some 2%Z)] []
         None) "  ".
Proof.
  unfold to_source.
  rewrite (async_def_drops_returns Py36 (Some 1%Z) "f"
             (ast.arguments [] None [] [] None []) [ast.Pass (Some 2%Z)] []
             (Some (ast.Name None "int")) eq_refl).
  reflexivity.
Defined.



(** ** Boolean operations *)

Definition then_token (token : string) (item : M unit) : M unit :=
  write (" " ++ token ++ " ") None ;; item.

(** The items, with the token between two of them. *)
Definition token_separated (token : string) (items : list (M unit))
    : M unit :=
  match items with
  | [] => ret tt
  | item :: r => item ;; for_each (then_token token) r
  end.

Lemma boolop_item_enumerate (v : ast.node -> M unit)
    (op : ast.operator_class) (token : string) (l : list ast.node) :
  BOOLOP_SYMBOLS op = Some token ->
  forall (idx idx0 : Z) (k : M unit),
    0 < idx ->
    (for_enumerate (boolop_item v op) idx l idx0 ;; k) =~
    (for_each (then_token token) (map v l) ;; k).
Proof.
  intros Hop. induction l as [|x r IH]; intros idx idx0 k Hidx.
  - cbn [for_enumerate map for_each]. mnorm. reflexivity.
  - cbn [for_enumerate map for_each].
    unfold boolop_item at 1, then_token at 1, subscript.
    replace (idx =? 0) with false by (symmetry; apply Z.eqb_neq; lia).
    rewrite Hop. mnorm. mstep. mstep. apply IH. lia.
Qed.

(** X20: a boolean operation whose operator has the token [token] in
    [BOOLOP_SYMBOLS] is written between parentheses, its values separated
    by the token between two spaces, whatever the number of values; without
    value only the two parentheses are written. *)
Theorem boolop_values (self : visitor_class) (ln : option Z)
    (op : ast.operator_class) (token : string) (values : list ast.node)
    (g : generator) :
  BOOLOP_SYMBOLS op = Some token ->
  visit self (ast.BoolOp ln op values) g =
  (write "(" None ;;
   token_separated token (map (visit self) values) ;;
   write ")" None) g.
Proof.
  intros Hop. rewrite visit_eq, visit_BoolOp_rule. unfold visit_BoolOp.
  apply meq_at. mstep. destruct values as [|x r].
  - cbn [for_enumerate map token_separated]. mnorm. reflexivity.
  - cbn [for_enumerate map token_separated]. unfold boolop_item at 1.
    change (0 =? 0) with true. mnorm. mstep.
    apply (boolop_item_enumerate _ op token r Hop). lia.
Qed.

Lemma boolop_values_witness :
  to_source Py36
    (ast.BoolOp None ast.Or
       [ast.Name None "a"; ast.Name None "b"; ast.Name None "c"]) ""
  = inr "(a or b or c)".
Proof.
  unfold to_source.
  rewrite (boolop_values Py36 None ast.Or "or"
             [ast.Name None "a"; ast.Name None "b"; ast.Name None "c"]
             (init "") eq_refl).
  vm_compute. reflexivity.
Defined.

(** ** Loops over two lists, and the general tuple *)

Lemma for_zip_firstn {A B St : Type} (f : A -> B -> St -> M St)
    (l : list A) (l' : list B) (s : St) :
  for_zip f l l' s =~
  for_zip f (firstn (Nat.min (List.length l) (List.length l')) l)
    (firstn (Nat.min (List.length l) (List.length l')) l') s.
Proof.
  revert l' s. induction l as [|x r IH]; intros [|y r'] s; try reflexivity.
  cbn [List.length Nat.min firstn for_zip].
  apply bind_Proper; [reflexivity | intros s'; apply IH].
Qed.

(** X21: a comparison renders the pairs of [zip(ops, comparators)]: when
    one of the two lists is longer than the other, what it has beyond the
    length of the shorter one is neither rendered nor looked up. *)
Theorem compare_renders_pairs (self : visitor_class) (ln : option Z)
    (lhs : ast.node) (ops : list ast.operator_class)
    (comparators : list ast.node) (g : generator) :
  visit self (ast.Compare ln lhs ops comparators) g =
  visit self
    (ast.Compare ln lhs
       (firstn (Nat.min (List.length ops) (List.length comparators)) ops)
       (firstn (Nat.min (List.length ops) (List.length comparators))
          comparators)) g.
Proof.
  rewrite !visit_eq, !visit_Compare_rule. unfold visit_Compare.
  apply meq_at. mstep.
  rewrite (for_zip_firstn _ ops (map (visit self) comparators) tt).
  rewrite length_map, firstn_map. reflexivity.
Qed.

(** X22: a tuple of two elements or more is written between parentheses
    with its elements separated by commas, and no comma before the closing
    parenthesis. *)
Theorem tuple_commas (self : visitor_class) (ln : option Z)
    (x y : ast.node) (r : list ast.node) (g : generator) :
  visit self (ast.Tuple ln (x :: y :: r)) g =
  (write "(" None ;;
   comma_separated (map (visit self) (x :: y :: r)) ;;
   write ")" None) g.
Proof.
  rewrite visit_eq, visit_Tuple_rule. unfold visit_Tuple.
  apply meq_at. mstep. rewrite comma_item_enumerate_0. mnorm. mstep.
  replace (py.len (y :: r) =? 0) with false; [reflexivity|].
  symmetry. apply Z.eqb_neq. unfold py.len. cbn [List.length]. lia.
Qed.

(** ** Imports *)

(** [newline] returns, and leaves no line break pending. *)
Lemma newline_settles (node : option ast.node) (g : generator) :
  exists g1, newline node g = Returns tt g1 /\ new_line g1 = false.
Proof.
  unfold newline, bind at 1, set_new_line.
  set (g0 := {| result := result g; indent_with := indent_with g;
                indentation := indentation g; new_line := true |}).
  assert (H : exists g2, write_newline g0 = Returns tt g2
                         /\ new_line g2 = false /\ result g2 <> []).
  { destruct (result g0) as [|x r] eqn:E.
    - eexists. split; [apply write_newline_empty; exact E|].
      split; [reflexivity | discriminate].
    - assert (Hr : result g0 <> []) by (rewrite E; discriminate).
      exists (broken g0 1). split; [apply write_newline_nonempty, Hr|].
      split; [reflexivity | apply broken_nonempty, Hr]. }
  destruct H as [g2 [Hw [Hn Hr]]].
  unfold correct_line_number, bind, get. cbn [new_line g0]. rewrite Hw.
  destruct node as [n|]; [|exists g2; split; [reflexivity | exact Hn]].
  destruct (lineno n) as [l|] eqn:El;
    [|exists g2; split; [reflexivity | exact Hn]].
  rewrite (add_missing_lines_times n l g2 El).
  rewrite (times_write_newline g2 _ Hr Hn).
  eexists. split; reflexivity.
Qed.

Lemma write_appends (x : string) (g : generator) :
  new_line g = false -> write x None g = Returns tt (appended g [x]).
Proof.
  intros H. unfold write, bind at 1, correct_line_number, bind, get.
  rewrite H. reflexivity.
Qed.

Lemma appended_appended (g : generator) (l l' : list string) :
  appended (appended g l) l' = appended g (l ++ l').
Proof. unfold appended; cbn. rewrite <- app_assoc. reflexivity. Qed.

Lemma appended_nil (g : generator) : appended g [] = g.
Proof. unfold appended. rewrite app_nil_r. destruct g; reflexivity. Qed.

Definition alias_of (a : string * option string) : ast.node :=
  ast.alias (fst a) (snd a).

(** The texts written for one name of an [import] statement. *)
Definition import_pieces (a : string * option string) : list string :=
  "import " :: fst a ::
  match snd a with
  | Some asname => [" as " ++ asname]
  | None => []
  end.

Lemma import_items (self : visitor_class)
    (names : list (string * option string)) :
  forall g, new_line g = false ->
    for_each (fun item => write "import " None ;; visit self item)
      (map alias_of names) g =
    Returns tt (appended g (flat_map import_pieces names)).
Proof.
  induction names as [|[name asname] r IH]; intros g Hg.
  - cbn [map for_each flat_map]. rewrite appended_nil. reflexivity.
  - cbn [map for_each flat_map]. unfold alias_of at 1. cbn [fst snd].
    rewrite visit_eq, visit_alias_rule. unfold visit_alias.
    unfold bind at 1 2. rewrite (write_appends _ g Hg).
    unfold bind at 1 2. rewrite (write_appends _ (appended g _)) by exact Hg.
    rewrite appended_appended.
    destruct asname as [a|]; unfold import_pieces; cbn [fst snd].
    + rewrite (write_appends _ (appended g _)) by exact Hg.
      rewrite appended_appended, IH by exact Hg.
      rewrite appended_appended. reflexivity.
    + unfold ret at 1. rewrite IH by exact Hg.
      rewrite appended_appended. reflexivity.
Qed.

(** X23: an [import] statement writes the keyword before each of its
    names and nothing between two names: after the line break of the
    statement, the texts written are those of the names one after the
    other, each one [import ], the name and its [ as ] clause, with no
    comma and no line break in between. *)
Theorem import_names_run_together (self : visitor_class) (ln : option Z)
    (names : list (string * option string)) (g : generator) :
  exists g1,
    newline (Some (ast.Import ln (map alias_of names))) g = Returns tt g1
    /\ visit self (ast.Import ln (map alias_of names)) g =
       Returns tt (appended g1 (flat_map import_pieces names)).
Proof.
  destruct (newline_settles (Some (ast.Import ln (map alias_of names))) g)
    as [g1 [H1 Hn]].
  exists g1. split; [exact H1|].
  rewrite visit_eq, visit_Import_rule. unfold visit_Import, bind at 1.
  rewrite H1. apply import_items, Hn.
Qed.

Example import_of_two_names :
  to_source Py27
    (ast.Import (Some 1%Z) [ast.alias "a" None; ast.alias "b" (Some "c")])
    "    "
  = inr "import aimport b as c".
Proof. vm_compute. reflexivity. Qed.
